(** * Structured-record merge and tabular projection

    A shallow embedding of the merge loop of [DataExtractor.extract_data]
    (src/data_extractor.py), the record classes of src/models.py, the
    projection of [JsonToDataFrame] (src/json_to_dataframe.py) and the
    prompt lookup of [OCRProcessor] (src/ocr_processor.py), with the
    properties the specification states about them. *)

From Stdlib Require Import ZArith List String Ascii Bool Lia Sorted.
From Stdlib Require Import DecimalString DecimalNat.
From stdpp Require Import base list.
Import ListNotations.
Local Open Scope Z_scope.
Local Open Scope string_scope.
Local Open Scope list_scope.

(** ** JSON-shaped Python values

    What the recognition service returns and what every function below
    consumes: [None], booleans, integers, strings, lists and dicts.  JSON
    reals are not modelled; no function of the repository computes with
    numbers, and the floats that the type inference of a table column
    makes of integers are cells of the table, not values. *)

#[local] Set Warnings "-register-all".

Inductive value : Type :=
| VNone
| VBool (b : bool)
| VInt (z : Z)
| VStr (s : string)
| VList (l : list value)
| VDict (d : list (string * value)).

Definition is_list (v : value) : bool :=
  match v with VList _ => true | _ => false end.

Definition is_dict (v : value) : bool :=
  match v with VDict _ => true | _ => false end.

Definition is_str (v : value) : bool :=
  match v with VStr _ => true | _ => false end.

(** [type(v).__name__] *)
Definition type_name (v : value) : string :=
  match v with
  | VNone => "NoneType"
  | VBool _ => "bool"
  | VInt _ => "int"
  | VStr _ => "str"
  | VList _ => "list"
  | VDict _ => "dict"
  end.

(** A leaf of the JSON tree. *)
Definition is_scalar (v : value) : bool :=
  match v with VList _ | VDict _ => false | _ => true end.

(** Python truth value: [bool(v)]. *)
Definition truthy (v : value) : bool :=
  match v with
  | VNone => false
  | VBool b => b
  | VInt z => negb (z =? 0)%Z
  | VStr s => negb (String.eqb s "")
  | VList l => match l with [] => false | _ => true end
  | VDict d => match d with [] => false | _ => true end
  end.

(** ** Python dicts

    A [dict] keeps its keys in insertion order, and assigning to a key that
    is present keeps the key where it is: an association list whose keys
    are pairwise distinct. *)

Section Dict.
Context {V : Type}.

Definition dict := list (string * V).

Fixpoint dict_get (k : string) (d : dict) : option V :=
  match d with
  | [] => None
  | (k', v) :: d' => if String.eqb k k' then Some v else dict_get k d'
  end.

(** [k in d] *)
Definition dict_has (k : string) (d : dict) : bool :=
  match dict_get k d with Some _ => true | None => false end.

(** [d[k] = v] *)
Fixpoint dict_set (k : string) (v : V) (d : dict) : dict :=
  match d with
  | [] => [(k, v)]
  | (k', v') :: d' =>
      if String.eqb k k' then (k, v) :: d' else (k', v') :: dict_set k v d'
  end.

(** [list(d.keys())] *)
Definition dict_keys (d : dict) : list string := map fst d.

(** [list(d.values())] *)
Definition dict_values (d : dict) : list V := map snd d.

Definition dict_wf (d : dict) : Prop := List.NoDup (dict_keys d).
End Dict.

Arguments dict V : clear implicits.

(** ** Exceptions *)

Inductive exn : Type :=
| ValueError (msg : string)
| TypeError (msg : string)
| AttributeError (msg : string)
| ValidationError (msg : string)
| FileNotFoundError (msg : string)
| AssertionError (msg : string)
| OSError (msg : string).

Inductive result (A : Type) : Type :=
| Ok (a : A)
| Raise (e : exn).

Arguments Ok {A} a.
Arguments Raise {A} e.

Definition bind {A B : Type} (r : result A) (f : A -> result B) : result B :=
  match r with
  | Ok a => f a
  | Raise e => Raise e
  end.

Notation "'perform' x := r 'in' k" := (bind r (fun x => k))
  (at level 10, x name, r at level 100, k at level 200).

(** The message of an [AttributeError] on a value. *)
Definition no_attribute (v : value) (attribute : string) : string :=
  "'" ++ type_name v ++ "' object has no attribute '" ++ attribute ++ "'".

Definition raises {A : Type} (r : result A) : bool :=
  match r with Ok _ => false | Raise _ => true end.

(** A [for] loop whose body may raise. *)
Fixpoint for_each {A S : Type} (body : S -> A -> result S) (xs : list A) (s : S)
  : result S :=
  match xs with
  | [] => Ok s
  | x :: xs' => perform s' := body s x in for_each body xs' s'
  end.

(** ** The record classes of src/models.py

    The classes are parameterised by how the top-level values of a record
    are held: by value ([V := value]) where a function only reads them, by
    reference into the object store ([V := loc]) where the merge loop
    updates list objects in place. *)

Record StructuredOCR (V : Type) : Type := {
  file_name : string;
  ocr_contents : dict V
}.

Record PDFPage (V : Type) : Type := {
  page_number : Z;
  image_path : string;
  ocr_data : option (StructuredOCR V)
}.

Arguments file_name {V} _.
Arguments ocr_contents {V} _.
Arguments page_number {V} _.
Arguments image_path {V} _.
Arguments ocr_data {V} _.

(** [ExtractionResult.extracted_data] is declared [dict]; the attribute of
    an instance built without validation can hold any value, which is what
    [create_dataframe_from_extraction_result] tests for. *)
Record ExtractionResult : Type := {
  pdf_file : string;
  prompt_name : string;
  extracted_data : value
}.

(** ** The object store

    Python variables, dict slots and list slots hold references.  The merge
    loop of [extract_data] stores the value objects of the pages in the
    result dict and later calls [extend] and [append] on them, so the
    top-level values of every [ocr_contents] are objects of a store,
    addressed by their index; what lies inside a value is never updated by
    the loop and is held by value. *)

Abbreviation loc := nat (only parsing).
Abbreviation heap := (list value) (only parsing).

Definition deref (h : heap) (l : loc) : value := default VNone (h !! l).

(** The dict a by-reference dict denotes in a store. *)
Definition snapshot (h : heap) (d : dict loc) : dict value :=
  map (fun kl => (fst kl, deref h (snd kl))) d.

(** Allocation of freshly parsed values: one new object per top-level
    value, as a JSON parser produces them. *)
Fixpoint alloc_dict (h : heap) (d : dict value) : heap * dict loc :=
  match d with
  | [] => (h, [])
  | (k, v) :: d' =>
      let '(h', r) := alloc_dict (h ++ [v]) d' in (h', (k, length h) :: r)
  end.

Definition alloc_page (h : heap) (p : PDFPage value) : heap * PDFPage loc :=
  match ocr_data p with
  | Some s =>
      let '(h', c) := alloc_dict h (ocr_contents s) in
      (h', {| page_number := page_number p; image_path := image_path p;
              ocr_data := Some {| file_name := file_name s; ocr_contents := c |} |})
  | None =>
      (h, {| page_number := page_number p; image_path := image_path p;
             ocr_data := None |})
  end.

Fixpoint alloc_pages (h : heap) (ps : list (PDFPage value))
  : heap * list (PDFPage loc) :=
  match ps with
  | [] => (h, [])
  | p :: ps' =>
      let '(h1, q) := alloc_page h p in
      let '(h2, qs) := alloc_pages h1 ps' in (h2, q :: qs)
  end.

(** What a page's [ocr_data.ocr_contents] reads as in a store. *)
Definition page_contents (h : heap) (p : PDFPage loc) : option (dict value) :=
  match ocr_data p with
  | Some s => Some (snapshot h (ocr_contents s))
  | None => None
  end.

(** ** The merge loop of [DataExtractor.extract_data]
    (src/data_extractor.py, lines 94-112) *)

(** The body of [for key, value in page_data.items()].  [extend] and
    [append] update the stored list object where it is.  The two-element
    list of line 110 is a new object that holds the two objects; it is
    written with what they read as, which is what it reads as from then
    on as long as the second one is not updated through another
    reference, that is as long as no object stands under two keys or on
    two pages, as for freshly parsed pages ([alloc_pages]). *)
Definition merge_item (st : heap * dict loc) (kv : string * loc) : heap * dict loc :=
  let '(h, extracted_data) := st in
  let '(key, value) := kv in
  match dict_get key extracted_data with
  | Some stored =>
      match deref h stored with
      | VList xs =>
          match deref h value with
          | VList ys =>
              (* extracted_data[key].extend(value) *)
              (<[stored := VList (xs ++ ys)]> h, extracted_data)
          | v =>
              (* extracted_data[key].append(value) *)
              (<[stored := VList (xs ++ [v])]> h, extracted_data)
          end
      | old =>
          (* extracted_data[key] = [extracted_data[key], value] *)
          (h ++ [VList [old; deref h value]],
           dict_set key (length h) extracted_data)
      end
  | None =>
      (* extracted_data[key] = value *)
      (h, dict_set key value extracted_data)
  end.

(** The body of [for page in pdf_pages]; a model instance is always
    truthy, so [if page.ocr_data:] tests for [None]. *)
Definition merge_page (st : heap * dict loc) (page : PDFPage loc) : heap * dict loc :=
  match ocr_data page with
  | Some ocr => fold_left merge_item (ocr_contents ocr) st
  | None => st
  end.

Definition merge_pages (h : heap) (pdf_pages : list (PDFPage loc)) : heap * dict loc :=
  fold_left merge_page pdf_pages (h, []).

(** The merged dict as a value. *)
Definition merged_data (h : heap) (pdf_pages : list (PDFPage loc)) : dict value :=
  let '(h', d) := merge_pages h pdf_pages in snapshot h' d.

(** ** [DataExtractor.extract_data] (src/data_extractor.py, lines 60-118)

    The OCR processor is a collaborator: given the store, the pages and the
    prompt name it leaves the store and the pages as it has updated them,
    and it returns the combined record when the combined analysis
    succeeded, no record when it processed the pages one by one, or it
    raises: in [structured_ocr] the check that the image file exists and
    the reading of the file stand before the [try], and [extract_data]
    has no handler around the call. *)

Definition OCRProcessor : Type :=
  heap -> list (PDFPage loc) -> string ->
  heap * list (PDFPage loc) * result (option (StructuredOCR loc)).

Record DataExtractor : Type := {
  prompts : dict string;
  ocr_processor : option OCRProcessor
}.

Definition prompt_missing_message (name : string) : string :=
  "Le prompt '" ++ name ++ "' n'existe pas".

Definition fallback_result (h : heap) (pdf_pages : list (PDFPage loc))
    (name pdf : string) : heap * list (PDFPage loc) * ExtractionResult :=
  let '(h', d) := merge_pages h pdf_pages in
  (h', pdf_pages,
   {| pdf_file := pdf; prompt_name := name; extracted_data := VDict (snapshot h' d) |}).

Definition extract_data (self : DataExtractor) (h : heap)
    (pdf_pages : list (PDFPage loc)) (name pdf : string)
  : result (heap * list (PDFPage loc) * ExtractionResult) :=
  if negb (dict_has name (prompts self)) then
    Raise (ValueError (prompt_missing_message name))
  else
    match ocr_processor self with
    | Some process_pdf_pages =>
        match process_pdf_pages h pdf_pages name with
        | (h1, pages1, Ok (Some combined)) =>
            Ok (h1, pages1,
                {| pdf_file := pdf; prompt_name := name;
                   extracted_data := VDict (snapshot h1 (ocr_contents combined)) |})
        | (h1, pages1, Ok None) => Ok (fallback_result h1 pages1 name pdf)
        | (_, _, Raise e) => Raise e
        end
    | None => Ok (fallback_result h pdf_pages name pdf)
    end.

(** The store and the pages as [extract_data] leaves them when it raises:
    untouched when the prompt is missing, as the OCR processor left them
    when the processor raised. *)
Definition state_at_raise (self : DataExtractor) (h : heap)
    (pdf_pages : list (PDFPage loc)) (name : string) : heap * list (PDFPage loc) :=
  if negb (dict_has name (prompts self)) then (h, pdf_pages)
  else
    match ocr_processor self with
    | Some process_pdf_pages => fst (process_pdf_pages h pdf_pages name)
    | None => (h, pdf_pages)
    end.

(** ** Construction of the model classes (src/models.py)

    The classes declare field types and nothing else: no [Field]
    constraint, no validator.  Construction checks each argument against
    the declared type of its field; an argument written at a Rocq type
    below is one that already has the declared type. *)

Definition validate_dict (v : value) : result (dict value) :=
  match v with
  | VDict d => Ok d
  | _ => Raise (ValidationError "Input should be a valid dictionary")
  end.

Definition validate_str (v : value) : result string :=
  match v with
  | VStr s => Ok s
  | _ => Raise (ValidationError "Input should be a valid string")
  end.

(** [StructuredOCR(file_name=..., ocr_contents=...)] *)
Definition new_StructuredOCR (name : string) (contents : value)
  : result (StructuredOCR value) :=
  perform d := validate_dict contents in
  Ok {| file_name := name; ocr_contents := d |}.

(** [PDFPage(page_number=..., image_path=..., ocr_data=...)] *)
Definition new_PDFPage (number : Z) (path : string)
    (ocr : option (StructuredOCR value)) : result (PDFPage value) :=
  Ok {| page_number := number; image_path := path; ocr_data := ocr |}.

(** [ExtractionResult(pdf_file=..., prompt_name=..., extracted_data=...)] *)
Definition new_ExtractionResult (pdf : value) (name : string) (data : value)
  : result ExtractionResult :=
  perform f := validate_str pdf in
  perform d := validate_dict data in
  Ok {| pdf_file := f; prompt_name := name; extracted_data := VDict d |}.

(** ** Keys in order of first appearance *)

Fixpoint first_seen (ks : list string) : list string :=
  match ks with
  | [] => []
  | k :: ks' => k :: List.filter (fun k' => negb (String.eqb k' k)) (first_seen ks')
  end.

(** The keys met when the pages are scanned in the order of the list. *)
Definition page_keys {V : Type} (p : PDFPage V) : list string :=
  match ocr_data p with
  | Some s => dict_keys (ocr_contents s)
  | None => []
  end.

Definition scan_keys {V : Type} (ps : list (PDFPage V)) : list string :=
  concat (map page_keys ps).

(** The pages in ascending [page_number] order (a stable insertion sort). *)
Fixpoint insert_page {V : Type} (p : PDFPage V) (ps : list (PDFPage V))
  : list (PDFPage V) :=
  match ps with
  | [] => [p]
  | q :: ps' =>
      if (page_number p <=? page_number q)%Z then p :: q :: ps'
      else q :: insert_page p ps'
  end.

Fixpoint sort_pages {V : Type} (ps : list (PDFPage V)) : list (PDFPage V) :=
  match ps with
  | [] => []
  | p :: ps' => insert_page p (sort_pages ps')
  end.

Definition ascending {V : Type} (ps : list (PDFPage V)) : Prop :=
  Sorted (fun p q => (page_number p <= page_number q)%Z) ps.

(** [str(n)] for a natural number. *)
Definition str_of_nat (n : nat) : string := NilEmpty.string_of_uint (Nat.to_uint n).

(** ** Tables: the part of [pandas.DataFrame] the projection uses

    A frame is an index length and its columns in order, each column one
    cell per row.  A cell holds the Python object it was given, the
    missing marker where a record lacks the column, or the float64 of an
    integer: on a list of records [pd.DataFrame] infers a type for each
    column (pandas 2, [lib.maybe_convert_objects]). *)

Inductive cell : Type :=
| Val (v : value)
| NaN
| Float64 (z : Z).

Record DataFrame : Type := {
  df_index : nat;
  df_columns : dict (list cell)
}.

(** [pd.DataFrame()] *)
Definition DataFrame_new : DataFrame := {| df_index := 0; df_columns := [] |}.

Definition as_record (v : value) : result (dict value) :=
  match v with
  | VDict r => Ok r
  | _ => Raise (AttributeError (no_attribute v "keys"))
  end.

Fixpoint as_records (data : list value) : result (list (dict value)) :=
  match data with
  | [] => Ok []
  | v :: data' =>
      perform r := as_record v in
      perform rs := as_records data' in
      Ok (r :: rs)
  end.

Definition record_cell (c : string) (r : dict value) : cell :=
  match dict_get c r with
  | Some v => Val v
  | None => NaN
  end.

(** The type inference of a column of objects.

    A string, a list or a dict makes the column a column of objects, and
    so does a boolean unless every cell is one: the cells stay as they
    are.  Otherwise the column holds integers, [None] and missing
    markers.  Integers alone stay integers; integers together with [None]
    or a missing marker become floats, and [None] the missing marker;
    [None] alone stays [None], and together with a missing marker becomes
    one.  The scan goes from the first row down, and an integer met
    before the first [None] that fits neither int64 nor uint64, or a
    negative integer together with one above int64, makes the column a
    column of objects. *)

Definition INT64_MIN : Z := - 2 ^ 63.
Definition INT64_MAX : Z := 2 ^ 63 - 1.
Definition UINT64_MAX : Z := 2 ^ 64 - 1.

Definition keeps_objects (c : cell) : bool :=
  match c with
  | Val (VBool _) | Val (VStr _) | Val (VList _) | Val (VDict _) => true
  | _ => false
  end.

Fixpoint integers_overflow (null sint uint : bool) (column : list cell) : bool :=
  match column with
  | [] => false
  | Val VNone :: rest => integers_overflow true sint uint rest
  | Val (VInt z) :: rest =>
      if null then integers_overflow null sint uint rest
      else
        let sint' := (sint || ((INT64_MIN <=? z)%Z && (z <? 0)%Z))%bool in
        let uint' := (uint || ((INT64_MAX <? z)%Z && (z <=? UINT64_MAX)%Z))%bool in
        if ((uint' && sint') || (UINT64_MAX <? z)%Z || (z <? INT64_MIN)%Z)%bool then true
        else integers_overflow null sint' uint' rest
  | _ :: rest => integers_overflow null sint uint rest
  end.

Definition is_none (c : cell) : bool :=
  match c with Val VNone => true | _ => false end.

Definition is_nan (c : cell) : bool :=
  match c with NaN => true | _ => false end.

Definition is_int (c : cell) : bool :=
  match c with Val (VInt _) => true | _ => false end.

Definition is_float (c : cell) : bool :=
  match c with Float64 _ => true | _ => false end.

(** A cell of a column of floats. *)
Definition to_float (c : cell) : cell :=
  match c with
  | Val VNone => NaN
  | Val (VInt z) => Float64 z
  | _ => c
  end.

Definition maybe_convert_objects (column : list cell) : list cell :=
  if existsb keeps_objects column then column
  else if integers_overflow false false false column then column
  else if (existsb is_float column
           || (existsb is_none column || existsb is_nan column)
              && (existsb is_int column || existsb is_nan column))%bool
  then map to_float column
  else column.

(** [pd.DataFrame(data)] for a list whose first element is a dict: the
    columns are the keys of the records in order of first appearance, a
    record without a column gets the missing marker there, each column
    goes through the type inference, and an element that is not a dict
    makes the constructor raise ([x.keys()]). *)
Definition DataFrame_of_records (data : list value) : result DataFrame :=
  perform rows := as_records data in
  let columns := first_seen (concat (map dict_keys rows)) in
  Ok {| df_index := length rows;
        df_columns :=
          map (fun c => (c, maybe_convert_objects (map (record_cell c) rows)))
              columns |}.

(** [pd.DataFrame(columns)] for a dict of equally long lists. *)
Definition DataFrame_of_columns (columns : dict (list cell)) : DataFrame :=
  {| df_index := match columns with [] => 0%nat | (_, c) :: _ => length c end;
     df_columns := columns |}.

(** [df[key] = values] for a list: a frame without rows takes the length
    of the list (its columns are filled with the missing marker), a frame
    with rows requires as many values as rows, and an existing column is
    replaced where it stands. *)
Definition DataFrame_setitem (df : DataFrame) (key : string) (values : list cell)
  : result DataFrame :=
  if (Nat.eqb (df_index df) 0 && negb (Nat.eqb (length values) 0))%bool then
    Ok {| df_index := length values;
          df_columns :=
            dict_set key values
              (map (fun kc => (fst kc, repeat NaN (length values))) (df_columns df)) |}
  else if Nat.eqb (length values) (df_index df) then
    Ok {| df_index := df_index df; df_columns := dict_set key values (df_columns df) |}
  else
    Raise (ValueError ("Length of values (" ++ str_of_nat (length values)
                       ++ ") does not match length of index ("
                       ++ str_of_nat (df_index df) ++ ")")).

Definition df_column_names (df : DataFrame) : list string := dict_keys (df_columns df).

(** The cell of column [c] in row [i]. *)
Definition df_cell (df : DataFrame) (c : string) (i : nat) : option cell :=
  match dict_get c (df_columns df) with
  | Some col => col !! i
  | None => None
  end.

(** Every cell of a frame, column by column. *)
Definition df_cells (df : DataFrame) : list cell := concat (dict_values (df_columns df)).

Definition cell_scalar (c : cell) : bool :=
  match c with
  | Val v => is_scalar v
  | NaN | Float64 _ => true
  end.

(** ** [JsonToDataFrame.create_dataframe_from_extraction_result]
    (src/json_to_dataframe.py, lines 23-71) *)

Definition GENERAL : string := "Informations générales".
Definition ERROR_TABLE : string := "Erreur".
Definition NO_DATA : string := "Aucune donnée extraite ou format incorrect".

(** The body of [for key, value in extracted_data.items()]. *)
Definition classify (dataframes : dict DataFrame) (kv : string * value)
  : result (dict DataFrame) :=
  let '(key, value) := kv in
  match value with
  | VList ((VDict _ :: _) as records) =>
      (* dataframes[key] = pd.DataFrame(value) *)
      perform df := DataFrame_of_records records in
      Ok (dict_set key df dataframes)
  | VDict _ =>
      (* dataframes[key] = pd.DataFrame([value]) *)
      perform df := DataFrame_of_records [value] in
      Ok (dict_set key df dataframes)
  | _ =>
      let dataframes1 :=
        if dict_has GENERAL dataframes then dataframes
        else dict_set GENERAL DataFrame_new dataframes in
      (* dataframes["Informations générales"][key] = [value] *)
      let general := default DataFrame_new (dict_get GENERAL dataframes1) in
      perform general' := DataFrame_setitem general key [Val value] in
      Ok (dict_set GENERAL general' dataframes1)
  end.

(** [{k: [v] for k, v in extracted_data.items() if not isinstance(v, (list, dict))}] *)
Definition simple_data (d : dict value) : dict (list cell) :=
  map (fun kv => (fst kv, [Val (snd kv)]))
      (List.filter (fun kv => is_scalar (snd kv)) d).

Definition create_dataframe_from_extraction_result (extraction_result : ExtractionResult)
  : result (dict DataFrame) :=
  let data := extracted_data extraction_result in
  if (negb (truthy data) || is_str data)%bool then
    perform df := DataFrame_of_records [VDict [("Message", VStr NO_DATA)]] in
    Ok [(ERROR_TABLE, df)]
  else
    match data with
    | VDict d =>
        perform dataframes := for_each classify d [] in
        match dataframes with
        | [] =>
            match simple_data d with
            | [] => Ok []
            | columns => Ok [(GENERAL, DataFrame_of_columns columns)]
            end
        | _ => Ok dataframes
        end
    | _ => Raise (AttributeError (no_attribute data "items"))
    end.

(** ** [extract_dataframes_from_ocr_json]
    (src/json_to_dataframe.py, lines 189-228) *)

Inductive ocr_result : Type :=
| OfStructuredOCR (s : StructuredOCR value)
| OfExtractionResult (e : ExtractionResult)
| OfValue (v : value).

Definition extract_dataframes_from_ocr_json (r : ocr_result) : result (dict DataFrame) :=
  match r with
  | OfStructuredOCR s =>
      perform e := new_ExtractionResult (VStr "document.pdf") "default"
                     (VDict (ocr_contents s)) in
      create_dataframe_from_extraction_result e
  | OfValue (VDict d) =>
      match dict_get "file_name" d, dict_get "ocr_contents" d with
      | Some name, Some contents =>
          perform e := new_ExtractionResult name "default" contents in
          create_dataframe_from_extraction_result e
      | _, _ =>
          perform e := new_ExtractionResult (VStr "document.pdf") "default" (VDict d) in
          create_dataframe_from_extraction_result e
      end
  | OfExtractionResult e => create_dataframe_from_extraction_result e
  | OfValue v =>
      Raise (TypeError ("Type de résultat OCR non pris en charge: <class '"
                        ++ type_name v ++ "'>"))
  end.

(** ** The file name of an export
    (src/json_to_dataframe.py, lines 136-137)

    A Python [str] is a sequence of Unicode code points; the display name
    is held as the list of its code points.  [str.isalnum] and [str.lower]
    belong to the Python runtime and are taken as arguments: [isalnum] on a
    code point, [lower] on the whole string, as lowercasing depends on the
    neighbours of a character. *)

Definition codepoint := Z.
Definition pystr := list codepoint.

Definition SPACE : codepoint := 32.
Definition HYPHEN : codepoint := 45.
Definition UNDERSCORE : codepoint := 95.

Section SafeName.
Variable isalnum : codepoint -> bool.
Variable lower : pystr -> pystr.

(** [c if c.isalnum() or c in " _-" else "_"] *)
Definition keep_or_underscore (c : codepoint) : codepoint :=
  if (isalnum c || ((c =? SPACE) || (c =? UNDERSCORE) || (c =? HYPHEN))%Z)%bool
  then c else UNDERSCORE.

(** [s.replace(" ", "_")] *)
Definition replace_spaces (s : pystr) : pystr :=
  map (fun c => if (c =? SPACE)%Z then UNDERSCORE else c) s.

Definition export_safe_name (name : pystr) : pystr :=
  lower (replace_spaces (map keep_or_underscore name)).

(** The two passes over the name as one choice per character. *)
Definition sanitize_char (c : codepoint) : codepoint :=
  if (c =? SPACE)%Z then UNDERSCORE
  else if isalnum c then c
  else if (c =? HYPHEN)%Z then HYPHEN
  else UNDERSCORE.
End SafeName.

(** The Unicode tables below U+0100 (Basic Latin and Latin-1 Supplement),
    where [str.isalnum] and [str.lower] of the runtime agree with them:
    letters, the digits, and the superscripts, fractions and ordinal
    indicators, which [isalnum] accepts as well. *)
Definition latin1_isalnum (c : codepoint) : bool :=
  ((48 <=? c) && (c <=? 57)
   || (65 <=? c) && (c <=? 90)
   || (97 <=? c) && (c <=? 122)
   || (c =? 170) || (c =? 178) || (c =? 179) || (c =? 181)
   || (c =? 185) || (c =? 186)
   || (188 <=? c) && (c <=? 190)
   || (192 <=? c) && (c <=? 214)
   || (216 <=? c) && (c <=? 246)
   || (248 <=? c) && (c <=? 255))%Z%bool.

Definition latin1_lower_char (c : codepoint) : codepoint :=
  if ((65 <=? c) && (c <=? 90)
      || (192 <=? c) && (c <=? 214)
      || (216 <=? c) && (c <=? 222))%Z%bool
  then (c + 32)%Z else c.

Definition latin1_lower (s : pystr) : pystr := map latin1_lower_char s.

(** Lowercase letters below U+0100 (general category Ll), digits,
    underscore and hyphen. *)
Definition latin1_lowercase_letter (c : codepoint) : bool :=
  ((97 <=? c) && (c <=? 122)
   || (c =? 181)
   || (223 <=? c) && (c <=? 246)
   || (248 <=? c) && (c <=? 255))%Z%bool.

Definition ascii_digit (c : codepoint) : bool := ((48 <=? c) && (c <=? 57))%Z%bool.

Definition safe_char (c : codepoint) : bool :=
  (latin1_lowercase_letter c || ascii_digit c
   || (c =? UNDERSCORE)%Z || (c =? HYPHEN)%Z)%bool.

(** ["Pièces / Désignations"] *)
Definition pieces_designations : pystr :=
  [80; 105; 232; 99; 101; 115; 32; 47; 32;
   68; 233; 115; 105; 103; 110; 97; 116; 105; 111; 110; 115]%Z.

(** ["pièces___désignations"] *)
Definition pieces_designations_safe : pystr :=
  [112; 105; 232; 99; 101; 115; 95; 95; 95;
   100; 233; 115; 105; 103; 110; 97; 116; 105; 111; 110; 115]%Z.

(** ** Prompt lookup of the OCR processor
    (src/ocr_processor.py, lines 50-141)

    The prompt directory is seen through what the two classes ask of it:
    the text of its path, the names of its entries in the order [glob]
    yields them, and the text of the file at a path relative to it, if
    there is one.  What exists at a path that is looked up is taken to be
    a readable text file.  The two services of the recognition client are
    collaborators. *)

Record PromptDir : Type := {
  (** [str(self.prompt_dir)] *)
  dir_path : string;
  (** the names of the entries of the directory *)
  dir_names : list string;
  (** the text of the file at [self.prompt_dir / relative] *)
  file_text : string -> option string
}.

Definition newline : string := String (ascii_of_nat 10) EmptyString.

(** [OCRProcessor.get_extraction_prompt]: the file looked up is
    [f"{prompt_name}.md"] below the directory. *)
Definition prompt_not_found (prompt_dir : PromptDir) (name : string) : string :=
  "Le prompt d'extraction '" ++ name ++ "' n'existe pas dans " ++ dir_path prompt_dir.

Definition get_extraction_prompt (prompt_dir : PromptDir) (name : string)
  : result string :=
  match file_text prompt_dir (name ++ ".md") with
  | Some text => Ok text
  | None => Raise (FileNotFoundError (prompt_not_found prompt_dir name))
  end.

Definition exn_message (e : exn) : string :=
  match e with
  | ValueError m | TypeError m | AttributeError m
  | ValidationError m | FileNotFoundError m
  | AssertionError m | OSError m => m
  end.

Definition EXTRACT_FIELDS : string :=
  "Extrait les champs suivants dans une réponse au format JSON et sélectionne dans les champs les informations qui correspondent à l'exemple:".

(** Lines 100-106 of [structured_ocr] (and 183-187 of [process_pdf_pages]):
    the instruction text sent to the model and what is printed. *)
Definition fields_extraction_text (prompt_dir : PromptDir) (name : option string)
  : string * list string :=
  match name with
  | Some n =>
      if String.eqb n "" then ("", [])
      else
        match get_extraction_prompt prompt_dir n with
        | Ok text => ((EXTRACT_FIELDS ++ newline ++ text ++ newline ++ ".")%string, [])
        | Raise e => ("", [("Attention: " ++ exn_message e)%string])
        end
  | None => ("", [])
  end.

Record Client : Type := {
  (** [client.ocr.process]: the markdown of an image *)
  ocr_process : string -> result string;
  (** [client.chat.parse]: the parsed answer to an image and a text *)
  chat_parse : string -> string -> result (StructuredOCR value)
}.

Definition ocr_request (markdown fields : string) : string :=
  "Ceci est l'OCR de l'image au format markdown:" ++ newline ++ markdown ++ newline
  ++ "." ++ newline
  ++ "Converti la en une réponse structurée au format JSON "
  ++ "avec le contenu de l'OCR dans un dictionnaire sensé. "
  ++ fields.

(** [Path(text)] on a POSIX system: the text is cut at the separators,
    empty components and [.] are dropped, and the root is [/], or [//]
    for exactly two leading separators. *)
Fixpoint split_path (component path : string) : list string :=
  match path with
  | EmptyString => [component]
  | String c rest =>
      if Ascii.eqb c "/" then component :: split_path EmptyString rest
      else split_path (component ++ String c EmptyString) rest
  end.

Definition path_parts (path : string) : list string :=
  List.filter (fun part => negb (String.eqb part "" || String.eqb part "."))
              (split_path EmptyString path).

Definition path_root (path : string) : string :=
  match path with
  | String "/" (String "/" (String "/" _)) => "/"
  | String "/" (String "/" _) => "//"
  | String "/" _ => "/"
  | _ => ""
  end.

(** [sep.join(parts)] *)
Fixpoint join (sep : string) (parts : list string) : string :=
  match parts with
  | [] => ""
  | [part] => part
  | part :: rest => part ++ sep ++ join sep rest
  end.

(** [str(Path(text))] *)
Definition path_str (path : string) : string :=
  match path_root path, path_parts path with
  | EmptyString, [] => "."
  | root, parts => root ++ join "/" parts
  end.

(** [Path(text).name]: the last component, empty for a root and for [.]. *)
Definition path_name (path : string) : string := List.last (path_parts path) "".

(** The record of lines 134-141: the name and the text of
    [Path(image_path)]. *)
Definition ocr_failure (image_path : string) (e : exn) : StructuredOCR value :=
  {| file_name := path_name image_path;
     ocr_contents := [("error", VStr (exn_message e));
                      ("file", VStr (path_str image_path));
                      ("message", VStr "Erreur lors du traitement OCR")] |}.

(** [OCRProcessor.structured_ocr] for an image file that exists: the
    record returned and what is printed. *)
Definition structured_ocr (client : Client) (prompt_dir : PromptDir)
    (image_path : string) (name : option string)
  : StructuredOCR value * list string :=
  match ocr_process client image_path with
  | Ok markdown =>
      let '(fields, printed) := fields_extraction_text prompt_dir name in
      match chat_parse client image_path (ocr_request markdown fields) with
      | Ok parsed => (parsed, printed)
      | Raise e => (ocr_failure image_path e, printed)
      end
  | Raise e => (ocr_failure image_path e, [])
  end.

(** ** Notions used in the statements *)

(** [k in ks] for a list of keys. *)
Definition mem (k : string) (ks : list string) : bool := existsb (String.eqb k) ks.

(** The keys a loop that appends every key it has not met yet ends with. *)
Definition add_key (acc : list string) (k : string) : list string :=
  if mem k acc then acc else acc ++ [k].

(** Every page carries a record. *)
Definition all_recognised {V : Type} (ps : list (PDFPage V)) : Prop :=
  Forall (fun p => ocr_data p <> None) ps.

(** Two pages given out of order, each with one key of its own. *)
Definition page_of (n : Z) (contents : dict value) : PDFPage value :=
  {| page_number := n; image_path := "page.jpeg";
     ocr_data := Some {| file_name := "document"; ocr_contents := contents |} |}.

Definition swapped_pages : list (PDFPage value) :=
  [page_of 2 [("b", VInt 2)]; page_of 1 [("a", VInt 1)]].

Definition ordered_pages : list (PDFPage value) :=
  [page_of 1 [("a", VInt 1); ("b", VInt 2)]; page_of 2 [("c", VInt 3); ("a", VInt 4)]].

(** The items a page contributes, in order. *)
Definition page_items {V : Type} (p : PDFPage V) : dict V :=
  match ocr_data p with
  | Some s => ocr_contents s
  | None => []
  end.

Definition all_items {V : Type} (ps : list (PDFPage V)) : dict V :=
  concat (map page_items ps).

(** The merge as section 4.2 of the specification words it, on values:
    an absent key is inserted unchanged; a key whose merged value is a list
    has the list extended by a list and appended to by anything else; a key
    whose merged value is not a list gets the two-element list of the
    existing and the new value. *)
Definition reference_item (merged : dict value) (kv : string * value) : dict value :=
  let '(key, value) := kv in
  match dict_get key merged with
  | None => dict_set key value merged
  | Some (VList existing) =>
      match value with
      | VList elements => dict_set key (VList (existing ++ elements)) merged
      | _ => dict_set key (VList (existing ++ [value])) merged
      end
  | Some existing => dict_set key (VList [existing; value]) merged
  end.

Definition reference_page (merged : dict value) (p : PDFPage value) : dict value :=
  match ocr_data p with
  | Some s => fold_left reference_item (ocr_contents s) merged
  | None => merged
  end.

Definition reference_merge (ps : list (PDFPage value)) : dict value :=
  fold_left reference_page ps [].

(** The value merged under a key. *)
Definition stored_value (st : heap * dict loc) (k : string) : option value :=
  option_map (deref (fst st)) (dict_get k (snd st)).

(** A list on the first page and a string under the same key on the
    second. *)
Definition list_then_scalar : list (PDFPage value) :=
  [page_of 1 [("k", VList [VStr "A"; VStr "B"])]; page_of 2 [("k", VStr "C")]].

(** Three pages with one string each under the same key. *)
Definition three_scalars : list (PDFPage value) :=
  [page_of 1 [("k", VStr "X")]; page_of 2 [("k", VStr "Y")]; page_of 3 [("k", VStr "Z")]].


(** A recognition client that answers every image with the same markdown
    and returns the request it was sent as the parsed record. *)
Definition echo_client : Client :=
  {| ocr_process := fun _ => Ok "# Facture";
     chat_parse := fun image text =>
       Ok {| file_name := image; ocr_contents := [("request", VStr text)] |} |}.

(** The result for data that cannot be projected: one table, one row,
    one column holding the message. *)
Definition no_data_tables : dict DataFrame :=
  [(ERROR_TABLE,
    {| df_index := 1; df_columns := [("Message", [Val (VStr NO_DATA)])] |})].

Definition result_of (data : value) : ExtractionResult :=
  {| pdf_file := "document.pdf"; prompt_name := "default"; extracted_data := data |}.

(** The third case of the classification: the value is neither a dict
    nor a non-empty list whose first element is a dict. *)
Definition generic (v : value) : bool :=
  match v with
  | VList (VDict _ :: _) => false
  | VDict _ => false
  | _ => true
  end.

(** The name of the table a top-level entry goes to. *)
Definition table_of (kv : string * value) : string :=
  if generic (snd kv) then GENERAL else fst kv.

(** The list handed to [pd.DataFrame] for an entry of the first two cases. *)
Definition records_of (v : value) : list value :=
  match v with
  | VList l => l
  | VDict r => [VDict r]
  | _ => []
  end.

(** A list of records holds records only. *)
Definition homogeneous (v : value) : bool :=
  match v with
  | VList (VDict _ :: l) => forallb is_dict l
  | _ => true
  end.

(** The one-row table of the entries of the third case, one column each. *)
Definition general_table (d : dict value) : DataFrame :=
  {| df_index := 1;
     df_columns :=
       map (fun kv => (fst kv, [Val (snd kv)]))
           (List.filter (fun kv => generic (snd kv)) d) |}.

(** The table [pd.DataFrame] builds from records. *)
Definition table_of_rows (rows : list (dict value)) : DataFrame :=
  {| df_index := length rows;
     df_columns := map (fun c => (c, maybe_convert_objects (map (record_cell c) rows)))
                       (first_seen (concat (map dict_keys rows))) |}.

(** The one-row table of a record. *)
Definition record_table (r : dict value) : DataFrame :=
  {| df_index := 1;
     df_columns := map (fun c => (c, [record_cell c r])) (first_seen (dict_keys r)) |}.

(** The values the projection puts into cells: the fields of the records
    of the first two cases, and the values of the third case as they are. *)
Definition record_values (v : value) : list value :=
  match v with
  | VDict r => dict_values r
  | _ => []
  end.

Definition projected_values (d : dict value) : list value :=
  concat (map (fun kv => if generic (snd kv) then [snd kv]
                         else concat (map record_values (records_of (snd kv)))) d).

(** Where a cell comes from: the missing marker, a value as it is, or
    the float of an integer. *)
Definition cell_from (vals : list value) (c : cell) : Prop :=
  match c with
  | NaN => True
  | Val v => In v vals
  | Float64 z => In (VInt z) vals
  end.

Definition cells_from (vals : list value) (tables : dict DataFrame) : Prop :=
  forall name df c, In (name, df) tables -> In c (df_cells df) -> cell_from vals c.

(** What C3 says of an entry [k], [v] of the data in the tables returned.
    In the table of a list of records, row [i] is element [i]: its keys
    are columns, and its cell under a column is what the element has
    there, the missing marker if it has nothing, as given or as the type
    inference of the column has made it ([to_float]). *)
Definition classified (tables : dict DataFrame) (k : string) (v : value) : Prop :=
  match v with
  | VList ((VDict _ :: _) as records) =>
      exists df, dict_get k tables = Some df
        /\ df_index df = length records
        /\ forall i r, records !! i = Some (VDict r) ->
             (forall c, In c (dict_keys r) -> In c (df_column_names df))
             /\ (forall c, In c (df_column_names df) ->
                   df_cell df c i = Some (record_cell c r)
                   \/ df_cell df c i = Some (to_float (record_cell c r)))
  | VDict r =>
      exists df, dict_get k tables = Some df
        /\ df_index df = 1%nat
        /\ df_column_names df = first_seen (dict_keys r)
        /\ forall c x, dict_get c r = Some x -> df_cell df c 0 = Some (Val x)
  | _ =>
      exists df, dict_get GENERAL tables = Some df
        /\ df_index df = 1%nat
        /\ df_cell df k 0 = Some (Val v)
  end.

(** A list of records followed by a string in the same list; a scalar
    followed by a record under the label of the general table. *)
Definition mixed_list : dict value :=
  [("Items", VList [VDict [("sku", VStr "A")]; VStr "B"])].

Definition label_as_key : dict value :=
  [("InvoiceNumber", VStr "123"); (GENERAL, VDict [("name", VStr "Acme")])].

Definition invoice : dict value :=
  [("Items", VList [VDict [("sku", VStr "A"); ("qty", VInt 2)];
                    VDict [("sku", VStr "B"); ("qty", VInt 1)]]);
   ("InvoiceNumber", VStr "123")].

Definition customer : dict value := [("Customer", VDict [("name", VStr "Acme")])].

Definition tagged : dict value :=
  [("Tags", VList [VStr "urgent"; VStr "paid"]);
   ("Customer", VDict [("address", VDict [("city", VStr "Lyon")])])].

(** The tables of [invoice]. *)
Definition invoice_items : DataFrame :=
  {| df_index := 2;
     df_columns := [("sku", [Val (VStr "A"); Val (VStr "B")]);
                    ("qty", [Val (VInt 2); Val (VInt 1)])] |}.

Definition invoice_tables : dict DataFrame :=
  [("Items", invoice_items);
   (GENERAL, {| df_index := 1;
                df_columns := [("InvoiceNumber", [Val (VStr "123")])] |})].

(** The state of the loop of the projection after the entries [seen]:
    the tables are in order of first use, an entry of the first two cases
    has the table of its records under its key, and the entries of the
    third case share the general table. *)
Definition projection_state (seen : dict value) (tables : dict DataFrame) : Prop :=
  dict_keys tables = first_seen (map table_of seen)
  /\ (forall k v, In (k, v) seen -> generic v = false ->
        exists rows, records_of v = map VDict rows
                     /\ dict_get k tables = Some (table_of_rows rows))
  /\ (List.filter (fun kv => generic (snd kv)) seen <> [] ->
        dict_get GENERAL tables = Some (general_table seen)).

(** Lists of records hold records only. *)
Definition records_only (d : dict value) : bool :=
  forallb (fun kv => homogeneous (snd kv)) d.

(** The label of the general table is not the key of a record or of a
    list of records. *)
Definition label_free (d : dict value) : bool :=
  forallb (fun kv => negb (String.eqb (fst kv) GENERAL) || generic (snd kv))%bool d.

(** The label of the general table is not the key of a record or of a
    list of records, unless the mapping has no entry of the third case. *)
Definition label_apart (d : dict value) : bool :=
  (label_free d || forallb (fun kv => negb (generic (snd kv))) d)%bool.

(** What C5 says of an entry [k], [v] of the data: a value of the third
    case is the cell of its column in the general table, whatever it is,
    and a list or a mapping that is a field of a record is the cell of its
    row and column in the table of the record. *)
Definition kept (tables : dict DataFrame) (k : string) (v : value) : Prop :=
  if generic v then
    exists df, dict_get GENERAL tables = Some df /\ df_cell df k 0 = Some (Val v)
  else
    exists df, dict_get k tables = Some df
      /\ forall i r c x,
           records_of v !! i = Some (VDict r) -> dict_get c r = Some x ->
           is_scalar x = false -> df_cell df c i = Some (Val x).

(** A one-row table with one more column. *)
Definition with_column (df : DataFrame) (key : string) (v : value) : DataFrame :=
  {| df_index := 1; df_columns := dict_set key [Val v] (df_columns df) |}.

(** The objects the result dict points to and the objects still to be
    merged are pairwise distinct and in the store. *)
Definition separate (h : heap) (d : dict loc) (rest : list loc) : Prop :=
  List.NoDup (dict_values d ++ rest)
  /\ Forall (fun x => (x < length h)%nat) (dict_values d ++ rest).

(** A step from the store [h] reaches the state [st], which reads as
    [expected], keeps the objects apart and leaves the objects still to be
    merged as they were. *)
Definition step_refines (h : heap) (d : dict loc) (rest : list loc)
    (st : heap * dict loc) (expected : dict value) : Prop :=
  snapshot (fst st) (snd st) = expected
  /\ separate (fst st) (snd st) rest
  /\ (forall x, In x rest -> deref (fst st) x = deref h x).

(** ** Notions used in the further properties *)

(** [if page.ocr_data:] *)
Definition recognised {V : Type} (p : PDFPage V) : bool :=
  match ocr_data p with Some _ => true | None => false end.

(** An item points to an object of the store that is not a list. *)
Definition plain_item (h : heap) (kl : string * loc) : bool :=
  ((snd kl <? length h)%nat && negb (is_list (deref h (snd kl))))%bool.

(** The columns of a frame have distinct names and one cell per row. *)
Definition df_columns_ok (df : DataFrame) : Prop :=
  dict_wf (df_columns df)
  /\ Forall (fun col => length col = df_index df) (dict_values (df_columns df)).

(** A frame with at least one row and columns as above. *)
Definition df_wf (df : DataFrame) : Prop :=
  (1 <= df_index df)%nat /\ df_columns_ok df.

(** A prompt loaded by the extractor, and no OCR processor. *)
Definition offline_extractor : DataExtractor :=
  {| prompts := [("facture", "Numéro de facture, Date")]; ocr_processor := None |}.

Definition blank_pages : list (PDFPage loc) :=
  [{| page_number := 1; image_path := "page_001.jpeg"; ocr_data := None |};
   {| page_number := 2; image_path := "page_002.jpeg"; ocr_data := None |}].

(** Top-level scalars only. *)
Definition header_only : dict value :=
  [("Votre Commande", VStr "21854"); ("Total", VInt 3); ("Tags", VList [])].

(** The sample of the module's self-test: a record wrapped with its file
    name. *)
Definition wrapped_invoice : dict value :=
  [("file_name", VStr "AR DE COMMANDE"); ("ocr_contents", VDict invoice)].

(** ** [JsonToDataFrame.export_dataframe]
    (src/json_to_dataframe.py, lines 119-186)

    Creating the directory, writing the table in a format and offering the
    written file for download are collaborators; each may fail.  What the
    function shows in the interface is returned with its result. *)

Definition SLASH : codepoint := 47.
Definition DOT : codepoint := 46.

(** ["exports"], the directory [Path("./exports")] prints as. *)
Definition EXPORT_DIR : pystr := [101; 120; 112; 111; 114; 116; 115]%Z.

(** The extension of the branch taken for a format, if any. *)
Definition export_extension (format : string) : option pystr :=
  if String.eqb format "CSV" then Some [46; 99; 115; 118]%Z
  else if String.eqb format "Excel" then Some [46; 120; 108; 115; 120]%Z
  else if String.eqb format "JSON" then Some [46; 106; 115; 111; 110]%Z
  else None.

Inductive export_event : Type :=
| ExportSuccess (path : pystr)
| ExportError (reason : option exn).

Record Exporter : Type := {
  (** [export_dir.mkdir(exist_ok=True)] *)
  make_dir : result unit;
  (** [df.to_csv], [df.to_excel], [df.to_json] on a path *)
  write_table : string -> pystr -> result unit;
  (** [open] of the written file and [st.download_button] *)
  offer_download : pystr -> result unit
}.

Section ExportDataFrame.
Variable isalnum : codepoint -> bool.
Variable lower : pystr -> pystr.
Variable io : Exporter.

(** [export_dir / f"{safe_name}.csv"], printed. *)
Definition export_path (name extension : pystr) : pystr :=
  EXPORT_DIR ++ [SLASH] ++ export_safe_name isalnum lower name ++ extension.

(** The path returned, or [None], and what is shown; the function raises
    only when the directory cannot be made.  For a format without a
    branch the final [return] reads a variable that was never bound, which
    the handler reports like any failure ([ExportError None]). *)
Definition export_dataframe (name : pystr) (format : string)
  : result (option pystr * list export_event) :=
  perform made := make_dir io in
  match export_extension format with
  | Some extension =>
      let file_path := export_path name extension in
      match write_table io format file_path with
      | Ok _ =>
          match offer_download io file_path with
          | Ok _ => Ok (Some file_path, [ExportSuccess file_path])
          | Raise e => Ok (None, [ExportSuccess file_path; ExportError (Some e)])
          end
      | Raise e => Ok (None, [ExportError (Some e)])
      end
  | None => Ok (None, [ExportError None])
  end.
End ExportDataFrame.

(** A code point below U+0100. *)
Definition latin1 (c : codepoint) : bool := ((0 <=? c) && (c <? 256))%Z%bool.

(** A property of every code point below U+0100, checked one by one. *)
Definition latin1_all (P : codepoint -> bool) : bool :=
  forallb P (map Z.of_nat (seq 0 256)).

(** One character of the export name with the tables below U+0100. *)
Definition latin1_export_char (c : codepoint) : codepoint :=
  latin1_lower_char (sanitize_char latin1_isalnum c).

(** Lowercase or caseless letters and digits, underscore, hyphen. *)
Definition export_char (c : codepoint) : bool :=
  (latin1 c
   && (latin1_isalnum c && (latin1_lower_char c =? c)%Z
       || (c =? UNDERSCORE)%Z || (c =? HYPHEN)%Z))%bool.

(** An exporter whose steps all succeed. *)
Definition working_exporter : Exporter :=
  {| make_dir := Ok tt;
     write_table := fun _ _ => Ok tt;
     offer_download := fun _ => Ok tt |}.

(** [str(directory / name)] for the text of a directory path and a name
    without separator. *)
Definition path_join (directory name : string) : string :=
  if String.eqb directory "." then name
  else if String.eqb directory "/" then "/" ++ name
  else directory ++ "/" ++ name.

(** ** Loading the prompts
    (src/data_extractor.py, lines 20-58)

    The directory is seen as for the OCR processor, and whether it
    exists. *)

(** [s.rfind(".")], counted from [i]. *)
Fixpoint rfind_dot (s : string) (i : nat) : option nat :=
  match s with
  | EmptyString => None
  | String c rest =>
      match rfind_dot rest (S i) with
      | Some j => Some j
      | None => if Ascii.eqb c "." then Some i else None
      end
  end.

(** [Path(name).stem] for a file name: the name up to its last dot, when
    the dot is neither the first nor the last character. *)
Definition path_stem (name : string) : string :=
  match rfind_dot name 0 with
  | Some i =>
      if ((0 <? i) && (i <? String.length name - 1))%nat%bool
      then substring 0 i name else name
  | None => name
  end.

(** The names [glob("*.md")] matches: those that end with [.md], the
    name [.md] itself and the names of hidden files included. *)
Fixpoint matches_md (name : string) : bool :=
  match name with
  | EmptyString => false
  | String _ rest => (String.eqb name ".md" || matches_md rest)%bool
  end.

(** The body of [for prompt_file in self.prompt_dir.glob("*.md")]; [open]
    on an entry behind which there is no file raises. *)
Definition load_prompt (prompt_dir : PromptDir) (prompts : dict string)
    (name : string) : result (dict string) :=
  match file_text prompt_dir name with
  | Some prompt_content => Ok (dict_set (path_stem name) prompt_content prompts)
  | None =>
      Raise (FileNotFoundError
               ("[Errno 2] No such file or directory: '"
                ++ path_join (dir_path prompt_dir) name ++ "'"))
  end.

(** [DataExtractor._load_prompts] *)
Definition load_prompts (dir_exists : bool) (prompt_dir : PromptDir) : result (dict string) :=
  if dir_exists then
    for_each (load_prompt prompt_dir)
             (List.filter matches_md (dir_names prompt_dir)) []
  else Raise (FileNotFoundError
                ("Le répertoire de prompts '" ++ dir_path prompt_dir ++ "' n'existe pas")).

(** [DataExtractor(prompt_dir, ocr_processor)] *)
Definition new_DataExtractor (dir_exists : bool) (prompt_dir : PromptDir)
    (processor : option OCRProcessor) : result DataExtractor :=
  perform loaded := load_prompts dir_exists prompt_dir in
  Ok {| prompts := loaded; ocr_processor := processor |}.

(** [DataExtractor.get_available_prompts] *)
Definition get_available_prompts (self : DataExtractor) : list string :=
  dict_keys (prompts self).

(** ** [OCRProcessor.process_pdf_pages]
    (src/ocr_processor.py, lines 143-236)

    The pages are held by value; the function returns the combined record
    when there is one, the pages as it leaves them, and what it prints.
    As for [structured_ocr], the image files exist. *)

(** [str(n)] for an integer. *)
Definition str_of_int (z : Z) : string := NilZero.string_of_int (Z.to_int z).

(** The first loop: the markdown of each page that the OCR service could
    read, under its header, and a message for each page it could not. *)
Fixpoint collect_markdowns (client : Client) (pages : list (PDFPage value))
  : list string * list string :=
  match pages with
  | [] => ([], [])
  | page :: rest =>
      let '(markdowns, printed) := collect_markdowns client rest in
      match ocr_process client (image_path page) with
      | Ok markdown =>
          (("=== Page " ++ str_of_int (page_number page) ++ " ===" ++ newline
            ++ markdown)%string :: markdowns, printed)
      | Raise e =>
          (markdowns,
           ("Erreur lors du traitement OCR de la page " ++ str_of_int (page_number page)
            ++ ": " ++ exn_message e)%string :: printed)
      end
  end.

Definition combined_request (markdown fields : string) : string :=
  "Voici l'OCR complet d'un document de plusieurs pages:" ++ newline ++ markdown
  ++ newline ++ "." ++ newline
  ++ "Converti cela en une réponse structurée au format JSON "
  ++ "avec le contenu de l'OCR dans un dictionnaire sensé. "
  ++ fields.

Definition set_ocr_data (page : PDFPage value) (ocr : StructuredOCR value) : PDFPage value :=
  {| page_number := page_number page; image_path := image_path page;
     ocr_data := Some ocr |}.

(** The last loop: [page.ocr_data = self.structured_ocr(page.image_path, prompt_name)]. *)
Fixpoint process_individually (client : Client) (prompt_dir : PromptDir)
    (name : option string) (pages : list (PDFPage value))
  : list (PDFPage value) * list string :=
  match pages with
  | [] => ([], [])
  | page :: rest =>
      let '(ocr, printed) := structured_ocr client prompt_dir (image_path page) name in
      let '(rest', printed') := process_individually client prompt_dir name rest in
      (set_ocr_data page ocr :: rest', printed ++ printed')
  end.

(** [if prompt_name:] *)
Definition name_given (name : option string) : bool :=
  match name with
  | Some n => negb (String.eqb n "")
  | None => false
  end.

Definition process_pdf_pages (client : Client) (prompt_dir : PromptDir)
    (pages : list (PDFPage value)) (name : option string)
  : option (StructuredOCR value) * list (PDFPage value) * list string :=
  match pages with
  | [] => (None, [], [])
  | first :: rest =>
      if name_given name then
        let '(markdowns, printed1) := collect_markdowns client pages in
        let '(fields, printed2) := fields_extraction_text prompt_dir name in
        match chat_parse client (image_path first)
                (combined_request (join (newline ++ newline) markdowns) fields) with
        | Ok combined =>
            (* pdf_pages[0].ocr_data = combined_result *)
            (Some combined, set_ocr_data first combined :: rest, printed1 ++ printed2)
        | Raise e =>
            let '(pages', printed3) := process_individually client prompt_dir name pages in
            (None, pages',
             printed1 ++ printed2
             ++ [("Erreur lors du traitement combiné des pages: " ++ exn_message e)%string]
             ++ printed3)
        end
      else
        let '(pages', printed) := process_individually client prompt_dir name pages in
        (None, pages', printed)
  end.

(** ** [PDFProcessor.convert_pdf_to_images]
    (src/pdf_processor.py, lines 19-70)

    A [Path] is seen through what the function reads of it: whether the
    file exists, the text of the path, and the texts of its parent and of
    its stem; an output directory is given by the text of its [Path].  The
    rasteriser and the file system are collaborators: creating the
    directory, rasterising and saving are taken to succeed, and of the
    rasteriser's result only the number of images matters for the pages
    built.  The format is a file extension, without separator. *)

Record PdfPath : Type := {
  pdf_exists : bool;
  pdf_text : string;
  pdf_parent : string;
  pdf_stem : string
}.

Fixpoint zeros (n : nat) : string :=
  match n with
  | O => ""
  | S n' => String "0" (zeros n')
  end.

(** [f"{n:03d}"] *)
Definition zero_pad3 (n : nat) : string :=
  zeros (3 - String.length (str_of_nat n)) ++ str_of_nat n.

(** [f"page_{i+1:03d}.{fmt}"] *)
Definition page_image_name (i : nat) (fmt : string) : string :=
  "page_" ++ zero_pad3 (i + 1) ++ "." ++ fmt.

Definition convert_pdf_to_images (pdf : PdfPath) (output_dir : option string)
    (image_count : nat) (fmt : string) : result (list (PDFPage value)) :=
  if negb (pdf_exists pdf) then
    Raise (FileNotFoundError ("Le fichier PDF '" ++ pdf_text pdf ++ "' n'existe pas"))
  else
    let directory :=
      match output_dir with
      | Some d => d
      | None => path_join (pdf_parent pdf) (pdf_stem pdf ++ "_images")
      end in
    Ok (map (fun i => {| page_number := Z.of_nat i + 1;
                         image_path := path_join directory (page_image_name i fmt);
                         ocr_data := None |})
            (seq 0 image_count)).

(** ** The steps of the application
    (src/app.py, lines 198-244) *)

(** [PDFExtractionApp._step_extract_data]: the result, and the error shown
    when [extract_data] raised. *)
Definition step_extract_data (self : DataExtractor) (h : heap)
    (pages : list (PDFPage loc)) (selected_prompt pdf_name : string)
  : heap * list (PDFPage loc) * ExtractionResult * list string :=
  match extract_data self h pages selected_prompt pdf_name with
  | Ok r => (r, [])
  | Raise e =>
      (state_at_raise self h pages selected_prompt,
       {| pdf_file := pdf_name; prompt_name := selected_prompt;
          extracted_data := VDict [("error", VStr (exn_message e))] |},
       [("Erreur lors de l'extraction des données: " ++ exn_message e)%string])
  end.

(** [PDFExtractionApp._step_create_dataframes] *)
Definition step_create_dataframes (extraction_result : ExtractionResult)
  : dict DataFrame * list string :=
  match extract_dataframes_from_ocr_json (OfExtractionResult extraction_result) with
  | Ok dataframes => (dataframes, [])
  | Raise e =>
      ([(ERROR_TABLE, record_table [("Message", VStr (exn_message e))])],
       [("Erreur lors de la création des DataFrames: " ++ exn_message e)%string])
  end.

(** A prompt directory with one prompt, and an extractor loaded from it. *)
Definition invoice_prompts : PromptDir :=
  {| dir_path := "prompt_extraction";
     dir_names := ["facture.md"];
     file_text := fun relative => dict_get relative [("facture.md", "Numéro de facture, Date")] |}.

(** A recognition client whose chat service is down. *)
Definition chat_down_client : Client :=
  {| ocr_process := fun _ => Ok "# Facture";
     chat_parse := fun _ _ => Raise (ValueError "503") |}.

Definition two_blank_pages : list (PDFPage value) :=
  [{| page_number := 1; image_path := "page_001.jpeg"; ocr_data := None |};
   {| page_number := 2; image_path := "page_002.jpeg"; ocr_data := None |}].

Definition sample_pdf : PdfPath :=
  {| pdf_exists := true; pdf_text := "docs/commande.pdf";
     pdf_parent := "docs"; pdf_stem := "commande" |}.

(** The number a zero-padded text denotes. *)
Definition number_of_text (s : string) : option nat :=
  option_map Nat.of_uint (NilEmpty.uint_of_string s).

(** The tables of [tagged]. *)
Definition tagged_tables : dict DataFrame :=
  [(GENERAL,
    {| df_index := 1;
       df_columns := [("Tags", [Val (VList [VStr "urgent"; VStr "paid"])])] |});
   ("Customer",
    {| df_index := 1;
       df_columns := [("address", [Val (VDict [("city", VStr "Lyon")])])] |})].

(** What holds of a record or a list of records under [k] whatever the
    other keys are: the table of its name has one row per element and
    the keys of every element among its columns. *)
Definition shaped (tables : dict DataFrame) (k : string) (v : value) : Prop :=
  match v with
  | VList ((VDict _ :: _) as records) =>
      exists df, dict_get k tables = Some df
        /\ df_index df = length records
        /\ forall i r c, records !! i = Some (VDict r) -> In c (dict_keys r) ->
             In c (df_column_names df)
  | VDict r =>
      exists df, dict_get k tables = Some df
        /\ df_index df = 1%nat
        /\ forall c, In c (dict_keys r) -> In c (df_column_names df)
  | _ => True
  end.

(** The state of the loop of the projection after the entries [seen],
    whatever the keys are: an entry of the first two cases has a table
    under its key with one row per record and the columns of its records,
    which is the table of its records unless the key is the label of the
    general table; an entry of the third case after which the label is
    not the key of a record or of a list of records is a column of the
    general table, which has one row. *)
Definition loop_state (seen : dict value) (tables : dict DataFrame) : Prop :=
  (forall k v, In (k, v) seen -> generic v = false ->
     exists rows df,
       records_of v = map VDict rows
       /\ dict_get k tables = Some df
       /\ df_index df = length rows
       /\ (forall c, In c (df_column_names (table_of_rows rows)) ->
             In c (df_column_names df))
       /\ (k <> GENERAL -> df = table_of_rows rows))
  /\ (forall before k v after, seen = before ++ (k, v) :: after ->
        generic v = true -> label_free after = true ->
        exists df, dict_get GENERAL tables = Some df
          /\ df_index df = 1%nat /\ df_cell df k 0 = Some (Val v)).

(** What holds of the tables returned for a mapping [d] whatever its keys
    are: the names are in order of first use, every record and every list
    of records has its table with its rows and columns, fully as stated
    when its key is not the label of the general table, and an entry of
    the third case after which the label is not the key of a record or of
    a list of records is a column of the one-row general table. *)
Definition placed (d : dict value) (tables : dict DataFrame) : Prop :=
  dict_keys tables = first_seen (map table_of d)
  /\ (forall k v, In (k, v) d -> shaped tables k v)
  /\ (forall k v, In (k, v) d -> generic v = false -> k <> GENERAL ->
        classified tables k v)
  /\ (forall before k v after, d = before ++ (k, v) :: after ->
        generic v = true -> label_free after = true ->
        classified tables k v).

(** * Properties *)

(** ** Dicts *)

Section DictFacts.
Context {V : Type}.
Implicit Types (d : dict V) (k : string) (v : V).

Lemma dict_has_mem k d : dict_has k d = mem k (dict_keys d).
Proof.
  unfold dict_has, mem. induction d as [|[k' v'] d IH]; simpl; [reflexivity|].
  destruct (String.eqb k k'); [reflexivity | exact IH].
Qed.

Lemma dict_get_set_eq k v d : dict_get k (dict_set k v d) = Some v.
Proof.
  induction d as [|[k' v'] d IH]; simpl.
  - now rewrite String.eqb_refl.
  - destruct (String.eqb k k') eqn:E; simpl.
    + now rewrite String.eqb_refl.
    + now rewrite E.
Qed.

Lemma dict_get_set_ne k k' v d :
  k <> k' -> dict_get k' (dict_set k v d) = dict_get k' d.
Proof.
  intros Hne. induction d as [|[k0 v0] d IH]; simpl.
  - apply String.eqb_neq in Hne. rewrite String.eqb_sym in Hne. now rewrite Hne.
  - destruct (String.eqb k k0) eqn:E; simpl.
    + apply String.eqb_eq in E. subst k0.
      assert (String.eqb k' k = false) as -> by (apply String.eqb_neq; congruence).
      reflexivity.
    + now rewrite IH.
Qed.

Lemma dict_keys_set k v d : dict_keys (dict_set k v d) = add_key (dict_keys d) k.
Proof.
  unfold add_key, mem. induction d as [|[k' v'] d IH]; simpl; [reflexivity|].
  destruct (String.eqb k k') eqn:E; simpl.
  - apply String.eqb_eq in E. now subst.
  - rewrite IH. now destruct (existsb (String.eqb k) (dict_keys d)).
Qed.

Lemma dict_get_In k v d : dict_get k d = Some v -> In (k, v) d.
Proof.
  induction d as [|[k' v'] d IH]; simpl; [discriminate|].
  destruct (String.eqb k k') eqn:E.
  - apply String.eqb_eq in E. intros [= ->]. left. now subst.
  - intros H. right. now apply IH.
Qed.

Lemma dict_get_None k d : dict_get k d = None <-> ~ In k (dict_keys d).
Proof.
  induction d as [|[k' v'] d IH]; simpl; [tauto|].
  destruct (String.eqb k k') eqn:E.
  - apply String.eqb_eq in E. subst. split; [discriminate | tauto].
  - apply String.eqb_neq in E. rewrite IH. intuition congruence.
Qed.

Lemma dict_get_wf k v d : dict_wf d -> In (k, v) d -> dict_get k d = Some v.
Proof.
  unfold dict_wf. induction d as [|[k' v'] d IH]; simpl; [tauto|].
  intros Hnd [H|H].
  - injection H as -> ->. now rewrite String.eqb_refl.
  - apply NoDup_cons_iff in Hnd as [Hnotin Hnd].
    destruct (String.eqb k k') eqn:E.
    + apply String.eqb_eq in E. subst k'. exfalso. apply Hnotin.
      apply in_map_iff. now exists (k, v).
    + now apply IH.
Qed.

Lemma dict_set_In k v d x : In x (dict_set k v d) -> x = (k, v) \/ In x d.
Proof.
  induction d as [|[k' v'] d IH]; simpl.
  - intros [H|[]]. now left.
  - destruct (String.eqb k k'); simpl; intuition.
Qed.
End DictFacts.

Lemma mem_In k ks : mem k ks = true <-> In k ks.
Proof.
  unfold mem. rewrite existsb_exists. split.
  - intros (x & Hx & E). apply String.eqb_eq in E. now subst.
  - intros H. exists k. split; [exact H | apply String.eqb_refl].
Qed.

Lemma mem_app k ks ks' : mem k (ks ++ ks') = (mem k ks || mem k ks')%bool.
Proof. unfold mem. apply existsb_app. Qed.

(** ** Key order of the merge *)

Lemma filter_seen_absorb k acc l :
  mem k acc = true ->
  List.filter (fun x => negb (mem x acc))
              (List.filter (fun x => negb (String.eqb x k)) l)
  = List.filter (fun x => negb (mem x acc)) l.
Proof.
  intros Hk. induction l as [|x l IH]; simpl; [reflexivity|].
  destruct (String.eqb x k) eqn:E; simpl.
  - apply String.eqb_eq in E. subst x. rewrite Hk. simpl. exact IH.
  - now rewrite IH.
Qed.

Lemma filter_seen_snoc k acc l :
  List.filter (fun x => negb (mem x (acc ++ [k]))) l
  = List.filter (fun x => negb (mem x acc))
                (List.filter (fun x => negb (String.eqb x k)) l).
Proof.
  induction l as [|x l IH]; simpl; [reflexivity|].
  rewrite mem_app. unfold mem at 2. simpl. rewrite orb_false_r.
  destruct (String.eqb x k) eqn:E; simpl.
  - rewrite orb_true_r. simpl. exact IH.
  - rewrite orb_false_r. now rewrite IH.
Qed.

Lemma add_keys_first_seen ks : forall acc,
  fold_left add_key ks acc
  = acc ++ List.filter (fun k => negb (mem k acc)) (first_seen ks).
Proof.
  induction ks as [|k ks IH]; intros acc; simpl.
  - now rewrite app_nil_r.
  - rewrite IH. unfold add_key. destruct (mem k acc) eqn:Hk; simpl.
    + now rewrite filter_seen_absorb.
    + rewrite <- app_assoc. simpl. now rewrite filter_seen_snoc.
Qed.

Lemma merge_item_keys h d k l :
  dict_keys (snd (merge_item (h, d) (k, l))) = add_key (dict_keys d) k.
Proof.
  unfold merge_item. destruct (dict_get k d) as [stored|] eqn:Hget.
  - assert (Hmem : mem k (dict_keys d) = true).
    { rewrite <- dict_has_mem. unfold dict_has. now rewrite Hget. }
    assert (Hset : forall v, dict_keys (dict_set k v d) = dict_keys d).
    { intros v. rewrite dict_keys_set. unfold add_key. now rewrite Hmem. }
    unfold add_key. rewrite Hmem.
    destruct (deref h stored); simpl; try apply Hset.
    destruct (deref h l); reflexivity.
  - simpl. apply dict_keys_set.
Qed.

Lemma merge_items_keys items : forall st,
  dict_keys (snd (fold_left merge_item items st))
  = fold_left add_key (map fst items) (dict_keys (snd st)).
Proof.
  induction items as [|[k l] items IH]; intros [h d]; [reflexivity|].
  cbn [fold_left map fst snd]. rewrite IH. now rewrite merge_item_keys.
Qed.

Lemma merge_pages_keys_from pages : forall st,
  dict_keys (snd (fold_left merge_page pages st))
  = fold_left add_key (scan_keys pages) (dict_keys (snd st)).
Proof.
  induction pages as [|p pages IH]; intros st; [reflexivity|].
  cbn [fold_left]. rewrite IH. unfold scan_keys. cbn [map concat].
  rewrite fold_left_app. f_equal.
  unfold merge_page, page_keys. destruct (ocr_data p) as [s|]; simpl.
  - apply merge_items_keys.
  - reflexivity.
Qed.

(** The keys of the merged dict are the keys of the pages in order of
    first appearance, the pages taken in the order of the list. *)
Lemma merge_pages_keys h pages :
  dict_keys (snd (merge_pages h pages)) = first_seen (scan_keys pages).
Proof.
  unfold merge_pages. rewrite merge_pages_keys_from. simpl.
  rewrite add_keys_first_seen. simpl.
  induction (first_seen (scan_keys pages)) as [|x l IHl]; simpl; congruence.
Qed.

Lemma insert_page_ascending {V : Type} (p : PDFPage V) ps :
  ascending (p :: ps) -> insert_page p ps = p :: ps.
Proof.
  intros H. destruct ps as [|q ps]; simpl; [reflexivity|].
  apply Sorted_inv in H as [_ Hhd]. apply HdRel_inv in Hhd.
  apply Z.leb_le in Hhd. now rewrite Hhd.
Qed.

Lemma sort_pages_ascending {V : Type} (ps : list (PDFPage V)) :
  ascending ps -> sort_pages ps = ps.
Proof.
  induction ps as [|p ps IH]; intros H; simpl; [reflexivity|].
  rewrite IH by (apply Sorted_inv in H; tauto).
  now apply insert_page_ascending.
Qed.

(** C1, as stated, fails: two recognised pages with distinct numbers, given
    as page 2 then page 1, are merged with page 2's key first, while the
    scan in ascending page order meets page 1's key first. *)
Lemma merge_key_order_needs_sorted_input :
  snd (alloc_pages [] swapped_pages) <> []
  /\ all_recognised (snd (alloc_pages [] swapped_pages))
  /\ List.NoDup (map page_number (snd (alloc_pages [] swapped_pages)))
  /\ dict_keys (snd (merge_pages (fst (alloc_pages [] swapped_pages))
                                 (snd (alloc_pages [] swapped_pages))))
     = ["b"; "a"]
  /\ first_seen (scan_keys (sort_pages (snd (alloc_pages [] swapped_pages))))
     = ["a"; "b"]
  /\ dict_keys (snd (merge_pages (fst (alloc_pages [] swapped_pages))
                                 (snd (alloc_pages [] swapped_pages))))
     <> first_seen (scan_keys (sort_pages (snd (alloc_pages [] swapped_pages)))).
Proof.
  repeat split.
  - discriminate.
  - repeat constructor; discriminate.
  - repeat constructor; simpl; intuition discriminate.
  - vm_compute. discriminate.
Qed.

(** C1 (amended): the keys of the merged dict are in order of first
    appearance when the pages are scanned in the order of the list, which
    is the scan in ascending page order whenever the list is given in
    ascending page order. *)
Theorem merge_key_order (h : heap) (pages : list (PDFPage loc)) :
  dict_keys (snd (merge_pages h pages)) = first_seen (scan_keys pages)
  /\ (ascending pages ->
      dict_keys (snd (merge_pages h pages))
      = first_seen (scan_keys (sort_pages pages))).
Proof.
  split.
  - apply merge_pages_keys.
  - intros Hasc. rewrite sort_pages_ascending by exact Hasc. apply merge_pages_keys.
Qed.

Lemma merge_key_order_witness :
  ascending (snd (alloc_pages [] ordered_pages))
  /\ dict_keys (snd (merge_pages (fst (alloc_pages [] ordered_pages))
                                 (snd (alloc_pages [] ordered_pages))))
     = first_seen (scan_keys (sort_pages (snd (alloc_pages [] ordered_pages)))).
Proof.
  assert (Hasc : ascending (snd (alloc_pages [] ordered_pages))).
  { repeat constructor. simpl. lia. }
  split; [exact Hasc|].
  exact (proj2 (merge_key_order (fst (alloc_pages [] ordered_pages))
                                (snd (alloc_pages [] ordered_pages))) Hasc).
Defined.

(** ** The object store *)

Lemma deref_insert_eq (h : heap) l v : (l < length h)%nat -> deref (<[l:=v]> h) l = v.
Proof. intros H. unfold deref. now rewrite list_lookup_insert_eq. Qed.

Lemma deref_insert_ne (h : heap) l l' v : l <> l' -> deref (<[l:=v]> h) l' = deref h l'.
Proof. intros H. unfold deref. now rewrite list_lookup_insert_ne. Qed.

Lemma deref_app_l (h h' : heap) l : (l < length h)%nat -> deref (h ++ h') l = deref h l.
Proof. intros H. unfold deref. now rewrite lookup_app_l. Qed.

Lemma deref_app_new (h : heap) v : deref (h ++ [v]) (length h) = v.
Proof. unfold deref. now rewrite list_lookup_middle. Qed.

(** Only an object of the store reads as a list. *)
Lemma deref_list_bound (h : heap) l xs : deref h l = VList xs -> (l < length h)%nat.
Proof.
  unfold deref. intros H. destruct (h !! l) eqn:E.
  - eapply lookup_lt_Some. exact E.
  - discriminate.
Qed.

Lemma snapshot_get h d k : dict_get k (snapshot h d) = option_map (deref h) (dict_get k d).
Proof.
  induction d as [|[k' l] d IH]; simpl; [reflexivity|].
  now destruct (String.eqb k k').
Qed.

Lemma snapshot_set h d k l :
  snapshot h (dict_set k l d) = dict_set k (deref h l) (snapshot h d).
Proof.
  induction d as [|[k' l'] d IH]; simpl; [reflexivity|].
  destruct (String.eqb k k'); simpl; [reflexivity | now rewrite IH].
Qed.

Lemma snapshot_ext h h' (d : dict loc) :
  (forall l, In l (dict_values d) -> deref h' l = deref h l) ->
  snapshot h' d = snapshot h d.
Proof.
  induction d as [|[k l] d IH]; simpl; intros H; [reflexivity|].
  rewrite H by now left. rewrite IH; [reflexivity|]. intros l' Hl'. apply H. now right.
Qed.

(** Updating in place the object a key points to updates the dict at that
    key and nowhere else, provided no other key points to the object. *)
Lemma snapshot_insert h (d : dict loc) k l v :
  List.NoDup (dict_values d) -> dict_get k d = Some l -> (l < length h)%nat ->
  snapshot (<[l:=v]> h) d = dict_set k v (snapshot h d).
Proof.
  intros Hnd Hget Hlt. induction d as [|[k0 l0] d IH]; simpl in *; [discriminate|].
  apply NoDup_cons_iff in Hnd as [Hnotin Hnd].
  destruct (String.eqb k k0) eqn:E.
  - injection Hget as ->. apply String.eqb_eq in E. subst k0.
    rewrite deref_insert_eq by exact Hlt. f_equal.
    apply snapshot_ext. intros l' Hl'. apply deref_insert_ne. congruence.
  - rewrite IH by assumption. f_equal. f_equal. apply deref_insert_ne.
    intros ->. apply Hnotin. apply dict_get_In in Hget.
    unfold dict_values. apply in_map_iff. now exists (k, l0).
Qed.

Lemma dict_values_set_absent {V : Type} k (v : V) d :
  dict_get k d = None -> dict_set k v d = d ++ [(k, v)].
Proof.
  induction d as [|[k' v'] d IH]; simpl; [reflexivity|].
  destruct (String.eqb k k'); [discriminate|]. intros H. now rewrite IH.
Qed.

Lemma dict_values_set_In {V : Type} k (v x : V) d :
  In x (dict_values (dict_set k v d)) -> x = v \/ In x (dict_values d).
Proof.
  unfold dict_values. intros H. apply in_map_iff in H as ([k' y] & <- & Hin).
  apply dict_set_In in Hin as [Hin|Hin].
  - injection Hin as _ ->. now left.
  - right. apply in_map_iff. now exists (k', y).
Qed.

Lemma dict_values_set_NoDup {V : Type} k (v : V) d (rest : list V) :
  List.NoDup (dict_values d ++ rest) -> ~ In v (dict_values d ++ rest) ->
  List.NoDup (dict_values (dict_set k v d) ++ rest).
Proof.
  induction d as [|[k' v'] d IH]; simpl; intros Hnd Hv.
  - constructor; assumption.
  - apply NoDup_cons_iff in Hnd as [Hnotin Hnd].
    destruct (String.eqb k k'); simpl.
    + constructor; [|assumption]. intros H. apply Hv. now right.
    + constructor.
      * intros H. apply in_app_or in H as [H|H].
        -- apply dict_values_set_In in H as [H|H].
           ++ apply Hv. now left.
           ++ apply Hnotin. apply in_or_app. now left.
        -- apply Hnotin. apply in_or_app. now right.
      * apply IH; [assumption|]. intros H. apply Hv. now right.
Qed.

(** ** The merge loop against the reference merge

    The state of the loop is read through [snapshot].  As long as the
    objects the result dict points to and the objects of the items still to
    come are pairwise distinct, which is how a parser allocates them, each
    step of the loop is a step of the reference merge. *)

Lemma NoDup_app_disjoint {A : Type} (l l' : list A) x :
  List.NoDup (l ++ l') -> In x l -> In x l' -> False.
Proof.
  induction l as [|a l IH]; simpl; [tauto|].
  intros Hnd [->|Hin] Hin'.
  - apply List.NoDup_cons_iff in Hnd as [Hnotin _]. apply Hnotin, in_or_app. now right.
  - apply List.NoDup_cons_iff in Hnd as [_ Hnd]. now apply IH.
Qed.

Lemma separate_drop h d l rest : separate h d (l :: rest) -> separate h d rest.
Proof.
  intros [Hnd Hlt]. split.
  - eapply NoDup_remove_1. exact Hnd.
  - apply Forall_app in Hlt as [H1 H2]. apply Forall_app. split; [exact H1|].
    now inversion H2.
Qed.

Lemma refine_first h d k l rest :
  separate h d (l :: rest) -> dict_get k d = None ->
  step_refines h d rest (h, dict_set k l d) (dict_set k (deref h l) (snapshot h d)).
Proof.
  intros [Hnd Hlt] Hget. repeat split; simpl.
  - apply snapshot_set.
  - rewrite dict_values_set_absent by exact Hget. unfold dict_values in *.
    rewrite map_app. simpl. now rewrite <- app_assoc.
  - rewrite dict_values_set_absent by exact Hget. unfold dict_values in *.
    rewrite map_app. simpl. now rewrite <- app_assoc.
Qed.

Lemma refine_in_place h d k s l rest x :
  separate h d (l :: rest) -> dict_get k d = Some s -> (s < length h)%nat ->
  step_refines h d rest (<[s:=x]> h, d) (dict_set k x (snapshot h d)).
Proof.
  intros Hsep Hget Hs. pose proof (separate_drop _ _ _ _ Hsep) as [Hnd Hlt].
  assert (Hin : In s (dict_values d)).
  { apply dict_get_In in Hget. unfold dict_values. apply in_map_iff. now exists (k, s). }
  repeat split; simpl.
  - apply snapshot_insert; [|assumption..].
    eapply NoDup_app_remove_r. exact Hnd.
  - exact Hnd.
  - now rewrite length_insert.
  - intros y Hy. apply deref_insert_ne. intros ->.
    exact (NoDup_app_disjoint _ _ _ Hnd Hin Hy).
Qed.

Lemma refine_promote h d k s l rest x :
  separate h d (l :: rest) -> dict_get k d = Some s ->
  step_refines h d rest (h ++ [x], dict_set k (length h) d)
               (dict_set k x (snapshot h d)).
Proof.
  intros Hsep Hget. pose proof (separate_drop _ _ _ _ Hsep) as [Hnd Hlt].
  assert (Hold : forall y, In y (dict_values d ++ rest) -> (y < length h)%nat).
  { now apply List.Forall_forall. }
  repeat split; simpl.
  - rewrite snapshot_set, deref_app_new. f_equal.
    apply snapshot_ext. intros y Hy. apply deref_app_l. apply Hold.
    apply in_or_app. now left.
  - apply dict_values_set_NoDup; [exact Hnd|].
    intros Hin. apply Hold in Hin. lia.
  - apply List.Forall_forall. intros y Hy. rewrite length_app. simpl.
    apply in_app_or in Hy as [Hy|Hy].
    + apply dict_values_set_In in Hy as [->|Hy]; [lia|].
      assert (y < length h)%nat by (apply Hold, in_or_app; now left). lia.
    + assert (y < length h)%nat by (apply Hold, in_or_app; now right). lia.
  - intros y Hy. apply deref_app_l. apply Hold. apply in_or_app. now right.
Qed.

(** The rules of the merge hold step by step in any store, whether or not
    objects are shared: the value merged under the key after a step is read
    off the values before it. *)
Lemma merge_item_rules h d k l :
  stored_value (merge_item (h, d) (k, l)) k
  = match stored_value (h, d) k with
    | None => Some (deref h l)
    | Some (VList xs) =>
        Some (VList (xs ++ match deref h l with VList ys => ys | v => [v] end))
    | Some old => Some (VList [old; deref h l])
    end.
Proof.
  unfold stored_value, merge_item. cbn [fst snd].
  destruct (dict_get k d) as [s|] eqn:Hget; cbn [option_map].
  - destruct (deref h s) eqn:Hs;
      try (cbn [fst snd]; rewrite dict_get_set_eq; cbn [option_map];
           now rewrite deref_app_new).
    pose proof (deref_list_bound _ _ _ Hs) as Hlt.
    destruct (deref h l); cbn [fst snd]; rewrite Hget; cbn [option_map];
      now rewrite deref_insert_eq.
  - cbn [fst snd]. now rewrite dict_get_set_eq.
Qed.

Lemma merge_item_refines h d k l rest :
  separate h d (l :: rest) ->
  step_refines h d rest (merge_item (h, d) (k, l))
               (reference_item (snapshot h d) (k, deref h l)).
Proof.
  intros Hsep. unfold merge_item, reference_item. rewrite snapshot_get.
  destruct (dict_get k d) as [s|] eqn:Hget; simpl.
  - destruct (deref h s) eqn:Hs;
      try (eapply refine_promote; eassumption).
    apply deref_list_bound in Hs.
    destruct (deref h l); eapply refine_in_place; eassumption.
  - now apply refine_first.
Qed.

Lemma merge_items_refine items : forall h d,
  separate h d (dict_values items) ->
  snapshot (fst (fold_left merge_item items (h, d)))
           (snd (fold_left merge_item items (h, d)))
  = fold_left reference_item (snapshot h items) (snapshot h d).
Proof.
  induction items as [|[k l] items IH]; intros h d Hsep; [reflexivity|].
  cbn [fold_left snapshot map fst snd].
  destruct (merge_item_refines h d k l (dict_values items) Hsep) as (Hsnap & Hsep' & Hsame).
  destruct (merge_item (h, d) (k, l)) as [h' d'] eqn:Hstep. simpl in *.
  rewrite IH by exact Hsep'. rewrite Hsnap. f_equal.
  apply snapshot_ext. exact Hsame.
Qed.

Lemma merge_pages_items pages : forall st,
  fold_left merge_page pages st = fold_left merge_item (all_items pages) st.
Proof.
  induction pages as [|p pages IH]; intros st; [reflexivity|].
  unfold all_items. cbn [fold_left map concat]. rewrite fold_left_app, IH.
  unfold merge_page, page_items. now destruct (ocr_data p).
Qed.

Lemma reference_merge_items pages : forall merged,
  fold_left reference_page pages merged
  = fold_left reference_item (all_items pages) merged.
Proof.
  induction pages as [|p pages IH]; intros merged; [reflexivity|].
  unfold all_items. cbn [fold_left map concat]. rewrite fold_left_app, IH.
  unfold reference_page, page_items. now destruct (ocr_data p).
Qed.

(** *** What allocation produces *)

Lemma combine_keys_values {V : Type} (d : dict V) :
  combine (dict_keys d) (dict_values d) = d.
Proof. induction d as [|[k v] d IH]; simpl; congruence. Qed.

Lemma combine_append {A B : Type} (l1 l2 : list A) (r1 r2 : list B) :
  length l1 = length r1 ->
  combine (l1 ++ l2) (r1 ++ r2) = combine l1 r1 ++ combine l2 r2.
Proof.
  revert r1. induction l1 as [|a l1 IH]; intros [|b r1]; simpl; try discriminate.
  - reflexivity.
  - intros [= H]. now rewrite IH.
Qed.

Lemma dict_values_combine {V : Type} (ks : list string) (vs : list V) :
  length ks = length vs -> dict_values (combine ks vs) = vs.
Proof.
  revert vs. induction ks as [|k ks IH]; intros [|v vs]; simpl; try discriminate.
  - reflexivity.
  - intros [= H]. now rewrite IH.
Qed.

Lemma alloc_dict_spec (d : dict value) : forall h,
  alloc_dict h d
  = (h ++ dict_values d, combine (dict_keys d) (seq (length h) (length d))).
Proof.
  induction d as [|[k v] d IH]; intros h; simpl.
  - now rewrite app_nil_r.
  - rewrite IH. rewrite length_app. simpl. rewrite Nat.add_1_r.
    now rewrite <- app_assoc.
Qed.

Lemma alloc_page_spec h (p : PDFPage value) :
  fst (alloc_page h p) = h ++ dict_values (page_items p)
  /\ page_items (snd (alloc_page h p))
     = combine (dict_keys (page_items p)) (seq (length h) (length (page_items p)))
  /\ page_number (snd (alloc_page h p)) = page_number p.
Proof.
  unfold alloc_page, page_items. destruct (ocr_data p) as [s|]; simpl.
  - rewrite alloc_dict_spec. simpl. auto.
  - now rewrite app_nil_r.
Qed.

Lemma alloc_pages_spec (ps : list (PDFPage value)) : forall h,
  fst (alloc_pages h ps) = h ++ dict_values (all_items ps)
  /\ all_items (snd (alloc_pages h ps))
     = combine (dict_keys (all_items ps)) (seq (length h) (length (all_items ps))).
Proof.
  induction ps as [|p ps IH]; intros h; simpl.
  - now rewrite app_nil_r.
  - destruct (alloc_page_spec h p) as (Hh & Hitems & _).
    destruct (alloc_page h p) as [h1 q]. simpl in Hh, Hitems.
    destruct (IH h1) as (Hh2 & Hitems2).
    destruct (alloc_pages h1 ps) as [h2 qs]. simpl in *.
    unfold all_items in *. cbn [map concat]. subst h1 h2. split.
    + unfold dict_values. now rewrite map_app, app_assoc.
    + rewrite Hitems, Hitems2. unfold dict_keys, dict_values.
      rewrite !length_app, !map_app, seq_app, !length_map.
      rewrite combine_append; [reflexivity|].
      now rewrite length_map, length_seq.
Qed.

Lemma snapshot_fresh (vs : list value) : forall (h more : list value) ks,
  length ks = length vs ->
  snapshot (h ++ vs ++ more) (combine ks (seq (length h) (length vs)))
  = combine ks vs.
Proof.
  induction vs as [|v vs IH]; intros h more [|k ks]; simpl; try discriminate;
    try reflexivity.
  intros [= Hlen]. f_equal.
  - f_equal. unfold deref. now rewrite list_lookup_middle.
  - specialize (IH (h ++ [v]) more ks Hlen).
    rewrite length_app in IH. simpl in IH. rewrite Nat.add_1_r in IH.
    rewrite <- app_assoc in IH. exact IH.
Qed.

(** C2: for every sequence of pages as the recognition step delivers them,
    each value a fresh object of the store, the dict the merge loop of
    [extract_data] builds is the one the reference rules give: a first
    occurrence of a key is inserted unchanged, a later occurrence extends a
    stored list by a list and appends anything else to it, and a later
    occurrence on a stored non-list replaces it by the two-element list of
    the stored and the new value, after which the key holds a list. *)
Lemma merged_data_snapshot h pages :
  merged_data h pages
  = snapshot (fst (merge_pages h pages)) (snd (merge_pages h pages)).
Proof. unfold merged_data. now destruct (merge_pages h pages). Qed.

Theorem merge_follows_reference (h : heap) (pages : list (PDFPage value)) :
  merged_data (fst (alloc_pages h pages)) (snd (alloc_pages h pages))
  = reference_merge pages.
Proof.
  destruct (alloc_pages_spec pages h) as (Hh & Hitems).
  rewrite merged_data_snapshot. unfold merge_pages, reference_merge.
  rewrite merge_pages_items, reference_merge_items.
  destruct (alloc_pages h pages) as [h' qs]. cbn [fst snd] in *.
  assert (Hlen : length (dict_keys (all_items pages))
                 = length (dict_values (all_items pages))).
  { unfold dict_keys, dict_values. now rewrite !length_map. }
  assert (Hsnap : snapshot h' (all_items qs) = all_items pages).
  { rewrite Hh, Hitems.
    replace (length (all_items pages)) with (length (dict_values (all_items pages)))
      by (unfold dict_values; apply length_map).
    rewrite <- (app_nil_r (dict_values (all_items pages))) at 1.
    rewrite snapshot_fresh by exact Hlen. apply combine_keys_values. }
  assert (Hsep : separate h' [] (dict_values (all_items qs))).
  { rewrite Hitems.
    rewrite dict_values_combine
      by (rewrite length_seq; unfold dict_keys; apply length_map).
    split; simpl.
    - apply seq_NoDup.
    - apply List.Forall_forall. intros x Hx. apply in_seq in Hx.
      rewrite Hh, length_app. unfold dict_values. rewrite length_map. lia. }
  rewrite <- Hsnap. exact (merge_items_refine (all_items qs) h' [] Hsep).
Qed.

(** The examples of section 8 of the specification. *)
Example merge_list_then_scalar :
  reference_merge list_then_scalar = [("k", VList [VStr "A"; VStr "B"; VStr "C"])].
Proof. reflexivity. Qed.

Example merge_three_scalars :
  map reference_merge [firstn 1 three_scalars; firstn 2 three_scalars; three_scalars]
  = [[("k", VStr "X")];
     [("k", VList [VStr "X"; VStr "Y"])];
     [("k", VList [VStr "X"; VStr "Y"; VStr "Z"])]].
Proof. reflexivity. Qed.

(** ** The pages after the merge *)

(** C4 fails on the code: the first occurrence of a key stores the page's
    own list object in the result, and the later [extend] or [append]
    under that key updates it.  After merging a page holding
    [{"k": ["A", "B"]}] and a page holding [{"k": "C"}], the first page
    reads [{"k": ["A", "B", "C"]}]. *)
Lemma merge_extends_list_of_first_page :
  map (page_contents (fst (alloc_pages [] list_then_scalar)))
      (snd (alloc_pages [] list_then_scalar))
  = [Some [("k", VList [VStr "A"; VStr "B"])]; Some [("k", VStr "C")]]
  /\ map (page_contents
            (fst (merge_pages (fst (alloc_pages [] list_then_scalar))
                              (snd (alloc_pages [] list_then_scalar)))))
         (snd (alloc_pages [] list_then_scalar))
     = [Some [("k", VList [VStr "A"; VStr "B"; VStr "C"])]; Some [("k", VStr "C")]].
Proof. split; reflexivity. Qed.

(** ** Construction of the records *)

(** C7, as stated, fails: a page numbered 0 or -3 is constructed. *)
Lemma page_number_not_validated :
  (0 <= 0)%Z /\ (-3 <= 0)%Z
  /\ raises (new_PDFPage 0 "page_000.jpeg" None) = false
  /\ raises (new_PDFPage (-3) "page.jpeg" None) = false.
Proof. repeat split; try reflexivity; lia. Qed.

(** C7 (amended): constructing a [PDFPage] succeeds for every integer page
    number; constructing a [StructuredOCR] fails with a validation error
    exactly when [ocr_contents] is not a mapping, and otherwise yields the
    record of its arguments. *)
Theorem model_construction (number : Z) (path name : string)
    (ocr : option (StructuredOCR value)) (contents : value) :
  new_PDFPage number path ocr
  = Ok {| page_number := number; image_path := path; ocr_data := ocr |}
  /\ new_StructuredOCR name contents
     = match contents with
       | VDict d => Ok {| file_name := name; ocr_contents := d |}
       | _ => Raise (ValidationError "Input should be a valid dictionary")
       end
  /\ raises (new_StructuredOCR name contents) = negb (is_dict contents).
Proof.
  split; [reflexivity|]. split; destruct contents; reflexivity.
Qed.

(** ** Missing prompts *)

Lemma dict_has_get {V : Type} k (d : dict V) :
  dict_has k d = false <-> dict_get k d = None.
Proof. unfold dict_has. destruct (dict_get k d); split; congruence. Qed.




(** ** The file name of an export *)

Lemma sanitize_char_passes isalnum c :
  (if (keep_or_underscore isalnum c =? SPACE)%Z then UNDERSCORE
   else keep_or_underscore isalnum c)
  = sanitize_char isalnum c.
Proof.
  unfold keep_or_underscore, sanitize_char, SPACE, UNDERSCORE, HYPHEN.
  destruct (c =? 32)%Z eqn:Hsp.
  - rewrite orb_true_r. rewrite Hsp. reflexivity.
  - destruct (isalnum c); simpl.
    + now rewrite Hsp.
    + destruct (c =? 95)%Z eqn:Hus; simpl.
      * rewrite Hsp. apply Z.eqb_eq in Hus. subst c. reflexivity.
      * destruct (c =? 45)%Z eqn:Hhy; simpl.
        -- rewrite Hsp. now apply Z.eqb_eq in Hhy.
        -- reflexivity.
Qed.

Lemma sanitize_char_range isalnum c :
  isalnum (sanitize_char isalnum c) = true
  \/ sanitize_char isalnum c = UNDERSCORE
  \/ sanitize_char isalnum c = HYPHEN.
Proof.
  unfold sanitize_char. destruct (c =? SPACE)%Z; [auto|].
  destruct (isalnum c) eqn:H; [auto|].
  destruct (c =? HYPHEN)%Z; auto.
Qed.

(** C8: the export name is the display name in which every character that
    is alphanumeric, a hyphen or an underscore is kept and every other one,
    spaces included, is an underscore, the whole lowercased; for
    "Pièces / Désignations" it is "pièces___désignations", made of
    lowercase letters and underscores. *)
Theorem export_name_sanitized (isalnum : codepoint -> bool) (lower : pystr -> pystr)
    (name : pystr) :
  export_safe_name isalnum lower name = lower (map (sanitize_char isalnum) name)
  /\ Forall (fun c => isalnum c = true \/ c = UNDERSCORE \/ c = HYPHEN)
            (map (sanitize_char isalnum) name)
  /\ length (map (sanitize_char isalnum) name) = length name
  /\ export_safe_name latin1_isalnum latin1_lower pieces_designations
     = pieces_designations_safe
  /\ forallb safe_char pieces_designations_safe = true.
Proof.
  repeat split.
  - unfold export_safe_name, replace_spaces. rewrite map_map. f_equal.
    apply map_ext. intros c. apply sanitize_char_passes.
  - apply List.Forall_forall. intros c Hc. apply in_map_iff in Hc as (c0 & <- & _).
    apply sanitize_char_range.
  - apply length_map.
Qed.

(** ** Data that cannot be projected *)

(** C6, as stated, fails: a string or a number handed to the entry point,
    a record whose [ocr_contents] is an error string, and a number or a
    non-empty list held as [extracted_data] all make the projection
    raise; an error string under ["ocr_contents"] alone is projected as
    data. *)
Lemma unprojectable_input_raises :
  extract_dataframes_from_ocr_json (OfValue (VStr "Erreur lors du traitement OCR"))
  = Raise (TypeError "Type de résultat OCR non pris en charge: <class 'str'>")
  /\ extract_dataframes_from_ocr_json (OfValue (VInt 42))
     = Raise (TypeError "Type de résultat OCR non pris en charge: <class 'int'>")
  /\ extract_dataframes_from_ocr_json
       (OfValue (VDict [("file_name", VStr "a.pdf");
                        ("ocr_contents", VStr "Erreur lors du traitement OCR")]))
     = Raise (ValidationError "Input should be a valid dictionary")
  /\ create_dataframe_from_extraction_result (result_of (VInt 42))
     = Raise (AttributeError "'int' object has no attribute 'items'")
  /\ create_dataframe_from_extraction_result (result_of (VList [VInt 1]))
     = Raise (AttributeError "'list' object has no attribute 'items'")
  /\ extract_dataframes_from_ocr_json
       (OfValue (VDict [("ocr_contents", VStr "Erreur lors du traitement OCR")]))
     = Ok [(GENERAL,
            {| df_index := 1;
               df_columns :=
                 [("ocr_contents", [Val (VStr "Erreur lors du traitement OCR")])] |})].
Proof. repeat split. Qed.

(** C6 (amended): [create_dataframe_from_extraction_result] returns the
    one-table, one-row placeholder when [extracted_data] is falsy (the
    empty mapping, [None], an empty list or string, zero, [False]) or a
    string, and raises on any other value that is not a mapping; the entry
    point returns the placeholder for an empty dict and raises [TypeError]
    on an argument that is neither a record nor a dict.  A dict that holds
    both ["file_name"] and ["ocr_contents"] is taken as a wrapper: the
    contents are projected when the name is a string and the contents are
    a mapping, and the validation of [ExtractionResult] rejects it
    otherwise; a dict that lacks one of the two keys is projected as the
    data, whatever it holds under the other. *)
Theorem unprojectable_shapes (e : ExtractionResult) (v : value) (d : dict value) :
  (if (negb (truthy (extracted_data e)) || is_str (extracted_data e))%bool
   then create_dataframe_from_extraction_result e = Ok no_data_tables
   else if is_dict (extracted_data e) then truthy (extracted_data e) = true
   else create_dataframe_from_extraction_result e
        = Raise (AttributeError (no_attribute (extracted_data e) "items")))
  /\ (if is_dict v
      then extract_dataframes_from_ocr_json (OfValue (VDict []))
           = Ok no_data_tables
      else extract_dataframes_from_ocr_json (OfValue v)
           = Raise (TypeError ("Type de résultat OCR non pris en charge: <class '"
                               ++ type_name v ++ "'>")))
  /\ map (fun t => (fst t, df_index (snd t), df_cells (snd t))) no_data_tables
     = [(ERROR_TABLE, 1%nat, [Val (VStr NO_DATA)])]
  /\ match dict_get "file_name" d, dict_get "ocr_contents" d with
     | Some (VStr _), Some (VDict contents) =>
         extract_dataframes_from_ocr_json (OfValue (VDict d))
         = create_dataframe_from_extraction_result (result_of (VDict contents))
     | Some _, Some _ =>
         exists message,
           extract_dataframes_from_ocr_json (OfValue (VDict d))
           = Raise (ValidationError message)
     | _, _ =>
         extract_dataframes_from_ocr_json (OfValue (VDict d))
         = create_dataframe_from_extraction_result (result_of (VDict d))
     end.
Proof.
  split; [|split; [|split]].
  - unfold create_dataframe_from_extraction_result.
    destruct (extracted_data e) as [| b | z | s | l | d0]; simpl.
    + reflexivity.
    + destruct b; reflexivity.
    + destruct (z =? 0)%Z; reflexivity.
    + rewrite orb_true_r. reflexivity.
    + destruct l; reflexivity.
    + destruct d0; reflexivity.
  - destruct v; reflexivity.
  - reflexivity.
  - cbn [extract_dataframes_from_ocr_json].
    destruct (dict_get "file_name" d) as [name|];
      destruct (dict_get "ocr_contents" d) as [contents|]; try reflexivity.
    + destruct name, contents; try reflexivity; eexists; reflexivity.
    + now destruct name.
Qed.

(** ** Tables *)

Lemma first_seen_fold ks : first_seen ks = fold_left add_key ks [].
Proof.
  rewrite add_keys_first_seen. simpl.
  induction (first_seen ks) as [|x l IH]; simpl; congruence.
Qed.

Lemma first_seen_snoc ks k : first_seen (ks ++ [k]) = add_key (first_seen ks) k.
Proof. rewrite !first_seen_fold, fold_left_app. reflexivity. Qed.

Lemma first_seen_In ks k : In k (first_seen ks) <-> In k ks.
Proof.
  induction ks as [|x ks IH]; simpl; [tauto|].
  rewrite filter_In, IH. split.
  - intros [H|[H _]]; auto.
  - intros [H|H]; [now left|].
    destruct (String.eqb k x) eqn:E.
    + left. apply String.eqb_eq in E. congruence.
    + right. split; [exact H | reflexivity].
Qed.

Lemma add_key_In acc k x : In x (add_key acc k) <-> In x acc \/ x = k.
Proof.
  unfold add_key. destruct (mem k acc) eqn:E.
  - apply mem_In in E. split; [auto|]. intros [H| ->]; assumption.
  - rewrite in_app_iff. simpl. intuition.
Qed.

Lemma dict_get_map_self {V : Type} (f : string -> V) cols c :
  In c cols -> dict_get c (map (fun c => (c, f c)) cols) = Some (f c).
Proof.
  induction cols as [|c0 cols IH]; simpl; [tauto|].
  destruct (String.eqb c c0) eqn:E.
  - apply String.eqb_eq in E. now subst.
  - intros [H|H]; [|now apply IH]. subst. now rewrite String.eqb_refl in E.
Qed.

Lemma as_records_map rows : as_records (map VDict rows) = Ok rows.
Proof. induction rows as [|r rows IH]; simpl; [reflexivity|]. now rewrite IH. Qed.

Lemma all_dicts_map data :
  forallb is_dict data = true -> exists rows, data = map VDict rows.
Proof.
  induction data as [|v data IH]; simpl; intros H.
  - now exists [].
  - apply andb_true_iff in H as [Hv Hdata]. destruct (IH Hdata) as [rows ->].
    destruct v; try discriminate. now exists (d :: rows).
Qed.

Lemma as_records_inv data rows : as_records data = Ok rows -> data = map VDict rows.
Proof.
  revert rows. induction data as [|v data IH]; simpl; intros rows H.
  - injection H as <-. reflexivity.
  - destruct v; try discriminate. simpl in H.
    destruct (as_records data) as [rs|] eqn:E; [|discriminate].
    injection H as <-. simpl. f_equal. now apply IH.
Qed.

Lemma DataFrame_of_records_rows rows :
  DataFrame_of_records (map VDict rows) = Ok (table_of_rows rows).
Proof. unfold DataFrame_of_records. now rewrite as_records_map. Qed.

Lemma DataFrame_of_records_inv data df :
  DataFrame_of_records data = Ok df ->
  exists rows, data = map VDict rows /\ df = table_of_rows rows.
Proof.
  unfold DataFrame_of_records. destruct (as_records data) as [rows|] eqn:E;
    [|discriminate].
  simpl. intros [= <-]. exists rows. split; [|reflexivity]. now apply as_records_inv.
Qed.

(** *** The type inference of a column *)

Lemma maybe_convert_objects_cases column :
  maybe_convert_objects column = column
  \/ maybe_convert_objects column = map to_float column.
Proof.
  unfold maybe_convert_objects.
  destruct (existsb keeps_objects column); [now left|].
  destruct (integers_overflow false false false column); [now left|].
  match goal with |- context [if ?b then _ else _] => destruct b end; auto.
Qed.

Lemma maybe_convert_objects_length column :
  length (maybe_convert_objects column) = length column.
Proof.
  destruct (maybe_convert_objects_cases column) as [-> | ->];
    [reflexivity | apply length_map].
Qed.

Lemma maybe_convert_objects_lookup column i x :
  column !! i = Some x ->
  maybe_convert_objects column !! i = Some x
  \/ maybe_convert_objects column !! i = Some (to_float x).
Proof.
  intros Hi. destruct (maybe_convert_objects_cases column) as [-> | ->]; [now left|].
  right. change (map to_float column) with (to_float <$> column).
  now rewrite list_lookup_fmap, Hi.
Qed.

(** A cell that is neither [None] nor an integer is never changed. *)
Lemma maybe_convert_objects_keeps column i x :
  column !! i = Some x -> to_float x = x ->
  maybe_convert_objects column !! i = Some x.
Proof.
  intros Hi Hx. destruct (maybe_convert_objects_lookup column i x Hi) as [H|H];
    [exact H | now rewrite H, Hx].
Qed.

Lemma maybe_convert_objects_In column c :
  In c (maybe_convert_objects column) ->
  exists x, In x column /\ (c = x \/ c = to_float x).
Proof.
  destruct (maybe_convert_objects_cases column) as [-> | ->]; intros Hc.
  - exists c. auto.
  - apply in_map_iff in Hc as (x & <- & Hx). exists x. auto.
Qed.

(** A column of one row is left as it is. *)
Lemma maybe_convert_objects_single c : maybe_convert_objects [c] = [c].
Proof.
  destruct c as [[| b | z | s | l | r] | | z]; try reflexivity.
  unfold maybe_convert_objects. cbn [existsb keeps_objects orb].
  now destruct (integers_overflow false false false [Val (VInt z)]).
Qed.

Lemma table_of_rows_names rows :
  df_column_names (table_of_rows rows) = first_seen (concat (map dict_keys rows)).
Proof.
  unfold df_column_names, dict_keys, table_of_rows. simpl.
  rewrite map_map. simpl. apply map_id.
Qed.

Lemma table_of_rows_column rows c :
  In c (df_column_names (table_of_rows rows)) ->
  dict_get c (df_columns (table_of_rows rows))
  = Some (maybe_convert_objects (map (record_cell c) rows)).
Proof.
  intros Hc. rewrite table_of_rows_names in Hc. unfold table_of_rows. cbn [df_columns].
  now rewrite (dict_get_map_self
                 (fun c => maybe_convert_objects (map (record_cell c) rows))).
Qed.

Lemma record_cell_lookup rows i r c :
  rows !! i = Some r -> map (record_cell c) rows !! i = Some (record_cell c r).
Proof.
  intros Hi. change (map (record_cell c) rows) with (record_cell c <$> rows).
  now rewrite list_lookup_fmap, Hi.
Qed.

(** The cell of a row under a column is what the record has there, the
    missing marker if it has nothing, as given or as a float. *)
Lemma table_of_rows_cell rows i r c :
  rows !! i = Some r -> In c (df_column_names (table_of_rows rows)) ->
  df_cell (table_of_rows rows) c i = Some (record_cell c r)
  \/ df_cell (table_of_rows rows) c i = Some (to_float (record_cell c r)).
Proof.
  intros Hi Hc. unfold df_cell. rewrite (table_of_rows_column rows c Hc).
  apply maybe_convert_objects_lookup. now apply record_cell_lookup.
Qed.

Lemma table_of_rows_cell_kept rows i r c :
  rows !! i = Some r -> In c (df_column_names (table_of_rows rows)) ->
  to_float (record_cell c r) = record_cell c r ->
  df_cell (table_of_rows rows) c i = Some (record_cell c r).
Proof.
  intros Hi Hc Hkept. unfold df_cell. rewrite (table_of_rows_column rows c Hc).
  apply maybe_convert_objects_keeps; [now apply record_cell_lookup | exact Hkept].
Qed.

Lemma table_of_rows_single r : table_of_rows [r] = record_table r.
Proof.
  unfold table_of_rows, record_table. cbn [length map concat]. rewrite app_nil_r.
  f_equal. apply map_ext. intros c. now rewrite maybe_convert_objects_single.
Qed.

Lemma table_of_rows_has_keys rows i r c :
  rows !! i = Some r -> In c (dict_keys r) ->
  In c (df_column_names (table_of_rows rows)).
Proof.
  intros Hi Hc. rewrite table_of_rows_names. apply first_seen_In.
  apply in_concat. exists (dict_keys r). split; [|exact Hc].
  apply in_map. apply list_elem_of_In. eapply list_elem_of_lookup_2. exact Hi.
Qed.

Lemma table_of_rows_cells rows c :
  In c (df_cells (table_of_rows rows)) ->
  cell_from (concat (map dict_values rows)) c.
Proof.
  unfold df_cells, dict_values, table_of_rows. simpl. rewrite map_map. simpl.
  intros H. apply in_concat in H as (col & Hcol & Hc).
  apply in_map_iff in Hcol as (name & <- & _).
  apply maybe_convert_objects_In in Hc as (x & Hx & Hc).
  apply in_map_iff in Hx as (r & <- & Hr).
  unfold record_cell in Hc. destruct (dict_get name r) as [v|] eqn:Hget.
  - assert (Hv : In v (concat (map (map snd) rows))).
    { apply in_concat. exists (map snd r). split; [now apply in_map|].
      apply dict_get_In in Hget. apply in_map_iff. now exists (name, v). }
    destruct Hc as [-> | ->]; [exact Hv|].
    destruct v; simpl; auto.
  - destruct Hc as [-> | ->]; exact I.
Qed.

(** ** Where the cells of the projection come from *)

Lemma classify_records tables k v :
  generic v = false ->
  classify tables (k, v)
  = perform df := DataFrame_of_records (records_of v) in Ok (dict_set k df tables).
Proof.
  destruct v as [| | | | [|[] l] |]; try discriminate; reflexivity.
Qed.

Lemma classify_generic tables k v :
  generic v = true ->
  classify tables (k, v)
  = let tables1 := if dict_has GENERAL tables then tables
                   else dict_set GENERAL DataFrame_new tables in
    perform general' := DataFrame_setitem
                          (default DataFrame_new (dict_get GENERAL tables1))
                          k [Val v] in
    Ok (dict_set GENERAL general' tables1).
Proof.
  destruct v as [| | | | [|[] l] |]; try discriminate; reflexivity.
Qed.

Lemma cell_from_app_l vals more c : cell_from vals c -> cell_from (vals ++ more) c.
Proof. destruct c; simpl; try tauto; intros H; apply in_or_app; now left. Qed.

Lemma cell_from_app_r vals more c : cell_from more c -> cell_from (vals ++ more) c.
Proof. destruct c; simpl; try tauto; intros H; apply in_or_app; now right. Qed.

Lemma cells_from_set vals tables name df :
  cells_from vals tables ->
  (forall c, In c (df_cells df) -> cell_from vals c) ->
  cells_from vals (dict_set name df tables).
Proof.
  intros Htables Hdf n t c Hin Hc. apply dict_set_In in Hin as [Hin|Hin].
  - injection Hin as -> ->. now apply Hdf.
  - eapply Htables; eassumption.
Qed.

Lemma DataFrame_setitem_single df key c :
  DataFrame_setitem df key [c]
  = match df_index df with
    | 0%nat =>
        Ok {| df_index := 1;
              df_columns :=
                dict_set key [c] (map (fun kc => (fst kc, [NaN])) (df_columns df)) |}
    | 1%nat => Ok {| df_index := 1; df_columns := dict_set key [c] (df_columns df) |}
    | index =>
        Raise (ValueError ("Length of values (1) does not match length of index ("
                           ++ str_of_nat index ++ ")"))
    end.
Proof.
  unfold DataFrame_setitem. destruct (df_index df) as [|[|n]]; reflexivity.
Qed.

Lemma DataFrame_setitem_cells df key v df' c :
  DataFrame_setitem df key [Val v] = Ok df' ->
  In c (df_cells df') -> c = Val v \/ c = NaN \/ In c (df_cells df).
Proof.
  rewrite DataFrame_setitem_single. unfold df_cells.
  destruct (df_index df) as [|[|n]]; try discriminate.
  - intros [= <-]. simpl. intros H. apply in_concat in H as (col & Hcol & Hc).
    apply dict_values_set_In in Hcol as [->|Hcol].
    + destruct Hc as [<-|[]]. now left.
    + unfold dict_values in Hcol. rewrite map_map in Hcol. simpl in Hcol.
      apply in_map_iff in Hcol as (x & <- & _). destruct Hc as [<-|[]]. auto.
  - intros [= <-]. simpl. intros H. apply in_concat in H as (col & Hcol & Hc).
    apply dict_values_set_In in Hcol as [->|Hcol].
    + destruct Hc as [<-|[]]. now left.
    + right. right. apply in_concat. now exists col.
Qed.

Lemma records_values_rows rows :
  concat (map record_values (map VDict rows)) = concat (map dict_values rows).
Proof. now rewrite map_map. Qed.

Lemma classify_cells vals tables k v tables' :
  cells_from vals tables ->
  classify tables (k, v) = Ok tables' ->
  cells_from (vals ++ projected_values [(k, v)]) tables'.
Proof.
  intros Hfrom. unfold projected_values. cbn [map concat snd]. rewrite app_nil_r.
  assert (Hmono : cells_from (vals ++ (if generic v then [v]
                   else concat (map record_values (records_of v)))) tables).
  { intros n t c Hin Hc. apply cell_from_app_l. eapply Hfrom; eassumption. }
  destruct (generic v) eqn:Hgen.
  - rewrite classify_generic by exact Hgen. cbv zeta.
    set (tables1 := if dict_has GENERAL tables then tables
                    else dict_set GENERAL DataFrame_new tables).
    assert (H1 : cells_from (vals ++ [v]) tables1).
    { unfold tables1. destruct (dict_has GENERAL tables); [exact Hmono|].
      apply cells_from_set; [exact Hmono|]. intros c []. }
    destruct (DataFrame_setitem (default DataFrame_new (dict_get GENERAL tables1))
                                k [Val v]) as [general'|] eqn:Hset; [|discriminate].
    simpl. intros [= <-]. apply cells_from_set; [exact H1|].
    intros c Hc. eapply DataFrame_setitem_cells in Hc; [|exact Hset].
    destruct Hc as [->|[->|Hc]].
    + simpl. apply in_or_app. right. now left.
    + exact I.
    + destruct (dict_get GENERAL tables1) as [g|] eqn:Hget; simpl in Hc; [|destruct Hc].
      apply dict_get_In in Hget. eapply H1; eassumption.
  - rewrite classify_records by exact Hgen.
    destruct (DataFrame_of_records (records_of v)) as [df|] eqn:Hdf; [|discriminate].
    simpl. intros [= <-]. apply cells_from_set; [exact Hmono|].
    intros c Hc. apply DataFrame_of_records_inv in Hdf as (rows & Hrows & ->).
    rewrite Hrows, records_values_rows. apply cell_from_app_r.
    now apply table_of_rows_cells.
Qed.

Lemma projected_values_cons kv d :
  projected_values (kv :: d) = projected_values [kv] ++ projected_values d.
Proof. unfold projected_values. simpl. now rewrite app_nil_r. Qed.

Lemma for_each_classify_cells d : forall vals tables tables',
  cells_from vals tables ->
  for_each classify d tables = Ok tables' ->
  cells_from (vals ++ projected_values d) tables'.
Proof.
  induction d as [|[k v] d IH]; intros vals tables tables' Hfrom; cbn [for_each].
  - intros [= <-]. unfold projected_values. simpl. now rewrite app_nil_r.
  - destruct (classify tables (k, v)) as [tables1|] eqn:Hstep; cbn [bind];
      [|discriminate].
    intros Hrest. rewrite projected_values_cons, app_assoc.
    eapply IH; [|exact Hrest]. eapply classify_cells; eassumption.
Qed.

(** The loop never leaves the dict of tables empty, so the branch after
    it that rebuilds the general table is not taken. *)
Lemma dict_set_not_nil {V : Type} k (v : V) d : dict_set k v d <> [].
Proof. destruct d as [|[k' v'] d]; simpl; [|destruct (String.eqb k k')]; discriminate. Qed.

Lemma classify_not_nil tables kv tables' :
  classify tables kv = Ok tables' -> tables' <> [].
Proof.
  destruct kv as [k v]. destruct (generic v) eqn:Hgen.
  - rewrite classify_generic by exact Hgen. cbv zeta.
    destruct (DataFrame_setitem _ _ _); [|discriminate].
    simpl. intros [= <-]. apply dict_set_not_nil.
  - rewrite classify_records by exact Hgen.
    destruct (DataFrame_of_records _); [|discriminate].
    simpl. intros [= <-]. apply dict_set_not_nil.
Qed.

Lemma for_each_classify_not_nil d : forall tables tables',
  tables <> [] -> for_each classify d tables = Ok tables' -> tables' <> [].
Proof.
  induction d as [|kv d IH]; intros tables tables' Hne; cbn [for_each].
  - now intros [= <-].
  - destruct (classify tables kv) as [tables1|] eqn:Hstep; cbn [bind];
      [|discriminate].
    apply IH. eapply classify_not_nil. exact Hstep.
Qed.

(** The projection of a non-empty mapping is the outcome of the loop. *)
Lemma create_dataframe_loop e kv d :
  extracted_data e = VDict (kv :: d) ->
  create_dataframe_from_extraction_result e = for_each classify (kv :: d) [].
Proof.
  intros He. unfold create_dataframe_from_extraction_result. rewrite He.
  cbn [truthy is_str negb orb for_each].
  destruct (classify [] kv) as [tables1|] eqn:Hstep; cbn [bind]; [|reflexivity].
  destruct (for_each classify d tables1) as [tables|] eqn:Hrest; cbn [bind];
    [|reflexivity].
  destruct tables; [|reflexivity].
  exfalso. eapply for_each_classify_not_nil; [|exact Hrest|reflexivity].
  eapply classify_not_nil. exact Hstep.
Qed.

(** The examples of section 8 of the specification. *)
Example project_invoice :
  create_dataframe_from_extraction_result (result_of (VDict invoice)) = Ok invoice_tables.
Proof. reflexivity. Qed.

Example project_customer :
  create_dataframe_from_extraction_result (result_of (VDict customer))
  = Ok [("Customer",
         {| df_index := 1; df_columns := [("name", [Val (VStr "Acme")])] |})].
Proof. reflexivity. Qed.

(** C5, as stated, fails: a list of strings lands in a cell of the general
    table, and a mapping nested in a record lands in a cell of the table of
    the record. *)
Lemma nested_values_reach_cells :
  create_dataframe_from_extraction_result (result_of (VDict tagged))
  = Ok [(GENERAL,
         {| df_index := 1;
            df_columns := [("Tags", [Val (VList [VStr "urgent"; VStr "paid"])])] |});
        ("Customer",
         {| df_index := 1;
            df_columns := [("address", [Val (VDict [("city", VStr "Lyon")])])] |})]
  /\ cell_scalar (Val (VList [VStr "urgent"; VStr "paid"])) = false
  /\ cell_scalar (Val (VDict [("city", VStr "Lyon")])) = false.
Proof. repeat split. Qed.

(** ** The classification, entry by entry *)

Lemma records_of_rows v :
  generic v = false -> homogeneous v = true ->
  exists rows, records_of v = map VDict rows.
Proof.
  destruct v as [| | | | [|[] l] |]; try discriminate; simpl; intros _ H.
  - destruct (all_dicts_map l H) as [rows ->]. now exists (d :: rows).
  - now exists [d].
Qed.

Lemma table_of_generic k v : generic v = true -> table_of (k, v) = GENERAL.
Proof. unfold table_of. simpl. now intros ->. Qed.

Lemma table_of_records k v : generic v = false -> table_of (k, v) = k.
Proof. unfold table_of. simpl. now intros ->. Qed.

Lemma label_free_In d k v :
  label_free d = true -> In (k, v) d -> generic v = false -> k <> GENERAL.
Proof.
  unfold label_free. rewrite forallb_forall. intros H Hin Hgen ->.
  specialize (H _ Hin). cbn [fst snd] in H.
  rewrite String.eqb_refl, Hgen in H. discriminate.
Qed.

Lemma label_free_app d d' :
  label_free (d ++ d') = (label_free d && label_free d')%bool.
Proof. unfold label_free. apply forallb_app. Qed.

(** A table in use comes from an entry seen. *)
Lemma table_in_use seen tables name :
  projection_state seen tables -> In name (dict_keys tables) ->
  exists k v, In (k, v) seen /\ table_of (k, v) = name.
Proof.
  intros (Hkeys & _) Hin. rewrite Hkeys in Hin.
  apply (proj1 (first_seen_In _ _)) in Hin.
  apply in_map_iff in Hin as ([k v] & Heq & Hin). now exists k, v.
Qed.

Lemma generic_filter_app (seen : dict value) k v :
  List.filter (fun kv => generic (snd kv)) (seen ++ [(k, v)])
  = List.filter (fun kv => generic (snd kv)) seen
    ++ (if generic v then [(k, v)] else []).
Proof. rewrite List.filter_app. simpl. now destruct (generic v). Qed.

Lemma filter_keys_subset {V : Type} (f : string * V -> bool) (d : dict V) k :
  In k (dict_keys (List.filter f d)) -> In k (dict_keys d).
Proof.
  unfold dict_keys. intros H. apply in_map_iff in H as (kv & <- & Hin).
  apply filter_In in Hin as [Hin _]. now apply in_map.
Qed.

Lemma filter_keys_NoDup {V : Type} (f : string * V -> bool) (d : dict V) :
  dict_wf d -> dict_wf (List.filter f d).
Proof.
  unfold dict_wf. induction d as [|[k v] d IH]; simpl; intros H; [constructor|].
  apply List.NoDup_cons_iff in H as [Hnotin Hnd]. destruct (f (k, v)); simpl.
  - constructor; [|now apply IH]. intros Hin. apply Hnotin.
    eapply filter_keys_subset. exact Hin.
  - now apply IH.
Qed.

Lemma general_columns_keys (seen : dict value) :
  dict_keys (df_columns (general_table seen))
  = dict_keys (List.filter (fun kv => generic (snd kv)) seen).
Proof. unfold general_table, dict_keys. simpl. now rewrite map_map. Qed.

Lemma add_key_idem acc k : add_key (add_key acc k) k = add_key acc k.
Proof.
  unfold add_key at 2. destruct (mem k acc) eqn:E.
  - unfold add_key. now rewrite E.
  - unfold add_key. rewrite mem_app. unfold mem at 2. simpl.
    now rewrite String.eqb_refl, E.
Qed.

(** The step of the loop on an entry of the first two cases. *)
Lemma classify_records_step seen tables k v :
  projection_state seen tables ->
  ~ In k (dict_keys seen) ->
  k <> GENERAL \/ List.filter (fun kv => generic (snd kv)) seen = [] ->
  generic v = false -> homogeneous v = true ->
  exists tables', classify tables (k, v) = Ok tables'
                  /\ projection_state (seen ++ [(k, v)]) tables'.
Proof.
  intros (Hkeys & Hrec & Hgen) Hfresh Hlabel Hv Hhom.
  destruct (records_of_rows v Hv Hhom) as [rows Hrows].
  exists (dict_set k (table_of_rows rows) tables). split.
  - rewrite classify_records by exact Hv.
    now rewrite Hrows, DataFrame_of_records_rows.
  - split; [|split].
    + rewrite dict_keys_set, Hkeys, map_app. simpl.
      rewrite first_seen_snoc. now rewrite (table_of_records k v Hv).
    + intros k0 v0 Hin Hv0. apply in_app_or in Hin as [Hin|[[= <- <-]|[]]].
      * destruct (Hrec k0 v0 Hin Hv0) as (rows0 & Hrows0 & Hget).
        exists rows0. split; [exact Hrows0|].
        rewrite dict_get_set_ne; [exact Hget|].
        intros ->. apply Hfresh. unfold dict_keys. apply in_map_iff. now exists (k0, v0).
      * exists rows. split; [exact Hrows | apply dict_get_set_eq].
    + rewrite generic_filter_app, Hv, app_nil_r. intros Hne.
      destruct Hlabel as [Hlabel|Hnone]; [|contradiction].
      rewrite dict_get_set_ne by exact Hlabel. rewrite (Hgen Hne).
      unfold general_table. now rewrite generic_filter_app, Hv, app_nil_r.
Qed.

(** The step of the loop on an entry of the third case. *)
Lemma classify_generic_step seen tables k v :
  projection_state seen tables ->
  ~ In k (dict_keys seen) -> label_free seen = true ->
  generic v = true ->
  exists tables', classify tables (k, v) = Ok tables'
                  /\ projection_state (seen ++ [(k, v)]) tables'.
Proof.
  intros Hstate Hfresh Hfree Hv. pose proof Hstate as (Hkeys & Hrec & Hgen).
  assert (Hnew : general_table (seen ++ [(k, v)])
                 = {| df_index := 1;
                      df_columns := df_columns (general_table seen) ++ [(k, [Val v])] |}).
  { unfold general_table. simpl. rewrite generic_filter_app, Hv, map_app. reflexivity. }
  assert (Hothers : forall tables' t,
             dict_keys (dict_set GENERAL t tables')
             = first_seen (map table_of (seen ++ [(k, v)])) ->
             (forall k0, k0 <> GENERAL ->
                dict_get k0 (dict_set GENERAL t tables') = dict_get k0 tables) ->
             t = general_table (seen ++ [(k, v)]) ->
             projection_state (seen ++ [(k, v)]) (dict_set GENERAL t tables')).
  { intros tables' t Hk Hsame ->. split; [exact Hk|]. split.
    - intros k0 v0 Hin Hv0. apply in_app_or in Hin as [Hin|[[= <- <-]|[]]];
        [|congruence].
      destruct (Hrec k0 v0 Hin Hv0) as (rows0 & Hrows0 & Hget).
      exists rows0. split; [exact Hrows0|]. rewrite Hsame; [exact Hget|].
      eapply label_free_In; eassumption.
    - intros _. apply dict_get_set_eq. }
  rewrite classify_generic by exact Hv. cbv zeta.
  destruct (List.filter (fun kv => generic (snd kv)) seen) as [|g gs] eqn:Hfilter.
  - (* the general table is created *)
    assert (Habsent : dict_get GENERAL tables = None).
    { apply dict_get_None. intros Hin.
      destruct (table_in_use _ _ _ Hstate Hin) as (k0 & v0 & Hin0 & Htable).
      destruct (generic v0) eqn:Hv0.
      - assert (In (k0, v0) (List.filter (fun kv => generic (snd kv)) seen))
          by (apply filter_In; auto).
        rewrite Hfilter in H. destruct H.
      - rewrite table_of_records in Htable by exact Hv0. subst k0.
        now apply (label_free_In seen GENERAL v0). }
    unfold dict_has. rewrite Habsent, dict_get_set_eq. simpl.
    eexists. split; [reflexivity|]. apply Hothers.
    + rewrite !dict_keys_set, add_key_idem, Hkeys, map_app. simpl.
      rewrite first_seen_snoc. now rewrite (table_of_generic k v Hv).
    + intros k0 Hk0. rewrite !dict_get_set_ne by congruence. reflexivity.
    + rewrite Hnew. unfold general_table. simpl. rewrite Hfilter. reflexivity.
  - (* the general table gets one more column *)
    assert (Hpresent : dict_get GENERAL tables = Some (general_table seen)).
    { apply Hgen. discriminate. }
    unfold dict_has. rewrite Hpresent. cbv beta iota. rewrite Hpresent.
    rewrite DataFrame_setitem_single. simpl.
    eexists. split; [reflexivity|]. apply Hothers.
    + rewrite dict_keys_set, Hkeys, map_app. simpl.
      rewrite first_seen_snoc. now rewrite (table_of_generic k v Hv).
    + intros k0 Hk0. rewrite dict_get_set_ne by congruence. reflexivity.
    + rewrite Hnew. f_equal. apply dict_values_set_absent.
      apply dict_get_None. fold (general_table seen). rewrite general_columns_keys.
      intros Hin. apply Hfresh. eapply filter_keys_subset. exact Hin.
Qed.

Lemma projection_state_nil : projection_state [] [].
Proof.
  split; [reflexivity|]. split.
  - intros k v [].
  - intros H. now destruct H.
Qed.

Lemma label_apart_cases d :
  label_apart d = true ->
  label_free d = true \/ (forall k v, In (k, v) d -> generic v = false).
Proof.
  unfold label_apart. intros H. apply orb_true_iff in H as [H|H]; [now left|right].
  intros k v Hin. rewrite forallb_forall in H. specialize (H _ Hin).
  now apply negb_true_iff in H.
Qed.

Lemma for_each_classify_state rest : forall seen tables,
  projection_state seen tables ->
  dict_wf (seen ++ rest) -> records_only rest = true ->
  label_apart (seen ++ rest) = true ->
  exists tables', for_each classify rest tables = Ok tables'
                  /\ projection_state (seen ++ rest) tables'.
Proof.
  induction rest as [|[k v] rest IH]; intros seen tables Hstate Hwf Hrec Hfree.
  - exists tables. rewrite app_nil_r. now split.
  - assert (Hfresh : ~ In k (dict_keys seen)).
    { unfold dict_wf, dict_keys in Hwf. rewrite map_app in Hwf. simpl in Hwf.
      apply NoDup_remove_2 in Hwf. intros Hin. apply Hwf, in_or_app. now left. }
    unfold records_only in Hrec. simpl in Hrec.
    apply andb_true_iff in Hrec as [Hhom Hrec].
    assert (Hhere : In (k, v) (seen ++ (k, v) :: rest))
      by (apply in_or_app; right; now left).
    assert (Hstep : exists tables1, classify tables (k, v) = Ok tables1
                                    /\ projection_state (seen ++ [(k, v)]) tables1).
    { destruct (label_apart_cases _ Hfree) as [Hlabel|Hrecords].
      - pose proof Hlabel as Hlabel'. rewrite label_free_app in Hlabel'.
        apply andb_true_iff in Hlabel' as [Hfree_seen Hfree_rest].
        destruct (generic v) eqn:Hv.
        + now apply classify_generic_step.
        + apply classify_records_step; try assumption.
          left. now apply (label_free_In (seen ++ (k, v) :: rest) k v Hlabel).
      - apply classify_records_step; try assumption.
        + right. destruct (List.filter (fun kv => generic (snd kv)) seen)
            as [|[k0 v0] l] eqn:Hfilter; [reflexivity|].
          assert (Hin0 : In (k0, v0) (List.filter (fun kv => generic (snd kv)) seen))
            by (rewrite Hfilter; now left).
          apply filter_In in Hin0 as [Hin0 Hgen0]. cbn [snd] in Hgen0.
          rewrite (Hrecords k0 v0) in Hgen0; [discriminate|].
          apply in_or_app. now left.
        + now apply (Hrecords k v). }
    destruct Hstep as (tables1 & Hclassify & Hstate1).
    replace (seen ++ (k, v) :: rest) with ((seen ++ [(k, v)]) ++ rest) in *
      by now rewrite <- app_assoc.
    destruct (IH (seen ++ [(k, v)]) tables1 Hstate1 Hwf Hrec Hfree)
      as (tables' & Hloop & Hstate').
    exists tables'. split; [|exact Hstate'].
    cbn [for_each]. rewrite Hclassify. exact Hloop.
Qed.

Lemma lookup_records rows i r :
  map VDict rows !! i = Some (VDict r) -> rows !! i = Some r.
Proof.
  intros H. change (map VDict rows) with (VDict <$> rows) in H.
  rewrite list_lookup_fmap in H.
  destruct (rows !! i) as [r'|]; simpl in H; [|discriminate]. congruence.
Qed.

Lemma classified_generic tables k v df :
  generic v = true ->
  dict_get GENERAL tables = Some df -> df_index df = 1%nat ->
  df_cell df k 0 = Some (Val v) ->
  classified tables k v.
Proof.
  intros Hv Hget Hidx Hcell.
  destruct v as [| | | | [|[] l] |]; try discriminate; simpl;
    exists df; auto.
Qed.

Lemma projection_state_classified d tables k v :
  dict_wf d -> projection_state d tables -> In (k, v) d -> classified tables k v.
Proof.
  intros Hwf (Hkeys & Hrec & Hgen) Hin. destruct (generic v) eqn:Hv.
  - assert (Hfiltered : In (k, v) (List.filter (fun kv => generic (snd kv)) d))
      by (apply filter_In; auto).
    apply (classified_generic tables k v (general_table d) Hv).
    + apply Hgen. intros Hnil. rewrite Hnil in Hfiltered. destruct Hfiltered.
    + reflexivity.
    + unfold df_cell, general_table. simpl.
      rewrite (dict_get_wf k [Val v]); [reflexivity| |].
      * unfold dict_wf, dict_keys. rewrite map_map. simpl.
        apply (filter_keys_NoDup (fun kv => generic (snd kv)) d Hwf).
      * apply in_map_iff. now exists (k, v).
  - destruct (Hrec k v Hin Hv) as (rows & Hrows & Hget).
    destruct v as [| b | z | s | [|[| b0 | z0 | s0 | l0 | r0] l] | r]; try discriminate;
      simpl in Hrows; unfold classified.
    + exists (table_of_rows rows). split; [exact Hget|]. split.
      * unfold table_of_rows. cbn [df_index]. rewrite Hrows. now rewrite length_map.
      * intros i r Hi. rewrite Hrows in Hi. apply lookup_records in Hi. split.
        -- intros c Hc. eapply table_of_rows_has_keys; eassumption.
        -- intros c Hc. now apply table_of_rows_cell.
    + destruct rows as [|r' [|r'' rows]]; try discriminate.
      injection Hrows as <-. exists (table_of_rows [r]). split; [exact Hget|].
      split; [reflexivity|]. split.
      * rewrite table_of_rows_names. simpl. now rewrite app_nil_r.
      * intros c x Hc. rewrite table_of_rows_single.
        unfold df_cell, record_table. cbn [df_columns].
        rewrite (dict_get_map_self (fun c => [record_cell c r])).
        -- unfold record_cell. now rewrite Hc.
        -- apply first_seen_In. apply dict_get_In in Hc. unfold dict_keys.
           apply in_map_iff. now exists (c, x).
Qed.

Lemma dict_set_set {V : Type} k (v v0 : V) d :
  dict_set k v (dict_set k v0 d) = dict_set k v d.
Proof.
  induction d as [|[k' v'] d IH]; simpl.
  - now rewrite String.eqb_refl.
  - destruct (String.eqb k k') eqn:E; simpl.
    + now rewrite String.eqb_refl.
    + now rewrite E, IH.
Qed.

(** The third case of the loop on the table 'Informations générales' as
    it stands, or on a new frame when there is none. *)
Lemma classify_generic_result tables k v :
  generic v = true ->
  classify tables (k, v)
  = perform general' := DataFrame_setitem
                          (default DataFrame_new (dict_get GENERAL tables)) k [Val v] in
    Ok (dict_set GENERAL general' tables).
Proof.
  intros Hv. rewrite classify_generic by exact Hv. cbv zeta. unfold dict_has.
  destruct (dict_get GENERAL tables) as [g|] eqn:Hget.
  - now rewrite Hget.
  - rewrite dict_get_set_eq.
    change (default DataFrame_new (Some DataFrame_new)) with DataFrame_new.
    change (default DataFrame_new None) with DataFrame_new.
    destruct (DataFrame_setitem DataFrame_new k [Val v]); [|reflexivity].
    cbn [bind]. now rewrite dict_set_set.
Qed.

Lemma classify_keys tables kv tables' :
  classify tables kv = Ok tables' ->
  dict_keys tables' = add_key (dict_keys tables) (table_of kv).
Proof.
  destruct kv as [k v]. destruct (generic v) eqn:Hv.
  - rewrite classify_generic_result, (table_of_generic k v Hv) by exact Hv.
    destruct (DataFrame_setitem _ _ _); [|discriminate].
    cbn [bind]. intros [= <-]. apply dict_keys_set.
  - rewrite classify_records, (table_of_records k v Hv) by exact Hv.
    destruct (DataFrame_of_records _); [|discriminate].
    cbn [bind]. intros [= <-]. apply dict_keys_set.
Qed.

Lemma for_each_classify_keys d : forall tables tables',
  for_each classify d tables = Ok tables' ->
  dict_keys tables' = fold_left add_key (map table_of d) (dict_keys tables).
Proof.
  induction d as [|kv d IH]; intros tables tables'; cbn [for_each map fold_left].
  - now intros [= <-].
  - destruct (classify tables kv) as [tables1|] eqn:Hstep; cbn [bind]; [|discriminate].
    intros Hrest. rewrite (IH _ _ Hrest). now rewrite (classify_keys _ _ _ Hstep).
Qed.

(** *** The loop of the projection whatever the keys are *)

Lemma records_of_not_nil v rows :
  generic v = false -> records_of v = map VDict rows -> rows <> [].
Proof.
  destruct v as [| | | | [|[] l] |]; try discriminate; intros _ H ->; discriminate.
Qed.

Lemma snoc_decompose {A : Type} (seen before after : list A) x y :
  seen ++ [x] = before ++ y :: after ->
  (after = [] /\ seen = before /\ x = y)
  \/ exists after', after = after' ++ [x] /\ seen = before ++ y :: after'.
Proof.
  destruct after as [|z after _] using rev_ind; intros Heq.
  - left. apply app_inj_tail in Heq as [-> ->]. auto.
  - right. exists after. change (before ++ y :: after ++ [z])
      with (before ++ (y :: after) ++ [z]) in Heq.
    rewrite app_assoc in Heq. apply app_inj_tail in Heq as [-> ->]. auto.
Qed.

Lemma dict_wf_snoc_fresh (seen : dict value) k v k0 v0 :
  dict_wf (seen ++ [(k, v)]) -> In (k0, v0) seen -> k0 <> k.
Proof.
  unfold dict_wf, dict_keys. rewrite map_app. cbn [map fst].
  intros Hwf Hin ->. apply NoDup_remove_2 in Hwf. apply Hwf.
  rewrite app_nil_r. apply in_map_iff. now exists (k, v0).
Qed.

Lemma classified_records tables k v rows :
  generic v = false -> records_of v = map VDict rows ->
  dict_get k tables = Some (table_of_rows rows) ->
  classified tables k v.
Proof.
  intros Hv Hrows Hget.
  destruct v as [| b | z | s | [|[| b0 | z0 | s0 | l0 | r0] l] | r]; try discriminate;
    simpl in Hrows; unfold classified.
  - exists (table_of_rows rows). split; [exact Hget|]. split.
    + unfold table_of_rows. cbn [df_index]. rewrite Hrows. now rewrite length_map.
    + intros i r Hi. rewrite Hrows in Hi. apply lookup_records in Hi. split.
      * intros c Hc. eapply table_of_rows_has_keys; eassumption.
      * intros c Hc. now apply table_of_rows_cell.
  - destruct rows as [|r' [|r'' rows]]; try discriminate.
    injection Hrows as <-. exists (table_of_rows [r]). split; [exact Hget|].
    split; [reflexivity|]. split.
    + rewrite table_of_rows_names. simpl. now rewrite app_nil_r.
    + intros c x Hc. rewrite table_of_rows_single.
      unfold df_cell, record_table. cbn [df_columns].
      rewrite (dict_get_map_self (fun c => [record_cell c r])).
      * unfold record_cell. now rewrite Hc.
      * apply first_seen_In. apply dict_get_In in Hc. unfold dict_keys.
        apply in_map_iff. now exists (c, x).
Qed.

Lemma loop_state_nil : loop_state [] [].
Proof.
  split.
  - intros k v [].
  - intros before k v after Heq. now destruct before.
Qed.

Lemma loop_state_step seen tables k v tables' :
  loop_state seen tables -> dict_wf (seen ++ [(k, v)]) ->
  classify tables (k, v) = Ok tables' ->
  loop_state (seen ++ [(k, v)]) tables'.
Proof.
  intros [Hrec Hgen] Hwf Hstep. destruct (generic v) eqn:Hv.
  - rewrite classify_generic_result in Hstep by exact Hv.
    destruct (DataFrame_setitem (default DataFrame_new (dict_get GENERAL tables))
                                k [Val v]) as [general'|] eqn:Hset; [|discriminate].
    cbn [bind] in Hstep. injection Hstep as <-. split.
    + intros k0 v0 Hin Hv0. apply in_app_or in Hin as [Hin|[[= <- <-]|[]]];
        [|congruence].
      destruct (Hrec k0 v0 Hin Hv0) as (rows & df & Hrows & Hget & Hidx & Hcols & Heq).
      destruct (String.eqb k0 GENERAL) eqn:Hk0.
      * apply String.eqb_eq in Hk0. subst k0. rewrite Hget in Hset.
        change (default DataFrame_new (Some df)) with df in Hset.
        rewrite DataFrame_setitem_single in Hset.
        pose proof (records_of_not_nil v0 rows Hv0 Hrows) as Hne.
        destruct (df_index df) as [|[|n]] eqn:Hdf; try discriminate.
        -- destruct rows; [congruence | discriminate].
        -- injection Hset as <-. exists rows. eexists. split; [exact Hrows|].
           split; [apply dict_get_set_eq|]. split; [exact Hidx|]. split; [|congruence].
           intros c Hc. unfold df_column_names. cbn [df_columns].
           rewrite dict_keys_set. apply add_key_In. left. now apply Hcols.
      * apply String.eqb_neq in Hk0. exists rows, df. split; [exact Hrows|].
        split; [|auto]. rewrite dict_get_set_ne by congruence. exact Hget.
    + intros before k1 v1 after Heq Hv1 Hfree. rewrite dict_get_set_eq.
      exists general'. split; [reflexivity|].
      apply snoc_decompose in Heq as [(-> & -> & [= <- <-]) | (after' & -> & ->)].
      * rewrite DataFrame_setitem_single in Hset.
        destruct (df_index _) as [|[|n]]; try discriminate; injection Hset as <-;
          (split; [reflexivity|]); unfold df_cell; cbn [df_columns];
          now rewrite dict_get_set_eq.
      * rewrite label_free_app in Hfree. apply andb_true_iff in Hfree as [Hfree _].
        destruct (Hgen before k1 v1 after' eq_refl Hv1 Hfree) as (df & Hget & Hidx & Hcell).
        rewrite Hget in Hset. change (default DataFrame_new (Some df)) with df in Hset.
        rewrite DataFrame_setitem_single, Hidx in Hset. injection Hset as <-.
        split; [reflexivity|]. unfold df_cell in *. cbn [df_columns].
        rewrite dict_get_set_ne; [exact Hcell|].
        intros ->. eapply (dict_wf_snoc_fresh _ _ _ _ _ Hwf); [|reflexivity].
        apply in_or_app. right. left. reflexivity.
  - rewrite classify_records in Hstep by exact Hv.
    destruct (DataFrame_of_records (records_of v)) as [df|] eqn:Hdf; [|discriminate].
    cbn [bind] in Hstep. injection Hstep as <-.
    apply DataFrame_of_records_inv in Hdf as (rows & Hrows & ->). split.
    + intros k0 v0 Hin Hv0. apply in_app_or in Hin as [Hin|[[= <- <-]|[]]].
      * destruct (Hrec k0 v0 Hin Hv0) as (rows0 & df0 & Hrows0 & Hget & Hrest).
        exists rows0, df0. split; [exact Hrows0|]. split; [|exact Hrest].
        rewrite dict_get_set_ne; [exact Hget|].
        intros ->. now apply (dict_wf_snoc_fresh _ _ _ _ _ Hwf Hin).
      * exists rows, (table_of_rows rows). split; [exact Hrows|].
        split; [apply dict_get_set_eq|]. auto.
    + intros before k1 v1 after Heq Hv1 Hfree.
      apply snoc_decompose in Heq as [(-> & -> & [= <- <-]) | (after' & -> & ->)];
        [congruence|].
      pose proof Hfree as Hfree'. rewrite label_free_app in Hfree'.
      apply andb_true_iff in Hfree' as [Hfree' _].
      destruct (Hgen before k1 v1 after' eq_refl Hv1 Hfree') as (df & Hget & Hrest).
      exists df. split; [|exact Hrest]. rewrite dict_get_set_ne; [exact Hget|].
      apply (label_free_In (after' ++ [(k, v)]) k v Hfree); [|exact Hv].
      apply in_or_app. right. now left.
Qed.

Lemma for_each_classify_loop_state rest : forall seen tables tables',
  loop_state seen tables -> dict_wf (seen ++ rest) ->
  for_each classify rest tables = Ok tables' ->
  loop_state (seen ++ rest) tables'.
Proof.
  induction rest as [|[k v] rest IH]; intros seen tables tables' Hstate Hwf;
    cbn [for_each].
  - intros [= <-]. now rewrite app_nil_r.
  - destruct (classify tables (k, v)) as [tables1|] eqn:Hstep; cbn [bind]; [|discriminate].
    replace (seen ++ (k, v) :: rest) with ((seen ++ [(k, v)]) ++ rest) in *
      by now rewrite <- app_assoc.
    apply IH; [|exact Hwf]. apply (loop_state_step seen tables k v tables1 Hstate);
      [|exact Hstep].
    unfold dict_wf, dict_keys in *. rewrite map_app in Hwf.
    now apply List.NoDup_app_remove_r in Hwf.
Qed.

Lemma loop_state_placed d tables :
  dict_keys tables = first_seen (map table_of d) ->
  loop_state d tables -> placed d tables.
Proof.
  intros Hkeys [Hrec Hgen]. split; [exact Hkeys|]. split; [|split].
  - intros k v Hin. destruct (generic v) eqn:Hv.
    + destruct v as [| | | | [|[] l] |]; try discriminate; exact I.
    + destruct (Hrec k v Hin Hv) as (rows & df & Hrows & Hget & Hidx & Hcols & _).
      destruct v as [| b | z | s | [|[| b0 | z0 | s0 | l0 | r0] l] | r];
        try discriminate; cbn [records_of] in Hrows; unfold shaped.
      * exists df. split; [exact Hget|]. split.
        -- rewrite Hidx, Hrows. now rewrite length_map.
        -- intros i r c Hi Hc. rewrite Hrows in Hi. apply lookup_records in Hi.
           apply Hcols. eapply table_of_rows_has_keys; eassumption.
      * destruct rows as [|r' [|r'' rows]]; try discriminate. injection Hrows as <-.
        exists df. split; [exact Hget|]. split; [exact Hidx|].
        intros c Hc. apply Hcols. now apply (table_of_rows_has_keys [r] 0 r c).
  - intros k v Hin Hv Hk.
    destruct (Hrec k v Hin Hv) as (rows & df & Hrows & Hget & _ & _ & Heq).
    rewrite (Heq Hk) in Hget. now apply (classified_records tables k v rows).
  - intros before k v after Heq Hv Hfree.
    destruct (Hgen before k v after Heq Hv Hfree) as (df & Hget & Hidx & Hcell).
    now apply (classified_generic tables k v df).
Qed.

(** What the projection returns for a non-empty mapping is in the state
    above. *)
Lemma projection_placed e d tables :
  extracted_data e = VDict d -> d <> [] -> dict_wf d ->
  create_dataframe_from_extraction_result e = Ok tables ->
  placed d tables.
Proof.
  intros He Hne Hwf Hcreate. destruct d as [|kv d]; [congruence|].
  rewrite (create_dataframe_loop e kv d He) in Hcreate.
  apply loop_state_placed.
  - rewrite (for_each_classify_keys _ _ _ Hcreate). symmetry. apply first_seen_fold.
  - exact (for_each_classify_loop_state (kv :: d) [] [] tables loop_state_nil Hwf Hcreate).
Qed.

(** C3, as stated, fails: a list whose first element is a record and
    whose second is a string makes the projection raise instead of
    yielding a table of two rows; and when the label of the general table
    is itself the key of a record that comes after a scalar, the table of
    the record replaces the general table and the scalar is in no
    table. *)
Lemma classification_fails_on_mixed_list_and_label :
  records_only mixed_list = false
  /\ create_dataframe_from_extraction_result (result_of (VDict mixed_list))
     = Raise (AttributeError "'str' object has no attribute 'keys'")
  /\ label_apart label_as_key = false
  /\ create_dataframe_from_extraction_result (result_of (VDict label_as_key))
     = Ok [(GENERAL,
            {| df_index := 1; df_columns := [("name", [Val (VStr "Acme")])] |})]
  /\ ~ classified
         [(GENERAL,
           {| df_index := 1; df_columns := [("name", [Val (VStr "Acme")])] |})]
         "InvoiceNumber" (VStr "123").
Proof.
  repeat split.
  intros (df & Hget & _ & Hcell). injection Hget as <-. discriminate.
Qed.

(** C3 (amended): for a non-empty mapping in which every list that starts
    with a record holds records only and in which the label
    'Informations générales' is not the key of a record or of a list of
    records, unless no key falls under the third case, the projection
    returns tables, in order of first use, such that a key whose value is
    a non-empty list starting with a mapping has the table of its name
    with one row per element, each element's keys among the columns, a key
    whose value is a mapping has the table of its name with exactly one
    row whose columns are the value's keys, and any other key is one
    column of the single one-row table 'Informations générales'.  A cell
    of a table of several rows holds what its element has under the
    column, as given or as the type inference of the column has made it
    (an integer a float, [None] the missing marker), and the missing
    marker where the element has nothing.

    Whatever the keys are, when the projection returns, the names of the
    tables are in order of first use, every record and every list of
    records has the table of its name with its rows and the keys of its
    elements among the columns, all of the above holds of it when its key
    is not the label, and a key of the third case is a column of the
    one-row table of the label when no record or list of records comes
    under the label after it. *)
Theorem classification (e : ExtractionResult) (d : dict value) :
  extracted_data e = VDict d -> d <> [] -> dict_wf d ->
  (records_only d = true -> label_apart d = true ->
   exists tables,
     create_dataframe_from_extraction_result e = Ok tables
     /\ dict_keys tables = first_seen (map table_of d)
     /\ forall k v, In (k, v) d -> classified tables k v)
  /\ (forall tables,
        create_dataframe_from_extraction_result e = Ok tables -> placed d tables).
Proof.
  intros He Hne Hwf. split.
  - intros Hrec Hfree. destruct d as [|kv d]; [congruence|].
    destruct (for_each_classify_state (kv :: d) [] [] projection_state_nil Hwf Hrec Hfree)
      as (tables & Hloop & Hstate).
    exists tables. split; [|split].
    + rewrite (create_dataframe_loop e kv d He). exact Hloop.
    + apply Hstate.
    + intros k v Hin. eapply projection_state_classified; eassumption.
  - intros tables Hcreate. now apply (projection_placed e).
Qed.

Lemma classification_witness :
  (records_only invoice = true -> label_apart invoice = true ->
   exists tables,
     create_dataframe_from_extraction_result (result_of (VDict invoice)) = Ok tables
     /\ dict_keys tables = first_seen (map table_of invoice)
     /\ forall k v, In (k, v) invoice -> classified tables k v)
  /\ (forall tables,
        create_dataframe_from_extraction_result (result_of (VDict invoice)) = Ok tables ->
        placed invoice tables).
Proof.
  apply (classification (result_of (VDict invoice)) invoice).
  - reflexivity.
  - discriminate.
  - repeat constructor; simpl; intuition discriminate.
Defined.

(** ** What the cells hold *)

Lemma generic_homogeneous v : generic v = true -> homogeneous v = true.
Proof. destruct v as [| | | | [|[] l] |]; try discriminate; reflexivity. Qed.

Lemma for_each_classify_records_only d : forall tables tables',
  for_each classify d tables = Ok tables' -> records_only d = true.
Proof.
  induction d as [|[k v] d IH]; intros tables tables'; cbn [for_each]; [reflexivity|].
  destruct (classify tables (k, v)) as [tables1|] eqn:Hstep; cbn [bind]; [|discriminate].
  intros Hrest. unfold records_only. cbn [forallb snd].
  apply andb_true_iff. split; [|exact (IH _ _ Hrest)].
  destruct (generic v) eqn:Hv; [now apply generic_homogeneous|].
  rewrite classify_records in Hstep by exact Hv.
  destruct (DataFrame_of_records (records_of v)) as [df|] eqn:Hdf; [|discriminate].
  apply DataFrame_of_records_inv in Hdf as (rows & Hrows & _).
  destruct v as [| | | | [|[] l] |]; try discriminate; try reflexivity.
  cbn [records_of] in Hrows. destruct rows as [|r rows]; [discriminate|].
  cbn [map] in Hrows. injection Hrows as _ ->. cbn [homogeneous].
  apply forallb_forall. intros x Hx. now apply in_map_iff in Hx as (r' & <- & _).
Qed.

Lemma classified_kept tables k v : classified tables k v -> kept tables k v.
Proof.
  unfold kept. destruct (generic v) eqn:Hv.
  - destruct v as [| | | | [|[] l] |]; try discriminate;
      intros (df & Hget & _ & Hcell); now exists df.
  - destruct v as [| b | z | s | [|[| b0 | z0 | s0 | l0 | r0] l] | r]; try discriminate.
    + intros (df & Hget & _ & Hrows). exists df. split; [exact Hget|].
      intros i r c x Hi Hc Hx. cbn [records_of] in Hi.
      destruct (Hrows i r Hi) as [Hkeys Hcells].
      assert (Hcol : In c (df_column_names df)).
      { apply Hkeys. apply dict_get_In in Hc. unfold dict_keys.
        apply in_map_iff. now exists (c, x). }
      assert (Hcell : record_cell c r = Val x) by (unfold record_cell; now rewrite Hc).
      destruct (Hcells c Hcol) as [H|H]; rewrite H, Hcell; [reflexivity|].
      now destruct x.
    + intros (df & Hget & _ & _ & Hcells). exists df. split; [exact Hget|].
      intros i r' c x Hi Hc _. cbn [records_of] in Hi.
      destruct i as [|i]; [|discriminate]. injection Hi as <-. now apply Hcells.
Qed.

(** C5 (amended): every cell of every table returned for a mapping holds
    the missing marker, the placeholder message, a value of the data as it
    is, or the float of such a value when it is an integer: a top-level
    value of the third case, or a field of a top-level record or of a
    record of a top-level list.  So the cells of a table are all scalar
    unless one of these values is a list or a mapping; and such a list or
    mapping is kept: a value of the third case is the cell of its column
    in the general table, and a list or a mapping in a record is the cell
    of its row and column in the table of the record.  This holds of
    every entry when the label of the general table is kept apart, and
    otherwise of a record or list of records whose key is not the label
    and of a value of the third case after which no record or list of
    records comes under the label. *)
Theorem cells_hold_projected_values (e : ExtractionResult) (d : dict value)
    (tables : dict DataFrame) :
  extracted_data e = VDict d ->
  create_dataframe_from_extraction_result e = Ok tables ->
  (forall name df, In (name, df) tables ->
     Forall (cell_from (VStr NO_DATA :: projected_values d)) (df_cells df)
     /\ (forallb cell_scalar (df_cells df) = true
         \/ existsb (fun v => negb (is_scalar v)) (projected_values d) = true))
  /\ (dict_wf d ->
      forall before k v after, d = before ++ (k, v) :: after ->
        label_apart d = true
        \/ (if generic v then label_free after = true else k <> GENERAL) ->
        kept tables k v).
Proof.
  intros He Hcreate. split.
  - intros name df Hin.
    assert (Hcells : Forall (cell_from (VStr NO_DATA :: projected_values d)) (df_cells df)).
    { apply List.Forall_forall. intros c Hc. destruct d as [|kv d].
      - unfold create_dataframe_from_extraction_result in Hcreate.
        rewrite He in Hcreate. simpl in Hcreate. injection Hcreate as <-.
        destruct Hin as [[= <- <-]|[]]. destruct Hc as [<-|[]]. simpl. now left.
      - rewrite (create_dataframe_loop e kv d He) in Hcreate.
        assert (Hempty : cells_from [] []) by (intros ? ? ? []).
        pose proof (for_each_classify_cells _ _ _ _ Hempty Hcreate) as Hfrom.
        specialize (Hfrom name df c Hin Hc). destruct c; simpl in *; auto. }
    split; [exact Hcells|].
    destruct (existsb (fun v => negb (is_scalar v)) (projected_values d)) eqn:Hex;
      [now right|left].
    apply forallb_forall. intros c Hc.
    eapply List.Forall_forall in Hcells; [|exact Hc].
    destruct c as [v| |z]; try reflexivity.
    simpl in *. destruct Hcells as [<-|Hv]; [reflexivity|].
    destruct (is_scalar v) eqn:Hs; [reflexivity|].
    assert (existsb (fun v => negb (is_scalar v)) (projected_values d) = true).
    { apply existsb_exists. exists v. split; [exact Hv|]. now rewrite Hs. }
    congruence.
  - intros Hwf before k v after Hsplit Hcase. apply classified_kept.
    assert (Hin : In (k, v) d) by (subst d; apply in_or_app; right; now left).
    assert (Hne : d <> []) by (intros ->; destruct Hin).
    destruct Hcase as [Hapart|Hcase].
    + destruct d as [|kv d]; [congruence|].
      rewrite (create_dataframe_loop e kv d He) in Hcreate.
      pose proof (for_each_classify_records_only _ _ _ Hcreate) as Hrec.
      destruct (for_each_classify_state (kv :: d) [] [] projection_state_nil
                  Hwf Hrec Hapart) as (tables' & Hloop & Hstate).
      cbn [app] in Hloop, Hstate. rewrite Hloop in Hcreate. injection Hcreate as ->.
      eapply projection_state_classified; eassumption.
    + destruct (projection_placed e d tables He Hne Hwf Hcreate)
        as (_ & _ & Hrecords & Hgeneral).
      destruct (generic v) eqn:Hv.
      * now apply (Hgeneral before k v after).
      * now apply Hrecords.
Qed.

Lemma cells_hold_projected_values_witness :
  (forall name df, In (name, df) tagged_tables ->
     Forall (cell_from (VStr NO_DATA :: projected_values tagged)) (df_cells df)
     /\ (forallb cell_scalar (df_cells df) = true
         \/ existsb (fun v => negb (is_scalar v)) (projected_values tagged) = true))
  /\ (dict_wf tagged ->
      forall before k v after, tagged = before ++ (k, v) :: after ->
        label_apart tagged = true
        \/ (if generic v then label_free after = true else k <> GENERAL) ->
        kept tagged_tables k v).
Proof.
  apply (cells_hold_projected_values (result_of (VDict tagged)) tagged tagged_tables).
  - reflexivity.
  - reflexivity.
Defined.

(** ** The label of the general table as a key *)

Lemma DataFrame_of_record r : DataFrame_of_records [VDict r] = Ok (record_table r).
Proof.
  change [VDict r] with (map VDict [r]).
  now rewrite DataFrame_of_records_rows, table_of_rows_single.
Qed.

Lemma classify_record tables k r :
  classify tables (k, VDict r) = Ok (dict_set k (record_table r) tables).
Proof.
  rewrite classify_records by reflexivity.
  change (records_of (VDict r)) with [VDict r]. now rewrite DataFrame_of_record.
Qed.

Lemma classify_into_existing tables key v df :
  generic v = true -> dict_get GENERAL tables = Some df -> df_index df = 1%nat ->
  classify tables (key, v) = Ok (dict_set GENERAL (with_column df key v) tables).
Proof.
  intros Hv Hget Hidx. rewrite classify_generic by exact Hv. cbv zeta.
  unfold dict_has. rewrite Hget. cbv beta iota. rewrite Hget.
  rewrite DataFrame_setitem_single. simpl. now rewrite Hidx.
Qed.

(** C10: when 'Informations générales' is a top-level key whose value is a
    mapping, the record rule creates the table of that name, and a later
    key of the third case is added to that table as one more column: the
    names of the tables are unchanged, no other table is created, and for
    a mapping of just these two keys the projection returns this single
    table. *)
Theorem general_label_not_reserved (tables : dict DataFrame) (r : dict value)
    (key : string) (v : value) :
  generic v = true -> key <> GENERAL ->
  dict_get GENERAL tables = Some (record_table r) ->
  classify tables (key, v)
  = Ok (dict_set GENERAL (with_column (record_table r) key v) tables)
  /\ dict_keys (dict_set GENERAL (with_column (record_table r) key v) tables)
     = dict_keys tables
  /\ df_index (with_column (record_table r) key v) = 1%nat
  /\ df_column_names (with_column (record_table r) key v)
     = add_key (first_seen (dict_keys r)) key
  /\ df_cell (with_column (record_table r) key v) key 0 = Some (Val v)
  /\ create_dataframe_from_extraction_result
       (result_of (VDict [(GENERAL, VDict r); (key, v)]))
     = Ok [(GENERAL, with_column (record_table r) key v)].
Proof.
  intros Hv Hkey Hget. repeat split.
  - now apply classify_into_existing.
  - rewrite dict_keys_set. unfold add_key.
    assert (mem GENERAL (dict_keys tables) = true) as ->; [|reflexivity].
    rewrite <- dict_has_mem. unfold dict_has. now rewrite Hget.
  - unfold df_column_names, with_column. cbn [df_columns].
    rewrite dict_keys_set. f_equal. unfold record_table, dict_keys. cbn [df_columns].
    rewrite map_map. apply map_id.
  - unfold df_cell, with_column. cbn [df_columns]. now rewrite dict_get_set_eq.
  - rewrite (create_dataframe_loop (result_of (VDict [(GENERAL, VDict r); (key, v)]))
               (GENERAL, VDict r) [(key, v)] eq_refl).
    cbn [for_each]. rewrite classify_record. cbn [bind].
    rewrite (classify_into_existing _ key v (record_table r) Hv);
      [| apply dict_get_set_eq | reflexivity].
    reflexivity.
Qed.

Lemma general_label_not_reserved_witness :
  classify [(GENERAL, record_table [("name", VStr "Acme")])] ("InvoiceNumber", VStr "123")
  = Ok (dict_set GENERAL
          (with_column (record_table [("name", VStr "Acme")]) "InvoiceNumber" (VStr "123"))
          [(GENERAL, record_table [("name", VStr "Acme")])])
  /\ dict_keys
       (dict_set GENERAL
          (with_column (record_table [("name", VStr "Acme")]) "InvoiceNumber" (VStr "123"))
          [(GENERAL, record_table [("name", VStr "Acme")])])
     = dict_keys [(GENERAL, record_table [("name", VStr "Acme")])]
  /\ df_index (with_column (record_table [("name", VStr "Acme")])
                           "InvoiceNumber" (VStr "123")) = 1%nat
  /\ df_column_names (with_column (record_table [("name", VStr "Acme")])
                                  "InvoiceNumber" (VStr "123"))
     = add_key (first_seen (dict_keys [("name", VStr "Acme")])) "InvoiceNumber"
  /\ df_cell (with_column (record_table [("name", VStr "Acme")])
                          "InvoiceNumber" (VStr "123")) "InvoiceNumber" 0
     = Some (Val (VStr "123"))
  /\ create_dataframe_from_extraction_result
       (result_of (VDict [(GENERAL, VDict [("name", VStr "Acme")]);
                          ("InvoiceNumber", VStr "123")]))
     = Ok [(GENERAL, with_column (record_table [("name", VStr "Acme")])
                                 "InvoiceNumber" (VStr "123"))].
Proof.
  apply (general_label_not_reserved
           [(GENERAL, record_table [("name", VStr "Acme")])]
           [("name", VStr "Acme")] "InvoiceNumber" (VStr "123")).
  - reflexivity.
  - discriminate.
  - reflexivity.
Defined.

(** * Further properties of the code *)

(** ** The merge loop: keys, skipped pages, and what happens to the store *)

Lemma first_seen_NoDup ks : List.NoDup (first_seen ks).
Proof.
  induction ks as [|k ks IH]; simpl; constructor.
  - intros Hin. apply filter_In in Hin as [_ Hne].
    now rewrite String.eqb_refl in Hne.
  - now apply List.NoDup_filter.
Qed.

(** X1: the merged dict has each key once, and its keys are exactly the
    keys that occur in the records of the pages. *)
Theorem merged_keys_exact (h : heap) (pages : list (PDFPage loc)) :
  dict_wf (snd (merge_pages h pages))
  /\ forall k, In k (dict_keys (snd (merge_pages h pages))) <-> In k (scan_keys pages).
Proof.
  unfold dict_wf. rewrite merge_pages_keys. split.
  - apply first_seen_NoDup.
  - intros k. apply first_seen_In.
Qed.

Lemma merge_pages_filter pages : forall st,
  fold_left merge_page pages st
  = fold_left merge_page (List.filter recognised pages) st.
Proof.
  induction pages as [|p pages IH]; intros st; [reflexivity|].
  cbn [fold_left List.filter].
  assert (Hp : recognised p = true \/ merge_page st p = st).
  { unfold recognised, merge_page. destruct (ocr_data p); auto. }
  destruct (recognised p) eqn:Hrec.
  - cbn [fold_left]. apply IH.
  - destruct Hp as [Hp|Hp]; [discriminate|]. rewrite Hp. apply IH.
Qed.

Lemma merge_pages_unrecognised (h : heap) (pages : list (PDFPage loc)) :
  forallb (fun p => negb (recognised p)) pages = true ->
  merge_pages h pages = (h, []).
Proof.
  intros Hnone. unfold merge_pages. rewrite merge_pages_filter.
  assert (List.filter recognised pages = []) as ->; [|reflexivity].
  induction pages as [|p pages IH]; [reflexivity|].
  simpl in Hnone |- *. apply andb_true_iff in Hnone as [Hp Hrest].
  destruct (recognised p); [discriminate|]. now apply IH.
Qed.

(** X2: pages without a record are skipped; taking them out of the list
    changes neither the store nor the merged dict. *)
Theorem unrecognised_pages_are_skipped (h : heap) (pages : list (PDFPage loc)) :
  merge_pages h pages = merge_pages h (List.filter recognised pages)
  /\ (forallb (fun p => negb (recognised p)) pages = true ->
      merge_pages h pages = (h, [])).
Proof.
  split.
  - unfold merge_pages. apply merge_pages_filter.
  - apply merge_pages_unrecognised.
Qed.

Lemma unrecognised_pages_are_skipped_witness :
  merge_pages [] [{| page_number := 1; image_path := "page_001.jpeg"; ocr_data := None |};
                  {| page_number := 2; image_path := "page_002.jpeg"; ocr_data := None |}]
  = ([], []).
Proof.
  apply (proj2 (unrecognised_pages_are_skipped [] _)). reflexivity.
Defined.

Lemma scan_keys_items {V : Type} (pages : list (PDFPage V)) :
  scan_keys pages = dict_keys (all_items pages).
Proof.
  unfold scan_keys, all_items, dict_keys. rewrite concat_map, map_map.
  f_equal. apply map_ext. intros p. unfold page_keys, page_items, dict_keys.
  now destruct (ocr_data p).
Qed.

Lemma merge_items_distinct items : forall h d,
  List.NoDup (dict_keys d ++ dict_keys items) ->
  fold_left merge_item items (h, d) = (h, d ++ items).
Proof.
  induction items as [|[k l] items IH]; intros h d Hnd.
  - now rewrite app_nil_r.
  - cbn [fold_left]. unfold dict_keys in Hnd. simpl in Hnd.
    assert (Hget : dict_get k d = None).
    { apply dict_get_None. intros Hin. apply NoDup_remove_2 in Hnd.
      apply Hnd, in_or_app. now left. }
    unfold merge_item at 2. rewrite Hget, (dict_values_set_absent k l d Hget).
    rewrite IH.
    + now rewrite <- app_assoc.
    + unfold dict_keys. rewrite map_app. simpl. now rewrite <- app_assoc.
Qed.

(** X3: when no key occurs twice over all pages, the merge leaves the
    store as it is and the merged dict is the items of the pages one after
    the other, each still the page's own object. *)
Theorem merge_of_distinct_keys (h : heap) (pages : list (PDFPage loc)) :
  List.NoDup (scan_keys pages) ->
  merge_pages h pages = (h, all_items pages)
  /\ merged_data h pages = snapshot h (all_items pages).
Proof.
  intros Hnd.
  assert (Hmerge : merge_pages h pages = (h, all_items pages)).
  { unfold merge_pages. rewrite merge_pages_items.
    rewrite merge_items_distinct; [reflexivity|].
    simpl. now rewrite <- scan_keys_items. }
  split; [exact Hmerge|]. unfold merged_data. now rewrite Hmerge.
Qed.

Lemma merge_of_distinct_keys_witness :
  merge_pages (fst (alloc_pages [] swapped_pages)) (snd (alloc_pages [] swapped_pages))
  = (fst (alloc_pages [] swapped_pages), all_items (snd (alloc_pages [] swapped_pages)))
  /\ merged_data (fst (alloc_pages [] swapped_pages)) (snd (alloc_pages [] swapped_pages))
     = snapshot (fst (alloc_pages [] swapped_pages))
                (all_items (snd (alloc_pages [] swapped_pages))).
Proof.
  apply merge_of_distinct_keys.
  repeat constructor; simpl; intuition discriminate.
Defined.

Lemma merge_items_plain (h : heap) items : forall (more : heap) (d : dict loc),
  forallb (plain_item h) items = true ->
  (forall l, In l (dict_values d) -> (l < length h)%nat -> is_list (deref h l) = false) ->
  exists more', fst (fold_left merge_item items (h ++ more, d)) = h ++ more'.
Proof.
  induction items as [|[k l] items IH]; intros more d Hplain Hinv.
  - now exists more.
  - cbn [fold_left forallb] in *. apply andb_true_iff in Hplain as [Hkl Hplain].
    unfold plain_item in Hkl. cbn [snd] in Hkl.
    apply andb_true_iff in Hkl as [Hlt Hnolist].
    apply Nat.ltb_lt in Hlt. apply negb_true_iff in Hnolist.
    unfold merge_item at 2.
    destruct (dict_get k d) as [s|] eqn:Hget.
    + assert (Hs : In s (dict_values d)).
      { apply dict_get_In in Hget. unfold dict_values. apply in_map_iff. now exists (k, s). }
      assert (Hupdate : forall v, deref (h ++ more) s = v -> is_list v = true ->
                forall x, exists more', <[s:=x]> (h ++ more) = h ++ more').
      { intros v Hv Hlist x. destruct (Nat.lt_ge_cases s (length h)) as [Hin|Hout].
        - rewrite deref_app_l in Hv by exact Hin. subst v.
          rewrite (Hinv s Hs Hin) in Hlist. discriminate.
        - exists (<[(s - length h)%nat := x]> more). now apply insert_app_r_alt. }
      destruct (deref (h ++ more) s) eqn:Hderef;
        try (rewrite <- app_assoc; apply IH; [exact Hplain|];
             intros l0 Hl0 Hlt0; apply dict_values_set_In in Hl0 as [->|Hl0];
             [rewrite length_app in Hlt0; lia | now apply Hinv]).
      destruct (deref (h ++ more) l);
        match goal with
        | |- context [<[s:=?x]> (h ++ more)] =>
            destruct (Hupdate _ eq_refl eq_refl x) as [more' ->]
        end; now apply IH.
    + apply IH; [exact Hplain|].
      intros l0 Hl0 Hlt0. apply dict_values_set_In in Hl0 as [->|Hl0];
        [exact Hnolist | now apply Hinv].
Qed.

(** X4: when no value of any page is a list, every object that was in the
    store before the merge is still there unchanged afterwards (the merge
    only adds the lists it builds), so every page reads as before. *)
Theorem merge_without_lists_keeps_pages (h : heap) (pages : list (PDFPage loc)) :
  forallb (plain_item h) (all_items pages) = true ->
  (exists added, fst (merge_pages h pages) = h ++ added)
  /\ Forall (fun p => page_contents (fst (merge_pages h pages)) p = page_contents h p)
            pages.
Proof.
  intros Hplain.
  assert (Hgrow : exists added, fst (merge_pages h pages) = h ++ added).
  { unfold merge_pages. rewrite merge_pages_items.
    pose proof (merge_items_plain h (all_items pages) [] [] Hplain) as Hitems.
    rewrite app_nil_r in Hitems. apply Hitems. intros l []. }
  split; [exact Hgrow|]. destruct Hgrow as [added ->].
  apply List.Forall_forall. intros p Hp. unfold page_contents.
  destruct (ocr_data p) as [s|] eqn:Hocr; [|reflexivity]. f_equal.
  apply snapshot_ext. intros l Hl. apply deref_app_l.
  rewrite forallb_forall in Hplain.
  unfold dict_values in Hl. apply in_map_iff in Hl as ([k l'] & <- & Hin).
  assert (Hitem : In (k, l') (all_items pages)).
  { unfold all_items. apply in_concat. exists (page_items p). split.
    - now apply in_map.
    - unfold page_items. now rewrite Hocr. }
  specialize (Hplain _ Hitem). unfold plain_item in Hplain.
  apply andb_true_iff in Hplain as [Hlt _]. now apply Nat.ltb_lt in Hlt.
Qed.

Lemma merge_without_lists_keeps_pages_witness :
  (exists added,
     fst (merge_pages (fst (alloc_pages [] three_scalars)) (snd (alloc_pages [] three_scalars)))
     = fst (alloc_pages [] three_scalars) ++ added)
  /\ Forall (fun p =>
       page_contents
         (fst (merge_pages (fst (alloc_pages [] three_scalars))
                           (snd (alloc_pages [] three_scalars)))) p
       = page_contents (fst (alloc_pages [] three_scalars)) p)
       (snd (alloc_pages [] three_scalars)).
Proof.
  apply merge_without_lists_keeps_pages. reflexivity.
Defined.

Lemma merge_item_keeps_list st kl k xs :
  stored_value st k = Some (VList xs) ->
  exists more, stored_value (merge_item st kl) k = Some (VList (xs ++ more)).
Proof.
  destruct st as [h d], kl as [k' l]. unfold stored_value. cbn [fst snd].
  destruct (dict_get k d) as [s|] eqn:Hk; cbn [option_map]; [|discriminate].
  intros [= Hs]. pose proof (deref_list_bound _ _ _ Hs) as Hlt.
  assert (Hne : forall s', deref h s' <> deref h s -> dict_get k' d = Some s' -> k' <> k).
  { intros s' Hdiff Hk' ->. rewrite Hk in Hk'. injection Hk' as ->. now apply Hdiff. }
  assert (Hsame : exists more, Some (deref h s) = Some (VList (xs ++ more))).
  { exists []. now rewrite app_nil_r, Hs. }
  unfold merge_item. destruct (dict_get k' d) as [s'|] eqn:Hk'.
  - assert (Hpromote : forall x, k' <> k ->
              exists more,
                option_map (deref (h ++ [x])) (dict_get k (dict_set k' (length h) d))
                = Some (VList (xs ++ more))).
    { intros x Hkk. rewrite dict_get_set_ne, Hk by exact Hkk. cbn [option_map].
      rewrite deref_app_l by exact Hlt. exact Hsame. }
    assert (Hin_place : forall ys,
              deref h s' = VList ys ->
              forall zs, exists more,
                option_map (deref (<[s':=VList (ys ++ zs)]> h)) (dict_get k d)
                = Some (VList (xs ++ more))).
    { intros ys Hys zs. rewrite Hk. cbn [option_map].
      destruct (Nat.eq_dec s' s) as [->|Hss].
      - rewrite deref_insert_eq by exact Hlt. rewrite Hs in Hys. injection Hys as <-.
        now exists zs.
      - rewrite deref_insert_ne by exact Hss. exact Hsame. }
    destruct (deref h s') eqn:Hs';
      try (cbn [fst snd]; apply Hpromote; apply (Hne s'); [rewrite Hs', Hs; discriminate | reflexivity]).
    destruct (deref h l); cbn [fst snd]; now apply Hin_place.
  - cbn [fst snd]. rewrite dict_get_set_ne, Hk.
    + exact Hsame.
    + intros ->. rewrite Hk in Hk'. discriminate.
Qed.

(** In the model a list under a key is only ever extended, in any state
    of the loop. *)
Lemma merge_pages_keep_list (pages : list (PDFPage loc)) (st : heap * dict loc)
    (k : string) (xs : list value) :
  stored_value st k = Some (VList xs) ->
  exists more, stored_value (fold_left merge_page pages st) k = Some (VList (xs ++ more)).
Proof.
  rewrite merge_pages_items. generalize (all_items pages) as items. clear pages.
  intros items. revert st xs.
  induction items as [|kl items IH]; intros st xs Hst.
  - exists []. now rewrite app_nil_r.
  - cbn [fold_left]. destruct (merge_item_keeps_list st kl k xs Hst) as [more Hstep].
    destruct (IH _ _ Hstep) as [more' Hrest].
    exists (more ++ more'). now rewrite app_assoc.
Qed.

(** X5: for pages read as freshly parsed values, where no object is
    shared between keys or pages: once a key holds a list after some of
    the pages have been merged, it holds a list with the same elements in
    front after all of them: merged lists only grow at the end. *)
Theorem merged_lists_only_grow (h0 : heap) (ps : list (PDFPage value)) (n : nat)
    (k : string) (xs : list value) :
  stored_value
    (merge_pages (fst (alloc_pages h0 ps)) (firstn n (snd (alloc_pages h0 ps)))) k
  = Some (VList xs) ->
  exists more,
    stored_value (merge_pages (fst (alloc_pages h0 ps)) (snd (alloc_pages h0 ps))) k
    = Some (VList (xs ++ more)).
Proof.
  intros Hprefix. unfold merge_pages in *.
  set (pages := snd (alloc_pages h0 ps)) in *.
  set (h := fst (alloc_pages h0 ps)) in *.
  replace (fold_left merge_page pages (h, []))
    with (fold_left merge_page (skipn n pages)
            (fold_left merge_page (firstn n pages) (h, [])))
    by (now rewrite <- fold_left_app, firstn_skipn).
  now apply merge_pages_keep_list.
Qed.

Lemma merged_lists_only_grow_witness :
  exists more,
    stored_value
      (merge_pages (fst (alloc_pages [] three_scalars)) (snd (alloc_pages [] three_scalars)))
      "k"
    = Some (VList ([VStr "X"; VStr "Y"] ++ more)).
Proof.
  apply (merged_lists_only_grow [] three_scalars 2). reflexivity.
Defined.

(** X6: when the prompt is known, there is no OCR processor and no page
    carries a record, [extract_data] returns an empty mapping, leaves the
    store and the pages as they are, and the projection of its result is
    the placeholder table. *)
Theorem no_recognised_page_gives_placeholder (self : DataExtractor) (h : heap)
    (pages : list (PDFPage loc)) (name pdf : string) :
  dict_has name (prompts self) = true ->
  ocr_processor self = None ->
  forallb (fun p => negb (recognised p)) pages = true ->
  extract_data self h pages name pdf
  = Ok (h, pages, {| pdf_file := pdf; prompt_name := name; extracted_data := VDict [] |})
  /\ create_dataframe_from_extraction_result
       {| pdf_file := pdf; prompt_name := name; extracted_data := VDict [] |}
     = Ok no_data_tables.
Proof.
  intros Hname Hproc Hnone. split; [|reflexivity].
  unfold extract_data, fallback_result. rewrite Hname, Hproc. cbn [negb].
  now rewrite (merge_pages_unrecognised h pages Hnone).
Qed.

Lemma no_recognised_page_gives_placeholder_witness :
  extract_data offline_extractor [] blank_pages "facture" "commande.pdf"
  = Ok ([], blank_pages,
        {| pdf_file := "commande.pdf"; prompt_name := "facture";
           extracted_data := VDict [] |})
  /\ create_dataframe_from_extraction_result
       {| pdf_file := "commande.pdf"; prompt_name := "facture";
          extracted_data := VDict [] |}
     = Ok no_data_tables.
Proof.
  apply no_recognised_page_gives_placeholder; reflexivity.
Defined.

(** ** The projection: table names and the shape of the tables *)

(** What the projection returns: the placeholder, or for a non-empty
    mapping tables named in order of first use. *)
Lemma projection_shape (e : ExtractionResult) (tables : dict DataFrame) :
  create_dataframe_from_extraction_result e = Ok tables ->
  match extracted_data e with
  | VDict (kv :: d) => dict_keys tables = first_seen (map table_of (kv :: d))
  | _ => tables = no_data_tables
  end.
Proof.
  intros Hcreate.
  destruct (extracted_data e) as [| b | z | s | l | [|kv d]] eqn:He;
    [unfold create_dataframe_from_extraction_result in Hcreate;
     rewrite He in Hcreate; cbn [truthy is_str negb orb] in Hcreate ..|].
  - now injection Hcreate as <-.
  - destruct b; [discriminate | now injection Hcreate as <-].
  - destruct z; [now injection Hcreate as <- | discriminate..].
  - rewrite orb_true_r in Hcreate. now injection Hcreate as <-.
  - destruct l; [now injection Hcreate as <- | discriminate].
  - now injection Hcreate as <-.
  - rewrite (create_dataframe_loop e kv d He) in Hcreate.
    rewrite (for_each_classify_keys _ _ _ Hcreate). symmetry. apply first_seen_fold.
Qed.

(** X7: whenever the projection returns, it returns at least one table,
    the names of the tables are pairwise distinct, and for a non-empty
    mapping they are, in this order, the keys of the records and lists of
    records and the label 'Informations générales', each at its first
    use. *)
Theorem projection_table_names (e : ExtractionResult) (tables : dict DataFrame) :
  create_dataframe_from_extraction_result e = Ok tables ->
  tables <> []
  /\ dict_wf tables
  /\ match extracted_data e with
     | VDict (kv :: d) => dict_keys tables = first_seen (map table_of (kv :: d))
     | _ => tables = no_data_tables
     end.
Proof.
  intros Hcreate. pose proof (projection_shape e tables Hcreate) as Hshape.
  destruct (extracted_data e) as [| b | z | s | l | [|kv d]];
    try (subst tables; repeat split; try discriminate;
         repeat constructor; simpl; tauto).
  repeat split; try exact Hshape.
  - intros ->. discriminate.
  - unfold dict_wf. rewrite Hshape. apply first_seen_NoDup.
Qed.

Lemma projection_table_names_witness :
  invoice_tables <> []
  /\ dict_wf invoice_tables
  /\ dict_keys invoice_tables = first_seen (map table_of invoice).
Proof.
  apply (projection_table_names (result_of (VDict invoice)) invoice_tables).
  reflexivity.
Defined.

Lemma add_key_NoDup acc k : List.NoDup acc -> List.NoDup (add_key acc k).
Proof.
  intros Hnd. unfold add_key. destruct (mem k acc) eqn:E; [exact Hnd|].
  apply List.NoDup_app; [exact Hnd | repeat constructor; simpl; tauto |].
  intros x Hx [<-|[]]. apply mem_In in Hx. congruence.
Qed.

Lemma dict_set_wf {V : Type} k (v : V) d : dict_wf d -> dict_wf (dict_set k v d).
Proof. unfold dict_wf. rewrite dict_keys_set. apply add_key_NoDup. Qed.

Lemma table_of_rows_ok rows : df_columns_ok (table_of_rows rows).
Proof.
  split.
  - unfold dict_wf. fold (df_column_names (table_of_rows rows)).
    rewrite table_of_rows_names. apply first_seen_NoDup.
  - apply List.Forall_forall. intros col Hcol. unfold table_of_rows, dict_values in *.
    simpl in *. rewrite map_map in Hcol. simpl in Hcol.
    apply in_map_iff in Hcol as (c & <- & _).
    rewrite maybe_convert_objects_length. apply length_map.
Qed.

Lemma DataFrame_setitem_wf df key c df' :
  df_columns_ok df -> DataFrame_setitem df key [c] = Ok df' -> df_wf df'.
Proof.
  intros [Hnames Hcols]. rewrite DataFrame_setitem_single.
  destruct (df_index df) as [|[|n]] eqn:Hidx; try discriminate; intros [= <-].
  - split; [simpl; lia|]. split; simpl.
    + apply dict_set_wf. unfold dict_wf, dict_keys in *. now rewrite map_map.
    + apply List.Forall_forall. intros col Hcol.
      apply dict_values_set_In in Hcol as [->|Hcol]; [reflexivity|].
      unfold dict_values in Hcol. rewrite map_map in Hcol.
      now apply in_map_iff in Hcol as (x & <- & _).
  - split; [simpl; lia|]. split; simpl.
    + now apply dict_set_wf.
    + apply List.Forall_forall. intros col Hcol.
      apply dict_values_set_In in Hcol as [->|Hcol]; [reflexivity|].
      eapply List.Forall_forall in Hcols; eassumption.
Qed.

Lemma classify_wf tables kv tables' :
  (forall name df, In (name, df) tables -> df_wf df) ->
  classify tables kv = Ok tables' ->
  forall name df, In (name, df) tables' -> df_wf df.
Proof.
  intros Hwf. destruct kv as [k v]. destruct (generic v) eqn:Hv.
  - rewrite classify_generic_result by exact Hv.
    destruct (DataFrame_setitem _ _ _) as [g|] eqn:Hset; [|discriminate].
    cbn [bind]. intros [= <-] name df Hin.
    apply dict_set_In in Hin as [[= -> ->]|Hin]; [|now apply (Hwf name)].
    refine (DataFrame_setitem_wf _ _ _ _ _ Hset).
    destruct (dict_get GENERAL tables) as [g0|] eqn:Hget.
    + apply dict_get_In in Hget. apply (Hwf _ _ Hget).
    + split; [constructor | constructor].
  - rewrite classify_records by exact Hv.
    destruct (DataFrame_of_records _) as [t|] eqn:Hdf; [|discriminate].
    cbn [bind]. intros [= <-] name df Hin.
    apply dict_set_In in Hin as [[= -> ->]|Hin]; [|now apply (Hwf name)].
    apply DataFrame_of_records_inv in Hdf as (rows & Hrows & ->).
    split; [|apply table_of_rows_ok].
    destruct rows as [|r rows]; [|simpl; lia].
    destruct v as [| | | | [|[] l] |]; discriminate.
Qed.

Lemma for_each_classify_wf d : forall tables tables',
  (forall name df, In (name, df) tables -> df_wf df) ->
  for_each classify d tables = Ok tables' ->
  forall name df, In (name, df) tables' -> df_wf df.
Proof.
  induction d as [|kv d IH]; intros tables tables' Hwf; cbn [for_each].
  - now intros [= <-].
  - destruct (classify tables kv) as [tables1|] eqn:Hstep; cbn [bind]; [|discriminate].
    apply IH. eapply classify_wf; eassumption.
Qed.

(** X8: every table the projection returns has at least one row, columns
    with pairwise distinct names, and exactly one cell per row in every
    column. *)
Theorem projection_tables_well_formed (e : ExtractionResult)
    (tables : dict DataFrame) (name : string) (df : DataFrame) :
  create_dataframe_from_extraction_result e = Ok tables ->
  In (name, df) tables ->
  (1 <= df_index df)%nat
  /\ dict_wf (df_columns df)
  /\ Forall (fun col => length col = df_index df) (dict_values (df_columns df)).
Proof.
  intros Hcreate Hin.
  assert (Hwf : df_wf df); [|destruct Hwf as (H1 & H2 & H3); auto].
  pose proof (projection_shape e tables Hcreate) as Hshape.
  destruct (extracted_data e) as [| b | z | s | l | [|kv d]] eqn:He;
    try (subst tables; destruct Hin as [[= <- <-]|[]];
         repeat split; repeat constructor; simpl; tauto).
  rewrite (create_dataframe_loop e kv d He) in Hcreate.
  eapply for_each_classify_wf; [|exact Hcreate|exact Hin]. intros ? ? [].
Qed.

Lemma projection_tables_well_formed_witness :
  (1 <= df_index invoice_items)%nat
  /\ dict_wf (df_columns invoice_items)
  /\ Forall (fun col => length col = df_index invoice_items)
            (dict_values (df_columns invoice_items)).
Proof.
  apply (projection_tables_well_formed (result_of (VDict invoice)) invoice_tables "Items").
  - reflexivity.
  - simpl. now left.
Defined.

Lemma first_seen_constant (ks : list string) k :
  ks <> [] -> Forall (fun x => x = k) ks -> first_seen ks = [k].
Proof.
  intros Hne Hall. destruct ks as [|x ks]; [congruence|].
  apply Forall_cons_iff in Hall as [-> Hrest]. simpl. f_equal.
  assert (Hseen : Forall (fun x => x = k) (first_seen ks)).
  { apply List.Forall_forall. intros x Hx. apply (proj1 (first_seen_In _ _)) in Hx.
    rewrite List.Forall_forall in Hrest. now apply Hrest. }
  induction Hseen as [|y l -> _ IH]; [reflexivity|].
  simpl. now rewrite String.eqb_refl.
Qed.

Lemma filter_all {A : Type} (f : A -> bool) l : forallb f l = true -> List.filter f l = l.
Proof.
  induction l as [|x l IH]; simpl; [reflexivity|].
  intros H. apply andb_true_iff in H as [-> Hl]. now rewrite IH.
Qed.

(** X9: a non-empty mapping without any record or list of records, such
    as one of scalars only, is projected without error to exactly one
    table, 'Informations générales', with one row and one column per key,
    in the order of the keys, each cell the value as it is. *)
Theorem scalars_give_one_general_table (e : ExtractionResult) (d : dict value) :
  extracted_data e = VDict d -> d <> [] -> dict_wf d ->
  forallb (fun kv => generic (snd kv)) d = true ->
  create_dataframe_from_extraction_result e
  = Ok [(GENERAL,
         {| df_index := 1;
            df_columns := map (fun kv => (fst kv, [Val (snd kv)])) d |})].
Proof.
  intros He Hne Hwf Hall. pose proof Hall as Hall'. rewrite forallb_forall in Hall'.
  assert (Hrec : records_only d = true).
  { apply forallb_forall. intros kv Hkv. apply generic_homogeneous. now apply Hall'. }
  assert (Hfree : label_apart d = true).
  { apply orb_true_iff. left. apply forallb_forall. intros kv Hkv.
    rewrite (Hall' kv Hkv). apply orb_true_r. }
  destruct d as [|kv d]; [congruence|].
  destruct (for_each_classify_state (kv :: d) [] [] projection_state_nil Hwf Hrec Hfree)
    as (tables & Hloop & Hkeys & _ & Hgen).
  rewrite (create_dataframe_loop e kv d He), Hloop. f_equal.
  cbn [app] in Hkeys, Hgen.
  rewrite (first_seen_constant (map table_of (kv :: d)) GENERAL) in Hkeys.
  - rewrite (filter_all _ _ Hall) in Hgen. specialize (Hgen ltac:(discriminate)).
    unfold general_table in Hgen. rewrite (filter_all _ _ Hall) in Hgen.
    destruct tables as [|[n t] [|? ?]]; try discriminate.
    injection Hkeys as ->. cbn [dict_get] in Hgen. rewrite String.eqb_refl in Hgen.
    now injection Hgen as ->.
  - discriminate.
  - apply List.Forall_forall. intros x Hx. apply in_map_iff in Hx as ([k v] & <- & Hin).
    apply table_of_generic. now apply (Hall' (k, v)).
Qed.

Lemma scalars_give_one_general_table_witness :
  create_dataframe_from_extraction_result (result_of (VDict header_only))
  = Ok [(GENERAL,
         {| df_index := 1;
            df_columns := map (fun kv => (fst kv, [Val (snd kv)])) header_only |})].
Proof.
  apply scalars_give_one_general_table.
  - reflexivity.
  - discriminate.
  - repeat constructor; simpl; intuition discriminate.
  - reflexivity.
Defined.

(** ** The entry point and the shapes it accepts *)

Lemma create_dataframe_of_data e e' :
  extracted_data e = extracted_data e' ->
  create_dataframe_from_extraction_result e = create_dataframe_from_extraction_result e'.
Proof.
  intros H. unfold create_dataframe_from_extraction_result. now rewrite H.
Qed.

(** X10: a dict that wraps a record as ["file_name"] and ["ocr_contents"]
    is projected exactly as the record object and as an extraction result
    holding the contents; whatever else the dict holds is ignored. *)
Theorem wrapped_record_is_unwrapped (d c : dict value) (name pdf prompt : string) :
  dict_get "file_name" d = Some (VStr name) ->
  dict_get "ocr_contents" d = Some (VDict c) ->
  extract_dataframes_from_ocr_json (OfValue (VDict d))
  = extract_dataframes_from_ocr_json
      (OfStructuredOCR {| file_name := name; ocr_contents := c |})
  /\ extract_dataframes_from_ocr_json (OfValue (VDict d))
     = extract_dataframes_from_ocr_json
         (OfExtractionResult
            {| pdf_file := pdf; prompt_name := prompt; extracted_data := VDict c |}).
Proof.
  intros Hname Hcontents. unfold extract_dataframes_from_ocr_json.
  rewrite Hname, Hcontents. cbn [ocr_contents new_ExtractionResult validate_str
                                 validate_dict bind].
  split; apply create_dataframe_of_data; reflexivity.
Qed.

Lemma wrapped_record_is_unwrapped_witness :
  extract_dataframes_from_ocr_json (OfValue (VDict wrapped_invoice))
  = extract_dataframes_from_ocr_json
      (OfStructuredOCR {| file_name := "AR DE COMMANDE"; ocr_contents := invoice |})
  /\ extract_dataframes_from_ocr_json (OfValue (VDict wrapped_invoice))
     = extract_dataframes_from_ocr_json
         (OfExtractionResult
            {| pdf_file := "commande.pdf"; prompt_name := "facture";
               extracted_data := VDict invoice |}).
Proof.
  apply wrapped_record_is_unwrapped; reflexivity.
Defined.

(** A dict that lacks one of the two wrapper keys is projected as the data
    itself; a dict that has both is unwrapped, and rejected when
    ["ocr_contents"] is not a mapping or ["file_name"] not a string. *)
Lemma raw_dict_is_data_unless_wrapper (d : dict value) :
  match dict_get "file_name" d, dict_get "ocr_contents" d with
  | Some name, Some contents =>
      extract_dataframes_from_ocr_json (OfValue (VDict d))
      = if (is_str name && is_dict contents)%bool
        then create_dataframe_from_extraction_result (result_of contents)
        else Raise (ValidationError
                      (if is_str name then "Input should be a valid dictionary"
                       else "Input should be a valid string"))
  | _, _ =>
      extract_dataframes_from_ocr_json (OfValue (VDict d))
      = create_dataframe_from_extraction_result (result_of (VDict d))
  end.
Proof.
  unfold extract_dataframes_from_ocr_json.
  destruct (dict_get "file_name" d) as [name|], (dict_get "ocr_contents" d) as [contents|];
    try (cbn [new_ExtractionResult validate_str validate_dict bind];
         apply create_dataframe_of_data; reflexivity).
  destruct name; try reflexivity.
  destruct contents; reflexivity.
Qed.

(** ** The export: file names with the tables below U+0100 *)

Lemma latin1_all_spec (P : codepoint -> bool) c :
  latin1_all P = true -> latin1 c = true -> P c = true.
Proof.
  unfold latin1_all, latin1. rewrite forallb_forall. intros Hall Hc.
  apply andb_true_iff in Hc as [Hlo Hhi].
  apply Z.leb_le in Hlo. apply Z.ltb_lt in Hhi.
  apply Hall. apply in_map_iff. exists (Z.to_nat c). split; [lia|].
  apply in_seq. lia.
Qed.

Lemma export_name_map name :
  export_safe_name latin1_isalnum latin1_lower name = map latin1_export_char name.
Proof.
  unfold export_safe_name, replace_spaces, latin1_lower. rewrite !map_map.
  apply map_ext. intros c. unfold latin1_export_char. f_equal.
  apply sanitize_char_passes.
Qed.

Lemma latin1_export_char_ok c :
  latin1 c = true -> export_char (latin1_export_char c) = true.
Proof.
  apply (latin1_all_spec (fun c => export_char (latin1_export_char c))).
  vm_compute. reflexivity.
Qed.

Lemma export_char_no_separator c :
  export_char c = true -> c <> SLASH /\ c <> DOT /\ c <> SPACE /\ c <> 92%Z.
Proof.
  intros Hc.
  assert (Hl : latin1 c = true) by (unfold export_char in Hc; now apply andb_true_iff in Hc).
  pose proof (latin1_all_spec
    (fun c => implb (export_char c)
                (negb (c =? SLASH) && negb (c =? DOT) && negb (c =? SPACE)
                 && negb (c =? 92))%Z%bool) c ltac:(vm_compute; reflexivity) Hl) as H.
  cbv beta in H. rewrite Hc in H. simpl in H.
  repeat (apply andb_true_iff in H as [H ?]).
  repeat split; intros ->; discriminate.
Qed.

Lemma export_name_chars (name : pystr) :
  forallb latin1 name = true ->
  forallb export_char (export_safe_name latin1_isalnum latin1_lower name) = true.
Proof.
  intros Hname. rewrite export_name_map. rewrite forallb_forall in Hname.
  apply forallb_forall. intros c Hc. apply in_map_iff in Hc as (c0 & <- & Hc0).
  apply latin1_export_char_ok. now apply Hname.
Qed.



(** X13: sanitising is idempotent on names of code points below U+0100:
    an export name is its own export name, so a table named like the
    export name of another table is exported to the same file. *)
Theorem export_name_idempotent (name : pystr) :
  forallb latin1 name = true ->
  export_safe_name latin1_isalnum latin1_lower
    (export_safe_name latin1_isalnum latin1_lower name)
  = export_safe_name latin1_isalnum latin1_lower name.
Proof.
  intros Hname. rewrite !export_name_map, map_map. apply map_ext_in.
  intros c Hc. rewrite forallb_forall in Hname. specialize (Hname c Hc).
  apply Z.eqb_eq.
  apply (latin1_all_spec
           (fun c => (latin1_export_char (latin1_export_char c) =? latin1_export_char c)%Z));
    [vm_compute; reflexivity | exact Hname].
Qed.

Lemma export_name_idempotent_witness :
  export_safe_name latin1_isalnum latin1_lower
    (export_safe_name latin1_isalnum latin1_lower pieces_designations)
  = export_safe_name latin1_isalnum latin1_lower pieces_designations.
Proof.
  apply export_name_idempotent. reflexivity.
Defined.

(** X14: when [export_dataframe] returns a path for a name of code points
    below U+0100, the format is one of CSV, Excel and JSON, writing and
    offering the file both succeeded, exactly one success is shown, and
    the path is the directory [exports], one separator, the export name
    and the extension of the format: the file lies directly in [exports]
    whatever the display name. *)
Theorem export_lands_in_exports (io : Exporter) (name : pystr) (format : string)
    (path : pystr) (events : list export_event) :
  forallb latin1 name = true ->
  export_dataframe latin1_isalnum latin1_lower io name format = Ok (Some path, events) ->
  exists extension,
    export_extension format = Some extension
    /\ path = EXPORT_DIR ++ [SLASH]
              ++ export_safe_name latin1_isalnum latin1_lower name ++ extension
    /\ Forall (fun c => c <> SLASH /\ c <> SPACE /\ c <> 92%Z)
              (export_safe_name latin1_isalnum latin1_lower name ++ extension)
    /\ events = [ExportSuccess path]
    /\ raises (write_table io format path) = false
    /\ raises (offer_download io path) = false.
Proof.
  intros Hname. unfold export_dataframe.
  destruct (make_dir io); [|discriminate]. cbn [bind].
  destruct (export_extension format) as [extension|] eqn:Hext; [|discriminate].
  destruct (write_table io format (export_path latin1_isalnum latin1_lower name extension))
    eqn:Hwrite; [|discriminate].
  destruct (offer_download io (export_path latin1_isalnum latin1_lower name extension))
    eqn:Hoffer; [|discriminate].
  intros [= <- <-]. exists extension. rewrite Hwrite, Hoffer.
  repeat split; try reflexivity.
  apply Forall_app. split.
  - apply List.Forall_forall. intros c Hc.
    pose proof (export_name_chars name Hname) as Hchars.
    rewrite forallb_forall in Hchars.
    destruct (export_char_no_separator c (Hchars c Hc)) as (? & ? & ? & ?). auto.
  - unfold export_extension in Hext.
    repeat match type of Hext with
           | (if ?c then _ else _) = _ => destruct c
           end; try discriminate; injection Hext as <-;
      repeat constructor; discriminate.
Qed.

Lemma export_lands_in_exports_witness :
  exists extension,
    export_extension "CSV" = Some extension
    /\ export_path latin1_isalnum latin1_lower pieces_designations [46; 99; 115; 118]%Z
       = EXPORT_DIR ++ [SLASH]
         ++ export_safe_name latin1_isalnum latin1_lower pieces_designations ++ extension
    /\ Forall (fun c => c <> SLASH /\ c <> SPACE /\ c <> 92%Z)
              (export_safe_name latin1_isalnum latin1_lower pieces_designations
               ++ extension)
    /\ [ExportSuccess
          (export_path latin1_isalnum latin1_lower pieces_designations [46; 99; 115; 118]%Z)]
       = [ExportSuccess
            (export_path latin1_isalnum latin1_lower pieces_designations
                         [46; 99; 115; 118]%Z)]
    /\ raises (write_table working_exporter "CSV"
                 (export_path latin1_isalnum latin1_lower pieces_designations
                              [46; 99; 115; 118]%Z)) = false
    /\ raises (offer_download working_exporter
                 (export_path latin1_isalnum latin1_lower pieces_designations
                              [46; 99; 115; 118]%Z)) = false.
Proof.
  apply (export_lands_in_exports working_exporter pieces_designations "CSV").
  - reflexivity.
  - reflexivity.
Defined.

(** ** The prompts offered and the prompts found *)

Lemma dict_get_of_key {V : Type} k (d : dict V) :
  In k (dict_keys d) -> exists v, dict_get k d = Some v.
Proof.
  intros Hin. destruct (dict_get k d) as [v|] eqn:Hget; [now exists v|].
  apply dict_get_None in Hget. contradiction.
Qed.

Lemma matches_md_inv name :
  matches_md name = true -> exists s, name = (s ++ ".md")%string.
Proof.
  induction name as [|c rest IH]; [discriminate|].
  cbn [matches_md]. intros H. apply orb_true_iff in H as [H|H].
  - apply String.eqb_eq in H. exists EmptyString. exact H.
  - destruct (IH H) as [s ->]. now exists (String c s).
Qed.

Lemma rfind_dot_md s : forall i,
  rfind_dot (s ++ ".md") i = Some (i + String.length s)%nat.
Proof.
  induction s as [|c s IH]; intros i.
  - simpl. f_equal. lia.
  - cbn [append rfind_dot String.length]. rewrite IH. f_equal. lia.
Qed.

Lemma substring_prefix s t : substring 0 (String.length s) (s ++ t) = s.
Proof.
  induction s as [|c s IH]; simpl.
  - now destruct t.
  - now rewrite IH.
Qed.

Lemma string_length_append (a b : string) :
  String.length (a ++ b) = (String.length a + String.length b)%nat.
Proof. induction a as [|c a IH]; simpl; [reflexivity | now rewrite IH]. Qed.

(** The stem of a file name [s.md] is [s], unless [s] is empty: the stem
    of the name [.md] is [.md]. *)
Lemma path_stem_md s : s <> EmptyString -> path_stem (s ++ ".md") = s.
Proof.
  intros Hne. unfold path_stem. rewrite rfind_dot_md, string_length_append.
  cbn [String.length Nat.add].
  destruct s as [|c s]; [congruence|]. cbn [String.length].
  replace ((0 <? S (String.length s))%nat) with true
    by (symmetry; apply Nat.ltb_lt; lia).
  replace ((S (String.length s) <? S (String.length s) + 3 - 1)%nat) with true
    by (symmetry; apply Nat.ltb_lt; lia).
  cbn [andb]. exact (substring_prefix (String c s) ".md").
Qed.

Lemma path_stem_bare : path_stem ".md" = ".md".
Proof. reflexivity. Qed.

(** Every prompt loaded is the text of an entry that ends with [.md],
    under the stem of its name. *)
Lemma load_prompts_from_files prompt_dir names : forall acc loaded,
  (forall k text, dict_get k acc = Some text ->
     exists f, matches_md f = true /\ path_stem f = k
               /\ file_text prompt_dir f = Some text) ->
  for_each (load_prompt prompt_dir) (List.filter matches_md names) acc = Ok loaded ->
  forall k text, dict_get k loaded = Some text ->
    exists f, matches_md f = true /\ path_stem f = k
              /\ file_text prompt_dir f = Some text.
Proof.
  induction names as [|f names IH]; intros acc loaded Hacc; cbn [List.filter for_each].
  - now intros [= <-].
  - destruct (matches_md f) eqn:Hmd; [|now apply IH].
    cbn [for_each]. unfold load_prompt at 1.
    destruct (file_text prompt_dir f) as [content|] eqn:Hfile; cbn [bind]; [|discriminate].
    apply IH. intros k text Hget.
    destruct (String.eqb k (path_stem f)) eqn:Hk.
    + apply String.eqb_eq in Hk. subst k. rewrite dict_get_set_eq in Hget.
      injection Hget as <-. now exists f.
    + apply String.eqb_neq in Hk. rewrite dict_get_set_ne in Hget by congruence.
      now apply Hacc.
Qed.

(** A file named [.md] is offered under the name [.md], which the OCR
    processor looks up as [.md.md] and does not find. *)
Lemma prompt_named_by_suffix_is_not_found :
  let prompt_dir :=
    {| dir_path := "prompt_extraction"; dir_names := [".md"];
       file_text := fun relative => dict_get relative [(".md", "Date")] |} in
  option_map get_available_prompts
    (match new_DataExtractor true prompt_dir None with
     | Ok self => Some self
     | Raise _ => None
     end)
  = Some [".md"]
  /\ raises (get_extraction_prompt prompt_dir ".md") = true.
Proof. split; reflexivity. Qed.

(** X15: for an extractor loaded from the directory the OCR processor
    reads, every name [get_available_prompts] offers, other than the name
    [.md] that a file without a stem is offered under, passes the check of
    [extract_data], which then raises only what the OCR processor raises,
    and is found by the processor with the text the extractor loaded: the
    instruction text carries the prompt and nothing is printed. *)
Theorem offered_prompt_is_accepted_and_found (prompt_dir : PromptDir)
    (processor : option OCRProcessor) (self : DataExtractor) (h : heap)
    (pages : list (PDFPage loc)) (name pdf : string) :
  new_DataExtractor true prompt_dir processor = Ok self ->
  In name (get_available_prompts self) ->
  name <> ".md" ->
  (forall e, extract_data self h pages name pdf = Raise e ->
     exists process_pdf_pages,
       processor = Some process_pdf_pages
       /\ snd (process_pdf_pages h pages name) = Raise e)
  /\ exists text,
       dict_get name (prompts self) = Some text
       /\ get_extraction_prompt prompt_dir name = Ok text
       /\ fields_extraction_text prompt_dir (Some name)
          = ((EXTRACT_FIELDS ++ newline ++ text ++ newline ++ ".")%string, []).
Proof.
  intros Hnew Hin Hne. unfold new_DataExtractor in Hnew.
  destruct (load_prompts true prompt_dir) as [loaded|] eqn:Hload; [|discriminate].
  cbn [bind] in Hnew. injection Hnew as <-. cbn [prompts ocr_processor] in *.
  unfold get_available_prompts in Hin. cbn [prompts] in Hin.
  destruct (dict_get_of_key _ _ Hin) as [text Htext]. split.
  - unfold extract_data, dict_has. cbn [prompts ocr_processor]. rewrite Htext. cbn [negb].
    intros e. destruct processor as [process|]; [|discriminate].
    intros Hraise. exists process. split; [reflexivity|].
    destruct (process h pages name) as [[h1 pages1] [[combined|]|e']];
      try discriminate.
    now injection Hraise as ->.
  - exists text. split; [exact Htext|].
    cbn [load_prompts] in Hload.
    destruct (load_prompts_from_files prompt_dir _ [] loaded
                ltac:(discriminate) Hload name text Htext) as (f & Hmd & Hstem & Hfile).
    destruct (matches_md_inv f Hmd) as [s ->].
    destruct s as [|c s].
    + change (path_stem ".md" = name) in Hstem. rewrite path_stem_bare in Hstem. congruence.
    + rewrite path_stem_md in Hstem by discriminate. subst name.
      unfold fields_extraction_text, get_extraction_prompt.
      rewrite Hfile. split; reflexivity.
Qed.

Lemma offered_prompt_is_accepted_and_found_witness :
  (forall e,
     extract_data {| prompts := [("facture", "Numéro de facture, Date")];
                     ocr_processor := None |}
       [] blank_pages "facture" "commande.pdf" = Raise e ->
     exists process_pdf_pages : OCRProcessor,
       None = Some process_pdf_pages
       /\ snd (process_pdf_pages [] blank_pages "facture") = Raise e)
  /\ exists text,
       dict_get "facture"
         (prompts {| prompts := [("facture", "Numéro de facture, Date")];
                     ocr_processor := None |})
       = Some text
       /\ get_extraction_prompt invoice_prompts "facture" = Ok text
       /\ fields_extraction_text invoice_prompts (Some "facture")
          = ((EXTRACT_FIELDS ++ newline ++ text ++ newline ++ ".")%string, []).
Proof.
  apply (offered_prompt_is_accepted_and_found invoice_prompts None).
  - reflexivity.
  - simpl. now left.
  - discriminate.
Defined.

(** ** [process_pdf_pages]: what happens to the pages *)

Lemma process_individually_pages client prompt_dir name pages :
  fst (process_individually client prompt_dir name pages)
  = map (fun p => set_ocr_data p (fst (structured_ocr client prompt_dir (image_path p) name)))
        pages.
Proof.
  induction pages as [|p pages IH]; [reflexivity|].
  cbn [process_individually map].
  destruct (structured_ocr client prompt_dir (image_path p) name) as [ocr printed].
  destruct (process_individually client prompt_dir name pages) as [rest' printed'].
  cbn [fst] in *. now rewrite IH.
Qed.

(** The outcomes of [process_pdf_pages]: no page, a combined record, or
    every page processed on its own. *)
Lemma process_pdf_pages_outcome client prompt_dir pages name :
  (pages = [] /\ fst (process_pdf_pages client prompt_dir pages name) = (None, []))
  \/ (exists first rest combined,
        pages = first :: rest /\ name_given name = true
        /\ fst (process_pdf_pages client prompt_dir pages name)
           = (Some combined, set_ocr_data first combined :: rest))
  \/ (pages <> []
      /\ fst (process_pdf_pages client prompt_dir pages name)
         = (None, fst (process_individually client prompt_dir name pages))).
Proof.
  destruct pages as [|first rest]; [left; now split|]. right.
  unfold process_pdf_pages. destruct (name_given name) eqn:Hname.
  - destruct (collect_markdowns client (first :: rest)) as [markdowns printed1].
    destruct (fields_extraction_text prompt_dir name) as [fields printed2].
    destruct (chat_parse client (image_path first) _) as [combined|e].
    + left. now exists first, rest, combined.
    + right. split; [discriminate|].
      now destruct (process_individually client prompt_dir name (first :: rest)).
  - right. split; [discriminate|].
    now destruct (process_individually client prompt_dir name (first :: rest)).
Qed.

(** X16: whatever the services answer, [process_pdf_pages] returns as many
    pages as it was given, with the same page numbers and image paths in
    the same order. *)
Theorem process_pdf_pages_keeps_pages (client : Client) (prompt_dir : PromptDir)
    (pages : list (PDFPage value)) (name : option string) :
  map page_number (snd (fst (process_pdf_pages client prompt_dir pages name)))
  = map page_number pages
  /\ map image_path (snd (fst (process_pdf_pages client prompt_dir pages name)))
     = map image_path pages.
Proof.
  destruct (process_pdf_pages_outcome client prompt_dir pages name)
    as [[-> ->] | [(first & rest & combined & -> & _ & ->) | [_ ->]]];
    cbn [fst snd]; try (split; reflexivity).
  rewrite process_individually_pages, !map_map. split; reflexivity.
Qed.

(** X17: when [process_pdf_pages] returns a combined record, a prompt name
    was given, the record is written to the first page, and every other
    page is left exactly as it was, with or without a record. *)
Theorem combined_record_goes_to_first_page (client : Client) (prompt_dir : PromptDir)
    (pages : list (PDFPage value)) (name : option string)
    (combined : StructuredOCR value) :
  fst (fst (process_pdf_pages client prompt_dir pages name)) = Some combined ->
  name_given name = true
  /\ exists first rest,
       pages = first :: rest
       /\ snd (fst (process_pdf_pages client prompt_dir pages name))
          = set_ocr_data first combined :: rest.
Proof.
  destruct (process_pdf_pages_outcome client prompt_dir pages name)
    as [[-> ->] | [(first & rest & c & -> & Hname & ->) | [_ ->]]];
    cbn [fst snd]; try discriminate.
  intros [= ->]. split; [exact Hname|]. now exists first, rest.
Qed.

Lemma combined_record_goes_to_first_page_witness :
  name_given (Some "facture") = true
  /\ exists first rest,
       two_blank_pages = first :: rest
       /\ snd (fst (process_pdf_pages echo_client invoice_prompts two_blank_pages
                                      (Some "facture")))
          = set_ocr_data first
              {| file_name := "page_001.jpeg";
                 ocr_contents :=
                   [("request",
                     VStr (combined_request
                             (join (newline ++ newline)
                                (fst (collect_markdowns echo_client two_blank_pages)))
                             (fst (fields_extraction_text invoice_prompts
                                                          (Some "facture")))))] |}
            :: rest.
Proof.
  apply (combined_record_goes_to_first_page echo_client invoice_prompts two_blank_pages
           (Some "facture")).
  reflexivity.
Defined.

(** X18: when [process_pdf_pages] returns the list of pages, every page of
    the list carries a record, the one [structured_ocr] returns for its
    image, be it the record of a failure. *)
Theorem pages_returned_are_all_recognised (client : Client) (prompt_dir : PromptDir)
    (pages : list (PDFPage value)) (name : option string) :
  fst (fst (process_pdf_pages client prompt_dir pages name)) = None ->
  forallb recognised (snd (fst (process_pdf_pages client prompt_dir pages name))) = true
  /\ snd (fst (process_pdf_pages client prompt_dir pages name))
     = map (fun p => set_ocr_data p
                       (fst (structured_ocr client prompt_dir (image_path p) name)))
           pages.
Proof.
  destruct (process_pdf_pages_outcome client prompt_dir pages name)
    as [[-> ->] | [(first & rest & c & -> & Hname & ->) | [_ ->]]];
    cbn [fst snd]; try discriminate; intros _.
  - now split.
  - rewrite process_individually_pages. split; [|reflexivity].
    apply forallb_forall. intros p Hp. now apply in_map_iff in Hp as (q & <- & _).
Qed.

Lemma pages_returned_are_all_recognised_witness :
  forallb recognised
    (snd (fst (process_pdf_pages chat_down_client invoice_prompts two_blank_pages
                                 (Some "facture")))) = true
  /\ snd (fst (process_pdf_pages chat_down_client invoice_prompts two_blank_pages
                                 (Some "facture")))
     = map (fun p => set_ocr_data p
                       (fst (structured_ocr chat_down_client invoice_prompts
                                            (image_path p) (Some "facture"))))
           two_blank_pages.
Proof.
  apply pages_returned_are_all_recognised. reflexivity.
Defined.

(** ** [convert_pdf_to_images]: numbering and file names *)

Lemma NoDup_map_injective {A B : Type} (f : A -> B) (l : list A) :
  (forall x y, In x l -> In y l -> f x = f y -> x = y) ->
  List.NoDup l -> List.NoDup (map f l).
Proof.
  intros Hinj Hnd. induction Hnd as [|x l Hx Hnd IH]; simpl; constructor.
  - intros Hin. apply in_map_iff in Hin as (y & Hy & Hin).
    assert (y = x) by (apply Hinj; simpl; auto). subst. contradiction.
  - apply IH. intros a b Ha Hb. apply Hinj; simpl; auto.
Qed.

Lemma append_inv_head (p a b : string) : (p ++ a = p ++ b)%string -> a = b.
Proof. induction p as [|c p IH]; simpl; [tauto|]. intros [= H]. now apply IH. Qed.

Lemma append_inv_tail (a b s : string) : (a ++ s = b ++ s)%string -> a = b.
Proof.
  revert b. induction a as [|c a IH]; intros [|c' b] H; simpl in H.
  - reflexivity.
  - apply (f_equal String.length) in H. simpl in H.
    rewrite string_length_append in H. lia.
  - apply (f_equal String.length) in H. simpl in H.
    rewrite string_length_append in H. lia.
  - injection H as -> H. f_equal. now apply IH.
Qed.

Lemma path_join_injective directory a b :
  path_join directory a = path_join directory b -> a = b.
Proof.
  unfold path_join. destruct (String.eqb directory "."); [tauto|].
  destruct (String.eqb directory "/").
  - apply append_inv_head.
  - intros H. apply append_inv_head in H. now apply (append_inv_head "/").
Qed.

Lemma uint_of_zeros k s d :
  NilEmpty.uint_of_string s = Some d ->
  option_map Nat.of_uint (NilEmpty.uint_of_string (zeros k ++ s)) = Some (Nat.of_uint d).
Proof.
  intros Hs. induction k as [|k IH]; simpl.
  - now rewrite Hs.
  - destruct (NilEmpty.uint_of_string (zeros k ++ s)) as [d'|]; [|discriminate].
    simpl in *. injection IH as <-. reflexivity.
Qed.

(** The number in a file name reads back as the number printed. *)
Lemma number_of_zero_pad3 n : number_of_text (zero_pad3 n) = Some n.
Proof.
  unfold number_of_text, zero_pad3, str_of_nat.
  rewrite (uint_of_zeros _ _ (Nat.to_uint n)) by apply NilEmpty.usu.
  now rewrite Unsigned.of_to.
Qed.

Lemma page_image_name_injective i j fmt :
  page_image_name i fmt = page_image_name j fmt -> i = j.
Proof.
  unfold page_image_name. intros H. apply (append_inv_head "page_") in H.
  apply append_inv_tail in H.
  assert (Hnum : Some (i + 1)%nat = Some (j + 1)%nat)
    by (rewrite <- !number_of_zero_pad3; now rewrite H).
  injection Hnum. lia.
Qed.

Lemma ascending_numbers {V W : Type} (ps : list (PDFPage V)) (qs : list (PDFPage W)) :
  map page_number ps = map page_number qs -> ascending ps -> ascending qs.
Proof.
  revert qs. induction ps as [|p ps IH]; intros [|q qs] Hmap Hasc;
    try discriminate; [constructor|].
  simpl in Hmap. injection Hmap as Hpq Hrest.
  apply Sorted_inv in Hasc as [Hasc Hhd]. constructor.
  - now apply IH.
  - destruct ps as [|p' ps], qs as [|q' qs]; try discriminate; constructor.
    simpl in Hrest. injection Hrest as Hp' _. apply HdRel_inv in Hhd. lia.
Qed.

Lemma ascending_from_seq {V : Type} (f : nat -> PDFPage V) n : forall start,
  (forall i, page_number (f i) = Z.of_nat i + 1) ->
  ascending (map f (seq start n)).
Proof.
  induction n as [|n IH]; intros start Hf; simpl; constructor.
  - now apply IH.
  - destruct n; simpl; constructor. rewrite !Hf. lia.
Qed.

(** X19: for a PDF that exists, [convert_pdf_to_images] returns one page
    per image the rasteriser gives, numbered 1, 2, ... in this order; the
    list is in ascending page order without repeated numbers, and no page
    carries a record yet.  For a PDF that does not exist it raises
    [FileNotFoundError] naming the path. *)
Theorem converted_pages_are_numbered (pdf : PdfPath) (output_dir : option string)
    (image_count : nat) (fmt : string) :
  if pdf_exists pdf then
    exists pages,
      convert_pdf_to_images pdf output_dir image_count fmt = Ok pages
      /\ length pages = image_count
      /\ map page_number pages = map (fun i => Z.of_nat i + 1) (seq 0 image_count)
      /\ ascending pages
      /\ List.NoDup (map page_number pages)
      /\ forallb (fun p => negb (recognised p)) pages = true
  else
    convert_pdf_to_images pdf output_dir image_count fmt
    = Raise (FileNotFoundError ("Le fichier PDF '" ++ pdf_text pdf ++ "' n'existe pas")).
Proof.
  unfold convert_pdf_to_images. destruct (pdf_exists pdf); [|reflexivity].
  cbn [negb]. eexists. split; [reflexivity|].
  split; [now rewrite length_map, length_seq|].
  split; [now rewrite map_map|].
  split; [now apply ascending_from_seq|].
  split.
  - rewrite map_map. cbn [page_number]. apply NoDup_map_injective; [|apply seq_NoDup].
    intros x y _ _ H. lia.
  - apply forallb_forall. intros p Hp. now apply in_map_iff in Hp as (i & <- & _).
Qed.

(** X20: the images of distinct pages get distinct paths, also beyond
    999 pages where the number outgrows its three-digit padding: no page
    image overwrites another. *)
Theorem page_images_have_distinct_paths (pdf : PdfPath) (output_dir : option string)
    (image_count : nat) (fmt : string) (pages : list (PDFPage value)) :
  convert_pdf_to_images pdf output_dir image_count fmt = Ok pages ->
  List.NoDup (map image_path pages).
Proof.
  unfold convert_pdf_to_images. destruct (pdf_exists pdf); [|discriminate].
  cbn [negb]. intros [= <-].
  rewrite map_map. cbn [image_path]. apply NoDup_map_injective; [|apply seq_NoDup].
  intros x y _ _ H. apply path_join_injective in H.
  now apply page_image_name_injective in H.
Qed.

Lemma page_images_have_distinct_paths_witness :
  List.NoDup
    (map image_path
       [{| page_number := 1; image_path := "docs/commande_images/page_001.jpeg";
           ocr_data := None |};
        {| page_number := 2; image_path := "docs/commande_images/page_002.jpeg";
           ocr_data := @None (StructuredOCR value) |}]).
Proof.
  apply (page_images_have_distinct_paths sample_pdf None 2 "jpeg"). reflexivity.
Defined.

Lemma alloc_pages_numbers (ps : list (PDFPage value)) : forall h,
  map page_number (snd (alloc_pages h ps)) = map page_number ps.
Proof.
  induction ps as [|p ps IH]; intros h; simpl; [reflexivity|].
  destruct (alloc_page_spec h p) as (_ & _ & Hnum).
  destruct (alloc_page h p) as [h1 q]. specialize (IH h1).
  destruct (alloc_pages h1 ps) as [h2 qs]. simpl in *. now rewrite Hnum, IH.
Qed.

Lemma process_pdf_pages_numbers client prompt_dir pages name :
  map page_number (snd (fst (process_pdf_pages client prompt_dir pages name)))
  = map page_number pages.
Proof.
  destruct (process_pdf_pages_outcome client prompt_dir pages name)
    as [[-> ->] | [(first & rest & combined & -> & _ & ->) | [_ ->]]];
    cbn [fst snd]; try reflexivity.
  rewrite process_individually_pages, map_map. reflexivity.
Qed.

(** X21: for the pages the converter builds, once the OCR step has filled
    them and they are in the store, the keys of the merged dict are in
    order of first appearance in ascending page order. *)
Theorem converted_pages_merge_in_page_order (pdf : PdfPath) (output_dir : option string)
    (image_count : nat) (fmt : string) (pages : list (PDFPage value))
    (client : Client) (prompt_dir : PromptDir) (name : option string) (h : heap) :
  convert_pdf_to_images pdf output_dir image_count fmt = Ok pages ->
  dict_keys
    (snd (merge_pages
            (fst (alloc_pages h (snd (fst (process_pdf_pages client prompt_dir pages name)))))
            (snd (alloc_pages h (snd (fst (process_pdf_pages client prompt_dir pages name)))))))
  = first_seen
      (scan_keys
         (sort_pages
            (snd (alloc_pages h
                    (snd (fst (process_pdf_pages client prompt_dir pages name))))))).
Proof.
  intros Hconvert. rewrite merge_pages_keys. rewrite sort_pages_ascending; [reflexivity|].
  unfold convert_pdf_to_images in Hconvert.
  destruct (pdf_exists pdf); [|discriminate]. cbn [negb] in Hconvert.
  injection Hconvert as <-.
  match goal with
  | |- context [process_pdf_pages _ _ ?converted _] =>
      apply (ascending_numbers converted);
        [|apply ascending_from_seq; reflexivity]
  end.
  now rewrite alloc_pages_numbers, process_pdf_pages_numbers.
Qed.

Lemma converted_pages_merge_in_page_order_witness :
  dict_keys
    (snd (merge_pages
            (fst (alloc_pages []
                    (snd (fst (process_pdf_pages echo_client invoice_prompts
                                                 two_blank_pages None)))))
            (snd (alloc_pages []
                    (snd (fst (process_pdf_pages echo_client invoice_prompts
                                                 two_blank_pages None)))))))
  = first_seen
      (scan_keys
         (sort_pages
            (snd (alloc_pages []
                    (snd (fst (process_pdf_pages echo_client invoice_prompts
                                                 two_blank_pages None))))))).
Proof.
  apply (converted_pages_merge_in_page_order
           {| pdf_exists := true; pdf_text := "page.pdf"; pdf_parent := ".";
              pdf_stem := "page" |} (Some ".") 2 "jpeg").
  reflexivity.
Defined.

(** ** The steps of the application (src/app.py) *)

Lemma projection_result_wf (e : ExtractionResult) (tables : dict DataFrame) :
  create_dataframe_from_extraction_result e = Ok tables ->
  tables <> [] /\ forall name df, In (name, df) tables -> df_wf df.
Proof.
  intros Hcreate. pose proof (projection_shape e tables Hcreate) as Hshape.
  destruct (extracted_data e) as [| b | z | s | l | [|kv d]] eqn:He;
    try (subst tables; split; [discriminate|];
         intros name df [[= <- <-]|[]];
         repeat split; repeat constructor; simpl; tauto).
  rewrite (create_dataframe_loop e kv d He) in Hcreate. split.
  - cbn [for_each] in Hcreate.
    destruct (classify [] kv) as [tables1|] eqn:Hstep; cbn [bind] in Hcreate;
      [|discriminate].
    eapply for_each_classify_not_nil; [|exact Hcreate].
    eapply classify_not_nil. exact Hstep.
  - eapply for_each_classify_wf; [|exact Hcreate]. intros ? ? [].
Qed.

(** X22: [_step_create_dataframes] hands the application at least one
    table whatever the extraction result holds, every table with at least
    one row and one cell per row in each of its distinctly named columns;
    when the projection raises, the one table is named "Erreur" and holds
    the message in its only cell, and that is the only case in which an
    error is shown. *)
Theorem step_create_dataframes_always_gives_tables (extraction_result : ExtractionResult) :
  let '(tables, shown) := step_create_dataframes extraction_result in
  tables <> []
  /\ (forall name df, In (name, df) tables ->
        (1 <= df_index df)%nat
        /\ dict_wf (df_columns df)
        /\ Forall (fun col => length col = df_index df) (dict_values (df_columns df)))
  /\ match create_dataframe_from_extraction_result extraction_result with
     | Ok projected => tables = projected /\ shown = []
     | Raise e =>
         tables = [(ERROR_TABLE,
                    {| df_index := 1;
                       df_columns := [("Message", [Val (VStr (exn_message e))])] |})]
         /\ shown = [("Erreur lors de la création des DataFrames: "
                      ++ exn_message e)%string]
     end.
Proof.
  unfold step_create_dataframes. cbn [extract_dataframes_from_ocr_json].
  destruct (create_dataframe_from_extraction_result extraction_result)
    as [tables|e] eqn:Hcreate.
  - destruct (projection_result_wf _ _ Hcreate) as [Hne Hwf].
    split; [exact Hne|]. split; [|now split].
    intros name df Hin. destruct (Hwf name df Hin) as (H1 & H2 & H3). auto.
  - split; [discriminate|]. split; [|now split].
    intros name df [[= <- <-]|[]].
    repeat split; repeat constructor; simpl; tauto.
Qed.

(** X11: when the selected prompt is not among the loaded ones, the
    extraction step shows one error, leaves the store and the pages as
    they are and returns a result holding the message under "error"; the
    next step then shows no error and gives one table "Informations
    générales" of one row with the message in column "error". *)
Theorem missing_prompt_reaches_the_tables (self : DataExtractor) (h : heap)
    (pages : list (PDFPage loc)) (selected_prompt pdf_name : string) :
  dict_has selected_prompt (prompts self) = false ->
  let message := prompt_missing_message selected_prompt in
  step_extract_data self h pages selected_prompt pdf_name
  = (h, pages,
     {| pdf_file := pdf_name; prompt_name := selected_prompt;
        extracted_data := VDict [("error", VStr message)] |},
     [("Erreur lors de l'extraction des données: " ++ message)%string])
  /\ step_create_dataframes
       (snd (fst (step_extract_data self h pages selected_prompt pdf_name)))
     = ([(GENERAL,
          {| df_index := 1; df_columns := [("error", [Val (VStr message)])] |})],
        []).
Proof.
  intros Hmissing message.
  assert (Hstep : step_extract_data self h pages selected_prompt pdf_name
                  = (h, pages,
                     {| pdf_file := pdf_name; prompt_name := selected_prompt;
                        extracted_data := VDict [("error", VStr message)] |},
                     [("Erreur lors de l'extraction des données: " ++ message)%string])).
  { unfold step_extract_data, extract_data, state_at_raise. rewrite Hmissing.
    reflexivity. }
  split; [exact Hstep|]. rewrite Hstep. reflexivity.
Qed.

Lemma missing_prompt_reaches_the_tables_witness :
  let message := prompt_missing_message "devis" in
  step_extract_data offline_extractor [] [] "devis" "commande.pdf"
  = ([], [],
     {| pdf_file := "commande.pdf"; prompt_name := "devis";
        extracted_data := VDict [("error", VStr message)] |},
     [("Erreur lors de l'extraction des données: " ++ message)%string])
  /\ step_create_dataframes
       (snd (fst (step_extract_data offline_extractor [] [] "devis" "commande.pdf")))
     = ([(GENERAL,
          {| df_index := 1; df_columns := [("error", [Val (VStr message)])] |})],
        []).
Proof.
  apply (missing_prompt_reaches_the_tables offline_extractor [] [] "devis" "commande.pdf").
  reflexivity.
Defined.
